(** * PDF-to-HTML conversion scripts: a shallow embedding and its properties

    The repository holds independent scripts, each exposing a function
    [convert_pdf_to_html] built on a third-party extraction library.  This
    development embeds the scripts' own code:

    - [fritz_test2.py]     (class [PDFToHTMLConverter], PyMuPDF "dict" output),
    - [fritz_test.py]      (PyMuPDF "html" output wrapped in page divs),
    - [pdfplumber_test.py] (pdfplumber plain text wrapped in page divs),
    - [new.py]             (PyMuPDF "html" output in a bare wrapper),
    - [pdfminer_test.py]   (the HTML document of pdfminer, written as it is),
    - [poppdf_test.py]     (the HTML of pdfminer put into a template).

    [pdf2htmlEX.py] hands the path to pypdf2htmlEX and writes what
    [to_html()] returns; what that call reads, writes and returns is the
    library's own, so the script is embedded over an arbitrary action of
    the library and stays outside the statements that need the library to
    be a function of the bytes of the input file.

    The libraries themselves (PDF parsing, rendering) are not part of the
    repository: every library call is an oracle whose outcome is either a
    value or a raised exception, and whose result is a function of the bytes
    of the input file.  Python exceptions, the logger, the two output streams
    and the file system are threaded through an explicit state-and-error
    monad, in which a raised exception keeps the effects that came before
    it.  Strings are byte strings; only ASCII letters have a case. *)

From Stdlib Require Import ZArith NArith String Ascii List Bool Lia Sorted.
From Stdlib Require Import Numbers.DecimalString.
From Stdlib Require Import Floats.PrimFloat.
Import ListNotations.

Local Open Scope string_scope.
Local Open Scope Z_scope.

(* ================================================================== *)
(** * Python runtime pieces used by the scripts *)
(* ================================================================== *)

Module Py.

(** The double quote and the newline, as one-character strings. *)
Definition dq : string := String (ascii_of_nat 34) EmptyString.
Definition nl : string := String (ascii_of_nat 10) EmptyString.

(** [q s] is [s] between double quotes: an HTML attribute value. *)
Definition q (s : string) : string := dq ++ s ++ dq.

(** ** Numbers *)

(** A Python number as the libraries hand it over: an [int] or a [float]. *)
Inductive pynum : Type :=
| PyInt (z : Z)
| PyFloat (f : float).

(** [str(z)] for an [int]. *)
Definition str_of_Z (z : Z) : string := NilEmpty.string_of_int (Z.to_int z).

(** [x != k] for a number [x] and an [int] literal [k] that a float holds
    exactly. *)
Definition num_ne (x : pynum) (k : Z) (kf : float) : bool :=
  match x with
  | PyInt z => negb (z =? k)
  | PyFloat f => negb (PrimFloat.eqb f kf)
  end.

(** ** Strings *)

(** [c.lower()] on one character (ASCII letters; other bytes are kept). *)
Definition lower_ascii (c : ascii) : ascii :=
  let n := N_of_ascii c in
  if ((65 <=? n) && (n <=? 90))%N then ascii_of_N (n + 32) else c.

(** [s.lower()]. *)
Fixpoint lower (s : string) : string :=
  match s with
  | EmptyString => EmptyString
  | String c t => String (lower_ascii c) (lower t)
  end.

(** [sub in s]. *)
Fixpoint str_in (sub s : string) : bool :=
  prefix sub s ||
  match s with
  | EmptyString => false
  | String _ t => str_in sub t
  end.

(** [sep.join(parts)]. *)
Definition join (sep : string) (parts : list string) : string :=
  String.concat sep parts.

(** Truth value of a list and of a string ([if xs:]). *)
Definition truthy_list {A : Type} (l : list A) : bool :=
  match l with [] => false | _ :: _ => true end.

Definition truthy_str (s : string) : bool :=
  match s with EmptyString => false | String _ _ => true end.

(** [html.escape(s)] with its default [quote=True]: the five characters
    [&], [<], [>], double quote and single quote are replaced. *)
Definition escape_ascii (c : ascii) : string :=
  match N_of_ascii c with
  | 38%N => "&amp;"
  | 60%N => "&lt;"
  | 62%N => "&gt;"
  | 34%N => "&quot;"
  | 39%N => "&#x27;"
  | _ => String c EmptyString
  end.

Fixpoint escape (s : string) : string :=
  match s with
  | EmptyString => EmptyString
  | String c t => escape_ascii c ++ escape t
  end.

(** ** The format specification [06x] *)

Definition hex_digit (d : Z) : ascii :=
  match String.get (Z.to_nat d) "0123456789abcdef" with
  | Some c => c
  | None => "0"%char
  end.

(** Hexadecimal digits of a non-negative number, most significant first;
    [fuel] bounds the number of digits. *)
Fixpoint hex_fuel (fuel : nat) (n : Z) (acc : string) : string :=
  match fuel with
  | O => acc
  | S fuel' =>
      let acc' := String (hex_digit (n mod 16)) acc in
      if n <? 16 then acc' else hex_fuel fuel' (n / 16) acc'
  end.

Definition hex (n : Z) : string := hex_fuel (S (Z.to_nat (Z.log2 n))) n "".

Fixpoint zeros (k : nat) : string :=
  match k with
  | O => EmptyString
  | S k' => String "0" (zeros k')
  end.

(** [format(n, "06x")]: lower-case hexadecimal, sign first, zero-padded to
    a minimum width of six characters (the sign counts). *)
Definition format_06x (n : Z) : string :=
  if n <? 0 then
    let h := hex (- n) in "-" ++ zeros (5 - String.length h) ++ h
  else
    let h := hex n in zeros (6 - String.length h) ++ h.

(** ** base64 *)

Definition b64_alphabet : string :=
  "ABCDEFGHIJKLMNOPQRSTUVWXYZabcdefghijklmnopqrstuvwxyz0123456789+/".

Definition b64_char (n : N) : ascii :=
  match String.get (N.to_nat n) b64_alphabet with
  | Some c => c
  | None => "="%char
  end.

(** [base64.b64encode(bs).decode()] on a list of bytes (numbers below 256). *)
Fixpoint b64encode (bs : list N) : string :=
  match bs with
  | [] => EmptyString
  | [a] =>
      String (b64_char (a / 4))
        (String (b64_char ((a mod 4) * 16)) "==")
  | [a; b] =>
      String (b64_char (a / 4))
        (String (b64_char ((a mod 4) * 16 + b / 16))
           (String (b64_char ((b mod 16) * 4)) "="))
  | a :: b :: c :: rest =>
      String (b64_char (a / 4))
        (String (b64_char ((a mod 4) * 16 + b / 16))
           (String (b64_char ((b mod 16) * 4 + c / 64))
              (String (b64_char (c mod 64)) (b64encode rest))))
  end%N.

(** ** Iteration *)

(** [l.append(x)], as the list that results. *)
Definition list_append {A : Type} (l : list A) (x : A) : list A :=
  (l ++ [x])%list.

(** [enumerate(l, start)]. *)
Fixpoint enumerate {A : Type} (start : Z) (l : list A) : list (Z * A) :=
  match l with
  | [] => []
  | x :: t => (start, x) :: enumerate (start + 1) t
  end.

(** ** Exceptions *)

(** An exception object: its class name and [str(e)].  Every exception of
    the model is an [Exception], so [except Exception] catches it. *)
Record exn : Type := mk_exn { exn_type : string; exn_msg : string }.

(** Outcome of a call: a value, or a raised exception. *)
Inductive res (A : Type) : Type :=
| Ok (a : A)
| Raise (e : exn).
Arguments Ok {A} a.
Arguments Raise {A} e.

Definition is_raise {A : Type} (r : res A) : bool :=
  match r with Ok _ => false | Raise _ => true end.

End Py.
Import Py.

(* ================================================================== *)
(** * The world around a script: files, logger, output streams *)
(* ================================================================== *)

Module Sys.

(** Regular files (path to content) and directories. *)
Record filesys : Type := mk_fs {
  files : string -> option string;
  dirs : string -> bool
}.

Inductive level : Type := INFO | WARNING | ERROR.

(** A record handed to a logger: the logger's name, the level, the message. *)
Record log_record : Type := mk_log_record {
  lr_logger : string;
  lr_level : level;
  lr_msg : string
}.

Record world : Type := mk_world {
  fs : filesys;
  log : list log_record;         (* records of the [logging] module *)
  stdout : list string;          (* lines written by [print] *)
  stderr : list string           (* lines written by [print(file=sys.stderr)] *)
}.

(** Python and operating-system primitives that are outside the
    repository and are not modelled further. *)
Record runtime : Type := mk_runtime {
  float_str : float -> string;           (* [str(x)] of a float *)
  path_stem : string -> string;          (* [pathlib.Path(p).stem] *)
  path_basename : string -> string;      (* [os.path.basename] *)
  path_splitext_root : string -> string; (* [os.path.splitext(p)[0]] *)
  path_join : string -> string -> string;(* [os.path.join] *)
  (* [template.format(arg)] with the one positional argument [arg] *)
  str_format : string -> string -> res string;
  (* whether [open(path, "w")] fails in a file system, and how *)
  open_w_error : filesys -> string -> option exn;
  (* whether [os.makedirs(path, exist_ok=True)] fails, and how *)
  makedirs_error : filesys -> string -> option exn;
  (* whether [f.write(content)], with the flush that closes the file just
     opened at [path], fails, how, and how many characters of [content] have
     reached the file by then *)
  write_error : filesys -> string -> string -> option (exn * nat)
}.

(** ** State and exceptions *)

Definition M (A : Type) : Type := world -> res A * world.

Definition ret {A : Type} (a : A) : M A := fun w => (Ok a, w).

Definition raise {A : Type} (e : exn) : M A := fun w => (Raise e, w).

Definition bind {A B : Type} (m : M A) (k : A -> M B) : M B :=
  fun w =>
    match m w with
    | (Ok a, w') => k a w'
    | (Raise e, w') => (Raise e, w')
    end.

(** The outcome of a library call, entered into the monad. *)
Definition call {A : Type} (r : res A) : M A := fun w => (r, w).

(** [try: body / except Exception as e: handler e]. *)
Definition try_except {A : Type} (body : M A) (handler : exn -> M A) : M A :=
  fun w =>
    match body w with
    | (Ok a, w') => (Ok a, w')
    | (Raise e, w') => handler e w'
    end.

Declare Scope py_scope.
Delimit Scope py_scope with py.
Notation "x <- m ;; k" := (bind m (fun x => k))
  (at level 61, m at next level, right associativity) : py_scope.
Notation "m ;;; k" := (bind m (fun _ => k))
  (at level 61, right associativity) : py_scope.

(** A [for] loop whose body may raise and which carries the variables it
    assigns as an accumulator. *)
Fixpoint for_each {A S : Type} (l : list A) (body : S -> A -> M S) (s : S)
  : M S :=
  match l with
  | [] => ret s
  | x :: t => bind (body s x) (for_each t body)
  end.

(** ** Effects *)

Definition logger_log (logger : string) (lv : level) (msg : string) : M unit :=
  fun w =>
    (Ok tt, mk_world (fs w) (list_append (log w) (mk_log_record logger lv msg))
                     (stdout w) (stderr w)).

Definition print (line : string) : M unit :=
  fun w => (Ok tt, mk_world (fs w) (log w) (list_append (stdout w) line) (stderr w)).

Definition print_err (line : string) : M unit :=
  fun w => (Ok tt, mk_world (fs w) (log w) (stdout w) (list_append (stderr w) line)).

(** [os.path.exists(path)]; the empty path names nothing. *)
Definition path_exists (f : filesys) (path : string) : bool :=
  if String.eqb path "" then false
  else
    match files f path with
    | Some _ => true
    | None => dirs f path
    end.

Definition os_path_exists (path : string) : M bool :=
  fun w => (Ok (path_exists (fs w) path), w).

Definition write_fs (f : filesys) (path content : string) : filesys :=
  mk_fs (fun p => if String.eqb p path then Some content else files f p)
        (dirs f).

(** What a file holds when [f.write(content)] has failed after [n]
    characters. *)
Definition written (content : string) (n : nat) : string :=
  substring 0 n content.

(** [with open(path, "w", encoding="utf-8") as f: f.write(content)], the
    content being computed before the file is opened.  [open] creates the
    file or empties it; when [f.write] raises after that, the file stays,
    with what had been written. *)
Definition write_file (rt : runtime) (path content : string) : M unit :=
  fun w =>
    match open_w_error rt (fs w) path with
    | Some e => (Raise e, w)
    | None =>
        match write_error rt (write_fs (fs w) path "") path content with
        | Some (e, n) =>
            (Raise e, mk_world (write_fs (fs w) path (written content n))
                               (log w) (stdout w) (stderr w))
        | None =>
            (Ok tt, mk_world (write_fs (fs w) path content)
                             (log w) (stdout w) (stderr w))
        end
    end.

(** [open(path, "w", encoding="utf-8")]: the file is created or emptied. *)
Definition open_w (rt : runtime) (path : string) : M unit :=
  fun w =>
    match open_w_error rt (fs w) path with
    | Some e => (Raise e, w)
    | None =>
        (Ok tt, mk_world (write_fs (fs w) path "") (log w) (stdout w) (stderr w))
    end.

(** [f.write(content)] on the file opened at [path], up to the end of the
    [with] block. *)
Definition file_write (rt : runtime) (path content : string) : M unit :=
  fun w =>
    match write_error rt (fs w) path content with
    | Some (e, n) =>
        (Raise e, mk_world (write_fs (fs w) path (written content n))
                           (log w) (stdout w) (stderr w))
    | None =>
        (Ok tt, mk_world (write_fs (fs w) path content)
                         (log w) (stdout w) (stderr w))
    end.

(** [os.makedirs(path, exist_ok=True)]; the directory table records the
    leaf directory. *)
Definition makedirs (rt : runtime) (path : string) : M unit :=
  fun w =>
    match makedirs_error rt (fs w) path with
    | Some e => (Raise e, w)
    | None =>
        (Ok tt, mk_world (mk_fs (files (fs w))
                                (fun p => String.eqb p path || dirs (fs w) p))
                         (log w) (stdout w) (stderr w))
    end.

(** What the built-in [open(path, "rb")] raises for a path that is not a
    regular file. *)
Definition builtin_open_error (f : filesys) (path : string) : exn :=
  if dirs f path
  then mk_exn "IsADirectoryError" ("[Errno 21] Is a directory: '" ++ path ++ "'")
  else mk_exn "FileNotFoundError"
         ("[Errno 2] No such file or directory: '" ++ path ++ "'").

(** A library opening [path]: the bytes of the file are read, and the
    library's answer is a function [load] of those bytes; for a path that is
    not a regular file the library raises [error]. *)
Definition open_with {A : Type} (error : filesys -> string -> exn)
    (load : string -> res A) (path : string) : M A :=
  fun w =>
    match files (fs w) path with
    | Some bytes => (load bytes, w)
    | None => (Raise (error (fs w) path), w)
    end.

End Sys.
Import Sys.
Local Open Scope py_scope.

(* ================================================================== *)
(** * What the extraction libraries hand over *)
(* ================================================================== *)

(** PyMuPDF.  Every method call that can raise carries its outcome. *)
Module Fitz.

Definition bbox : Type := list pynum.

(** A span of [page.get_text("dict")]: a dictionary whose keys the script
    reads with [.get(key, default)]; [None] is an absent key. *)
Record span : Type := mk_span {
  span_text : option string;
  span_bbox : option bbox;
  span_font : option string;
  span_size : option pynum;
  span_color : option Z
}.

Record line : Type := mk_line {
  line_bbox : bbox;
  line_spans : list span
}.

(** A block; the key ["lines"] is present for text blocks only. *)
Record block : Type := mk_block {
  block_bbox : bbox;
  block_lines : option (list line)
}.

(** [fitz.Pixmap(page.parent, xref)]. *)
Record pixmap : Type := mk_pixmap {
  pix_n : Z;
  pix_alpha : Z;
  pix_width : Z;
  pix_height : Z;
  (* [pix.tobytes("png")] *)
  pix_png : res (list N);
  (* [fitz.Pixmap(fitz.csRGB, pix).tobytes("jpeg")] *)
  pix_rgb_jpeg : res (list N)
}.

(** An entry of [page.get_images()]. *)
Record image : Type := mk_image {
  img_xref : Z;                    (* [img[0]] *)
  img_pixmap : res pixmap;         (* [fitz.Pixmap(page.parent, xref)] *)
  img_rects : res (list bbox)      (* [page.get_image_rects(xref)] *)
}.

(** An entry of [page.get_drawings()]; [None] is an absent key.  The keys
    ["color"], ["fill"] and ["width"] may be present with the value [None]:
    for the first two the script's default is [None] as well, for
    ["width"] the value is the inner option. *)
Record path : Type := mk_path {
  path_rect : option bbox;
  path_color : option (list pynum);
  path_fill : option (list pynum);
  path_width : option (option pynum)
}.

Record page : Type := mk_page {
  page_width : pynum;                    (* [page.rect.width] *)
  page_height : pynum;                   (* [page.rect.height] *)
  get_text_dict : res (list block);      (* [page.get_text("dict")["blocks"]] *)
  get_text_html : res string;            (* [page.get_text("html")] *)
  get_images : res (list image);         (* [page.get_images()] *)
  get_drawings : res (list path)         (* [page.get_drawings()] *)
}.

(** An open document: [doc.load_page(i)] (also reached by iterating over
    the document) carries its outcome. *)
Record document : Type := mk_document {
  metadata : list (string * string);
  load_page : list (res page)
}.

End Fitz.

(** pdfplumber. *)
Module Pdfplumber.

Record page : Type := mk_page {
  (* [page.extract_text()]; a string, possibly empty, or [None] *)
  extract_text : res (option string)
}.

Record pdf : Type := mk_pdf {
  pages : res (list page)          (* [pdf.pages] *)
}.

End Pdfplumber.

(** pdfminer.six. *)
Module Pdfminer.

(** [LAParams(...)], with the keyword arguments that the scripts pass. *)
Record laparams : Type := mk_laparams {
  line_margin : float;
  word_margin : float;
  boxes_flow : float;
  detect_vertical : bool;
  all_texts : bool
}.

End Pdfminer.

(** The libraries as functions of the bytes of the input file.
    [pdfplumber.open] reads the file with the built-in [open], and so do the
    scripts that call pdfminer; what [fitz.open] raises for a path that is
    not a regular file is the library's own, and so is the metadata of the
    new PDF it makes when the file name is empty. *)
Record libraries : Type := mk_libraries {
  fitz_open_error : filesys -> string -> exn;
  fitz_new_metadata : list (string * string);
  fitz_load : string -> res Fitz.document;
  pdfplumber_load : string -> res Pdfplumber.pdf;
  (* what [extract_text_to_fp(fin, output_string, output_type='html',
     codec=..., laparams=...)] leaves in [output_string] *)
  pdfminer_html :
    option string -> option Pdfminer.laparams -> string -> res string
}.

(** [fitz.open(filename)].  PyMuPDF takes an empty file name as no file
    name: it opens no file and returns a new PDF without pages.  For every
    other name the file is read, and a path that is not a regular file
    raises. *)
Definition fitz_open (lib : libraries) (filename : string) : M Fitz.document :=
  if String.eqb filename ""
  then ret (Fitz.mk_document (fitz_new_metadata lib) [])
  else open_with (fitz_open_error lib) (fitz_load lib) filename.

(* ================================================================== *)
(** * fritz_test2.py *)
(* ================================================================== *)

Module fritz_test2.

(** [d.get(key, default)] on a key that may be absent. *)
Definition get {A : Type} (entry : option A) (default : A) : A :=
  match entry with
  | Some v => v
  | None => default
  end.

(** ** The per-page content records *)

Record font_info : Type := mk_font_info {
  fi_font : string;
  fi_size : pynum;
  fi_color : Z;
  fi_bold : bool;
  fi_italic : bool
}.

Record span_data : Type := mk_span_data {
  sd_text : string;
  sd_bbox : Fitz.bbox;
  sd_font_info : font_info
}.

Record line_data : Type := mk_line_data {
  ld_bbox : Fitz.bbox;
  ld_spans : list span_data
}.

Record block_data : Type := mk_block_data {
  bd_type : string;
  bd_bbox : Fitz.bbox;
  bd_lines : list line_data
}.

Record image_info : Type := mk_image_info {
  ii_index : Z;
  ii_page : Z;
  ii_format : string;
  ii_data : string;
  ii_width : Z;
  ii_height : Z;
  ii_rects : list Fitz.bbox
}.

Record drawing_info : Type := mk_drawing_info {
  di_type : string;
  di_bbox : Fitz.bbox;
  di_stroke_color : option (list pynum);
  di_fill_color : option (list pynum);
  di_width : option pynum
}.

Record page_content : Type := mk_page_content {
  pc_page_num : Z;
  pc_dimensions : pynum * pynum;
  pc_text_blocks : list block_data;
  pc_images : list image_info;
  pc_drawings : list drawing_info
}.

Record content : Type := mk_content {
  c_pages : list page_content;
  c_images : list image_info;
  c_fonts : list string;
  c_metadata : list (string * string)
}.

(** ** class PDFToHTMLConverter *)

Record PDFToHTMLConverter : Type := mk_converter {
  embed_fonts : bool;
  preserve_layout : bool;
  logger : string                 (* the name of [logging.getLogger(__name__)] *)
}.

Section Methods.

Variable rt : runtime.
Variable lib : libraries.

Definition __name__ : string := "__main__".

(** [__init__]; [logging.basicConfig] configures the output format of the
    records and leaves the modelled state as it is. *)
Definition __init__ (embed_fonts preserve_layout : bool)
  : M PDFToHTMLConverter :=
  ret (mk_converter embed_fonts preserve_layout __name__).

(** *** Extraction *)

(** The body of the innermost loop of [_extract_text_blocks]. *)
Definition span_data_of (span : Fitz.span) : span_data :=
  let font_info :=
    mk_font_info
      (get (Fitz.span_font span) "")
      (get (Fitz.span_size span) (PyInt 12))
      (get (Fitz.span_color span) 0)
      (str_in "bold" (lower (get (Fitz.span_font span) "")))
      (str_in "italic" (lower (get (Fitz.span_font span) ""))) in
  mk_span_data
    (get (Fitz.span_text span) "")
    (get (Fitz.span_bbox span) [PyInt 0; PyInt 0; PyInt 0; PyInt 0])
    font_info.

Definition _extract_text_blocks (self : PDFToHTMLConverter) (page : Fitz.page)
  : M (list block_data) :=
  blocks <- call (Fitz.get_text_dict page) ;;
  ret (fold_left
         (fun text_blocks block =>
            match Fitz.block_lines block with
            | Some lines =>
                let block_lines :=
                  fold_left
                    (fun acc line =>
                       let spans :=
                         fold_left
                           (fun acc span => list_append acc (span_data_of span))
                           (Fitz.line_spans line) [] in
                       list_append acc (mk_line_data (Fitz.line_bbox line) spans))
                    lines [] in
                list_append text_blocks
                  (mk_block_data "text" (Fitz.block_bbox block) block_lines)
            | None => text_blocks
            end)
         blocks []).

(** The body of the [try] in [_extract_images]. *)
Definition extract_image (page : Fitz.page) (page_num img_index : Z)
    (img : Fitz.image) : M image_info :=
  pix <- call (Fitz.img_pixmap img) ;;
  encoded <-
    (if Fitz.pix_n pix - Fitz.pix_alpha pix <? 4
     then img_data <- call (Fitz.pix_png pix) ;; ret (img_data, "png")
     else img_data <- call (Fitz.pix_rgb_jpeg pix) ;; ret (img_data, "jpeg")) ;;
  let img_b64 := b64encode (fst encoded) in
  img_rects <- call (Fitz.img_rects img) ;;
  ret (mk_image_info img_index page_num (snd encoded) img_b64
         (Fitz.pix_width pix) (Fitz.pix_height pix) img_rects).

Definition _extract_images (self : PDFToHTMLConverter) (page : Fitz.page)
    (page_num : Z) : M (list image_info) :=
  image_list <- call (Fitz.get_images page) ;;
  for_each (enumerate 0 image_list)
    (fun images entry =>
       let '(img_index, img) := entry in
       try_except
         (image_info <- extract_image page page_num img_index img ;;
          ret (list_append images image_info))
         (fun e =>
            logger_log (logger self) WARNING
              ("Could not extract image " ++ str_of_Z img_index
                 ++ " from page " ++ str_of_Z page_num ++ ": " ++ exn_msg e) ;;;
            ret images))
    [].

Definition drawing_info_of (path : Fitz.path) : drawing_info :=
  mk_drawing_info "drawing"
    (get (Fitz.path_rect path) [PyInt 0; PyInt 0; PyInt 0; PyInt 0])
    (Fitz.path_color path)
    (Fitz.path_fill path)
    (get (Fitz.path_width path) (Some (PyInt 1))).

Definition _extract_drawings (self : PDFToHTMLConverter) (page : Fitz.page)
  : M (list drawing_info) :=
  try_except
    (paths <- call (Fitz.get_drawings page) ;;
     ret (fold_left (fun drawings path => list_append drawings (drawing_info_of path))
            paths []))
    (fun e =>
       logger_log (logger self) WARNING ("Could not extract drawings: " ++ exn_msg e) ;;;
       ret []).

Definition _extract_page_content (self : PDFToHTMLConverter)
    (page : Fitz.page) (page_num : Z) : M page_content :=
  text_blocks <- _extract_text_blocks self page ;;
  images <- _extract_images self page page_num ;;
  drawings <- _extract_drawings self page ;;
  ret (mk_page_content page_num (Fitz.page_width page, Fitz.page_height page)
         text_blocks images drawings).

Definition _extract_content_from_pdf (self : PDFToHTMLConverter)
    (doc : Fitz.document) : M content :=
  for_each (enumerate 0 (Fitz.load_page doc))
    (fun content entry =>
       let '(page_num, loaded) := entry in
       page <- call loaded ;;
       page_content <- _extract_page_content self page page_num ;;
       ret (mk_content (list_append (c_pages content) page_content)
              (c_images content) (c_fonts content) (c_metadata content)))
    (mk_content [] [] [] (Fitz.metadata doc)).

(** *** Generation *)

Definition _generate_css (self : PDFToHTMLConverter) (content : content)
  : string :=
  "
        body {
            font-family: Arial, sans-serif;
            margin: 0;
            padding: 20px;
            background-color: #f5f5f5;
        }
        
        .pdf-container {
            max-width: 1200px;
            margin: 0 auto;
            background-color: white;
            box-shadow: 0 0 10px rgba(0, 0, 0, 0.1);
            border-radius: 8px;
            overflow: hidden;
        }
        
        .pdf-title {
            background-color: #2c3e50;
            color: white;
            padding: 20px;
            margin: 0;
            font-size: 24px;
            font-weight: bold;
        }
        
        .pdf-page {
            padding: 20px;
            border-bottom: 2px solid #ecf0f1;
            position: relative;
            min-height: 400px;
        }
        
        .pdf-page:last-child {
            border-bottom: none;
        }
        
        .page-number {
            position: absolute;
            top: 10px;
            right: 20px;
            background-color: #3498db;
            color: white;
            padding: 5px 10px;
            border-radius: 15px;
            font-size: 12px;
            font-weight: bold;
        }
        
        .text-block {
            margin: 10px 0;
            line-height: 1.4;
        }
        
        .text-span {
            display: inline;
        }
        
        .bold {
            font-weight: bold;
        }
        
        .italic {
            font-style: italic;
        }
        
        .pdf-image {
            max-width: 100%;
            height: auto;
            display: block;
            margin: 15px 0;
            border: 1px solid #ddd;
            border-radius: 4px;
        }
        
        .image-container {
            text-align: center;
            margin: 20px 0;
        }
        
        .drawing-element {
            position: absolute;
            border: 1px solid #ccc;
        }
        
        @media print {
            .pdf-container {
                box-shadow: none;
                border-radius: 0;
            }
            
            .pdf-page {
                page-break-after: always;
            }
            
            .pdf-page:last-child {
                page-break-after: auto;
            }
        }
        ".

(** The body of the inner loop of [_generate_text_block_html]: the
    classes, the inline styles and the element of one span. *)
Definition span_classes (font_info : font_info) : list string :=
  let classes := ["text-span"] in
  let classes := if fi_bold font_info then list_append classes "bold" else classes in
  let classes := if fi_italic font_info then list_append classes "italic" else classes in
  classes.

Definition num_str (x : pynum) : string :=
  match x with
  | PyInt z => str_of_Z z
  | PyFloat f => float_str rt f
  end.

Definition span_styles (font_info : font_info) : list string :=
  let styles := [] in
  let styles :=
    if num_ne (fi_size font_info) 12 12%float
    then list_append styles ("font-size: " ++ num_str (fi_size font_info) ++ "px")
    else styles in
  let styles :=
    if negb (fi_color font_info =? 0)
    then
      let color_hex := "#" ++ format_06x (fi_color font_info) in
      list_append styles ("color: " ++ color_hex)
    else styles in
  styles.

Definition class_attr (classes : list string) : string :=
  if truthy_list classes then " class=" ++ q (join " " classes) else "".

Definition style_attr (styles : list string) : string :=
  if truthy_list styles then " style=" ++ q (join "; " styles) else "".

Definition span_html (span : span_data) : string :=
  let text := escape (sd_text span) in
  let font_info := sd_font_info span in
  "<span" ++ class_attr (span_classes font_info)
    ++ style_attr (span_styles font_info) ++ ">" ++ text ++ "</span>".

Definition _generate_text_block_html (self : PDFToHTMLConverter)
    (block : block_data) : string :=
  let html_parts := ["<div class=" ++ q "text-block" ++ ">"] in
  let html_parts :=
    fold_left
      (fun html_parts line =>
         let line_parts :=
           fold_left (fun line_parts span => list_append line_parts (span_html span))
             (ld_spans line) [] in
         if truthy_list line_parts
         then list_append html_parts (join "" line_parts)
         else html_parts)
      (bd_lines block) html_parts in
  let html_parts := list_append html_parts "</div>" in
  join nl html_parts.

Definition _generate_image_html (self : PDFToHTMLConverter)
    (image : image_info) : string :=
  let data_uri :=
    "data:image/" ++ ii_format image ++ ";base64," ++ ii_data image in
  "<div class=" ++ q "image-container" ++ ">" ++ nl
    ++ "                <img src=" ++ q data_uri ++ " " ++ nl
    ++ "                     alt=" ++ q ("PDF Image " ++ str_of_Z (ii_index image))
    ++ " " ++ nl
    ++ "                     class=" ++ q "pdf-image" ++ nl
    ++ "                     width=" ++ q (str_of_Z (ii_width image)) ++ " " ++ nl
    ++ "                     height=" ++ q (str_of_Z (ii_height image)) ++ ">" ++ nl
    ++ "            </div>".

Definition _generate_page_html (self : PDFToHTMLConverter)
    (page_data : page_content) : string :=
  let page_num := pc_page_num page_data in
  let html_parts :=
    [ "        <div class=" ++ q "pdf-page" ++ " id="
        ++ q ("page-" ++ str_of_Z (page_num + 1)) ++ ">";
      "            <div class=" ++ q "page-number" ++ ">Page "
        ++ str_of_Z (page_num + 1) ++ "</div>" ] in
  let html_parts :=
    fold_left
      (fun html_parts block =>
         if String.eqb (bd_type block) "text"
         then
           let block_html := _generate_text_block_html self block in
           list_append html_parts ("            " ++ block_html)
         else html_parts)
      (pc_text_blocks page_data) html_parts in
  let html_parts :=
    fold_left
      (fun html_parts image =>
         let image_html := _generate_image_html self image in
         list_append html_parts ("            " ++ image_html))
      (pc_images page_data) html_parts in
  let html_parts := list_append html_parts "        </div>" in
  join nl html_parts.

Definition _generate_body_html (self : PDFToHTMLConverter) (content : content)
  : string :=
  let html_parts :=
    fold_left
      (fun html_parts page_data =>
         let page_html := _generate_page_html self page_data in
         list_append html_parts page_html)
      (c_pages content) [] in
  join nl html_parts.

Definition _generate_complete_html (self : PDFToHTMLConverter)
    (content : content) (pdf_path : string) : string :=
  let pdf_name := path_stem rt pdf_path in
  let css := _generate_css self content in
  let body_html := _generate_body_html self content in
  "<!DOCTYPE html>" ++ nl
    ++ "<html lang=" ++ q "en" ++ ">" ++ nl
    ++ "<head>" ++ nl
    ++ "    <meta charset=" ++ q "UTF-8" ++ ">" ++ nl
    ++ "    <meta name=" ++ q "viewport" ++ " content="
    ++ q "width=device-width, initial-scale=1.0" ++ ">" ++ nl
    ++ "    <title>" ++ escape pdf_name ++ "</title>" ++ nl
    ++ "    <style>" ++ nl
    ++ css ++ nl
    ++ "    </style>" ++ nl
    ++ "</head>" ++ nl
    ++ "<body>" ++ nl
    ++ "    <div class=" ++ q "pdf-container" ++ ">" ++ nl
    ++ "        <h1 class=" ++ q "pdf-title" ++ ">" ++ escape pdf_name ++ "</h1>" ++ nl
    ++ body_html ++ nl
    ++ "    </div>" ++ nl
    ++ "</body>" ++ nl
    ++ "</html>".

(** *** The conversion *)

Definition output_path_or_default (pdf_path : string)
    (output_path : option string) : string :=
  match output_path with
  | None => path_stem rt pdf_path ++ ".html"
  | Some p => p
  end.

Definition PDFToHTMLConverter_convert_pdf_to_html (self : PDFToHTMLConverter)
    (pdf_path : string) (output_path : option string) : M string :=
  found <- os_path_exists pdf_path ;;
  if negb found
  then raise (mk_exn "FileNotFoundError" ("PDF file not found: " ++ pdf_path))
  else
    try_except
      (doc <- fitz_open lib pdf_path ;;
       html_content <- _extract_content_from_pdf self doc ;;
       let full_html := _generate_complete_html self html_content pdf_path in
       let output_path := output_path_or_default pdf_path output_path in
       write_file rt output_path full_html ;;;
       logger_log (logger self) INFO
         ("Successfully converted " ++ pdf_path ++ " to " ++ output_path) ;;;
       ret output_path)
      (fun e =>
         logger_log (logger self) ERROR ("Error converting PDF to HTML: " ++ exn_msg e) ;;;
         raise e).

(** The module-level convenience function. *)
Definition convert_pdf_to_html (pdf_path : string) (output_path : option string)
    (embed_fonts preserve_layout : bool) : M string :=
  converter <- __init__ embed_fonts preserve_layout ;;
  PDFToHTMLConverter_convert_pdf_to_html converter pdf_path output_path.

End Methods.

End fritz_test2.

(* ================================================================== *)
(** * fritz_test.py *)
(* ================================================================== *)

Module fritz_test.

Section Script.

Variable rt : runtime.
Variable lib : libraries.

(** The first element of [html_content]. *)
Definition html_header : string :=
  nl
  ++ "<!DOCTYPE html>" ++ nl
  ++ "<html>" ++ nl
  ++ "<head>" ++ nl
  ++ "    <meta charset=" ++ dq ++ "utf-8" ++ dq ++ ">" ++ nl
  ++ "    <style>" ++ nl
  ++ "        body { font-family: Arial, sans-serif; }" ++ nl
  ++ "        .page { margin: 1em; padding: 1em; border-bottom: 1px solid #ddd; }" ++ nl
  ++ "        pre { white-space: pre-wrap; }" ++ nl
  ++ "        table { border-collapse: collapse; }" ++ nl
  ++ "        td, th { border: 1px solid #ddd; padding: 8px; }" ++ nl
  ++ "    </style>" ++ nl
  ++ "</head>" ++ nl
  ++ "<body>" ++ nl.

Definition page_div (page_num : Z) : string :=
  "<div class=" ++ q "page" ++ " id=" ++ q ("page-" ++ str_of_Z page_num) ++ ">".

(** The body of the [for] loop over the document. *)
Definition page_step (html_content : list string) (entry : Z * res Fitz.page)
  : M (list string) :=
  let '(page_num, loaded) := entry in
  page <- call loaded ;;
  let html_content := list_append html_content (page_div page_num) in
  page_html <- call (Fitz.get_text_html page) ;;
  let html_content := list_append html_content page_html in
  ret (list_append html_content "</div>").

(** [convert_pdf_to_html(pdf_path, output_folder)]; the script's default for
    [output_folder] is ["output"].  It returns [None]. *)
Definition convert_pdf_to_html (pdf_path output_folder : string) : M unit :=
  try_except
    (makedirs rt output_folder ;;;
     let pdf_name := path_splitext_root rt (path_basename rt pdf_path) in
     let output_path := path_join rt output_folder (pdf_name ++ ".html") in
     let html_content := [html_header] in
     doc <- fitz_open lib pdf_path ;;
     html_content <-
       for_each (enumerate 1 (Fitz.load_page doc)) page_step html_content ;;
     let html_content := list_append html_content "</body></html>" in
     write_file rt output_path (join nl html_content) ;;;
     print ("Successfully converted '" ++ pdf_path ++ "' to '"
              ++ output_path ++ "'"))
    (fun e => print_err ("An error occurred: " ++ exn_msg e)).

End Script.

End fritz_test.

(* ================================================================== *)
(** * pdfplumber_test.py *)
(* ================================================================== *)

Module pdfplumber_test.

Section Script.

Variable rt : runtime.
Variable lib : libraries.

Definition html_header : string :=
  "<!DOCTYPE html>" ++ nl
  ++ "<html>" ++ nl
  ++ "<head>" ++ nl
  ++ "<meta charset=" ++ dq ++ "utf-8" ++ dq ++ ">" ++ nl
  ++ "<title>PDF to HTML</title>" ++ nl
  ++ "<style>" ++ nl
  ++ "body { font-family: sans-serif; margin: 20px; }" ++ nl
  ++ ".page { margin-bottom: 20px; border: 1px solid #eee; padding: 15px; }" ++ nl
  ++ ".text-block { margin-bottom: 10px; }" ++ nl
  ++ ".image-container { text-align: center; margin: 10px 0; }" ++ nl
  ++ "img { max-width: 100%; height: auto; border: 1px solid #ddd; }" ++ nl
  ++ "</style>" ++ nl
  ++ "</head>" ++ nl
  ++ "<body>".

Definition page_div (number : Z) : string :=
  "<div class=" ++ q "page" ++ " id=" ++ q ("page-" ++ str_of_Z number) ++ ">".

(** Truth value of the result of [extract_text()]: [None] and the empty
    string are false. *)
Definition truthy_text (text : option string) : option string :=
  match text with
  | Some s => if truthy_str s then Some s else None
  | None => None
  end.

(** The body of the [for] loop over [pdf.pages]. *)
Definition page_step (html_content : list string) (entry : Z * Pdfplumber.page)
  : M (list string) :=
  let '(i, page) := entry in
  let html_content := list_append html_content (page_div (i + 1)) in
  let html_content :=
    list_append html_content ("<h2>Page " ++ str_of_Z (i + 1) ++ "</h2>") in
  text <- call (Pdfplumber.extract_text page) ;;
  let html_content :=
    match truthy_text text with
    | Some text =>
        let html_content :=
          list_append html_content ("<div class=" ++ q "text-block" ++ ">") in
        let html_content :=
          list_append html_content ("<pre>" ++ text ++ "</pre>") in
        list_append html_content "</div>"
    | None => html_content
    end in
  ret (list_append html_content "</div>").

(** [convert_pdf_to_html(pdf_path, output_folder)]; the script's default for
    [output_folder] is ["output"].  It returns the output path, or [None]
    after an exception. *)
Definition convert_pdf_to_html (pdf_path output_folder : string)
  : M (option string) :=
  try_except
    (makedirs rt output_folder ;;;
     let pdf_name := path_splitext_root rt (path_basename rt pdf_path) in
     let output_path := path_join rt output_folder (pdf_name ++ ".html") in
     let html_content := [html_header] in
     pdf <- open_with builtin_open_error (pdfplumber_load lib) pdf_path ;;
     pages <- call (Pdfplumber.pages pdf) ;;
     html_content <- for_each (enumerate 0 pages) page_step html_content ;;
     let html_content := list_append html_content ("</body>" ++ nl ++ "</html>") in
     write_file rt output_path (join nl html_content) ;;;
     ret (Some output_path))
    (fun e => print ("Error converting PDF: " ++ exn_msg e) ;;; ret None).

End Script.

End pdfplumber_test.

(* ================================================================== *)
(** * new.py *)
(* ================================================================== *)

Module new.

Section Script.

Variable rt : runtime.
Variable lib : libraries.

(** The body of the [for] loop over the document. *)
Definition page_step (html_content : string) (loaded : res Fitz.page)
  : M string :=
  page <- call loaded ;;
  page_html <- call (Fitz.get_text_html page) ;;
  ret (html_content ++ page_html).

Definition convert_pdf_to_html (pdf_path output_path : string) : M string :=
  try_except
    (doc <- fitz_open lib pdf_path ;;
     html_content <- for_each (Fitz.load_page doc) page_step "" ;;
     write_file rt output_path
       ("<html><body>" ++ html_content ++ "</body></html>") ;;;
     ret output_path)
    (fun e => raise (mk_exn "ValueError" ("Conversion failed: " ++ exn_msg e))).

End Script.

End new.

(* ================================================================== *)
(** * pdfminer_test.py *)
(* ================================================================== *)

Module pdfminer_test.

Section Script.

Variable rt : runtime.
Variable lib : libraries.

(** [convert_pdf_to_html(pdf_path, output_folder)]; the script's default for
    [output_folder] is ["output"].  It returns [None]. *)
Definition convert_pdf_to_html (pdf_path output_folder : string) : M unit :=
  try_except
    (makedirs rt output_folder ;;;
     let pdf_name := path_splitext_root rt (path_basename rt pdf_path) in
     let output_path := path_join rt output_folder (pdf_name ++ ".html") in
     output_string <-
       open_with builtin_open_error (pdfminer_html lib None None) pdf_path ;;
     write_file rt output_path output_string ;;;
     print ("Successfully converted '" ++ pdf_path ++ "' to '"
              ++ output_path ++ "'"))
    (fun e => print_err ("An error occurred: " ++ exn_msg e) ;;; raise e).

End Script.

End pdfminer_test.

(* ================================================================== *)
(** * poppdf_test.py *)
(* ================================================================== *)

Module poppdf_test.

Section Script.

Variable rt : runtime.
Variable lib : libraries.

Definition html_template : string :=
  nl
  ++ "<!DOCTYPE html>" ++ nl
  ++ "<html>" ++ nl
  ++ "<head>" ++ nl
  ++ "    <meta charset=" ++ dq ++ "utf-8" ++ dq ++ ">" ++ nl
  ++ "    <style>" ++ nl
  ++ "        body { font-family: Arial, sans-serif; line-height: 1.6; }" ++ nl
  ++ "        div { margin-bottom: 1em; }" ++ nl
  ++ "        table { border-collapse: collapse; width: 100%; }" ++ nl
  ++ "        td, th { border: 1px solid #ddd; padding: 8px; }" ++ nl
  ++ "        pre { white-space: pre-wrap; }" ++ nl
  ++ "    </style>" ++ nl
  ++ "</head>" ++ nl
  ++ "<body>" ++ nl
  ++ "{}" ++ nl
  ++ "</body>" ++ nl
  ++ "</html>" ++ nl.

Definition laparams : Pdfminer.laparams :=
  Pdfminer.mk_laparams 0x1.3333333333333p-2%float 0x1.999999999999ap-4%float
    0.5%float true true.

(** [convert_pdf_to_html(pdf_path, output_folder)]; the script's default for
    [output_folder] is ["output"].  It returns [None].  The output file is
    opened before the template is filled in. *)
Definition convert_pdf_to_html (pdf_path output_folder : string) : M unit :=
  try_except
    (makedirs rt output_folder ;;;
     let pdf_name := path_splitext_root rt (path_basename rt pdf_path) in
     let output_path := path_join rt output_folder (pdf_name ++ ".html") in
     output_string <-
       open_with builtin_open_error
         (pdfminer_html lib (Some "utf-8") (Some laparams)) pdf_path ;;
     open_w rt output_path ;;;
     let content := output_string in
     formatted <- call (str_format rt html_template content) ;;
     file_write rt output_path formatted ;;;
     print ("Successfully converted '" ++ pdf_path ++ "' to '"
              ++ output_path ++ "'"))
    (fun e => print_err ("An error occurred: " ++ exn_msg e) ;;; raise e).

End Script.

End poppdf_test.

(* ================================================================== *)
(** * pdf2htmlEX.py *)
(* ================================================================== *)

(** pypdf2htmlEX.  The library is handed the path, not the bytes: what its
    calls read and write is its own, and each call is an action on the
    world. *)
Module Pypdf2htmlEX.

(** The object [pypdf2htmlEX.PDF(pdf_path)], with its method [to_html()]. *)
Record pdf : Type := mk_pdf {
  to_html : M string
}.

End Pypdf2htmlEX.

Module pdf2htmlEX.

Section Script.

Variable rt : runtime.

(** [pypdf2htmlEX.PDF]. *)
Variable PDF : string -> M Pypdf2htmlEX.pdf.

(** Truth value of [output_path]: [None] and the empty string are false. *)
Definition truthy_path (output_path : option string) : option string :=
  match output_path with
  | Some p => if truthy_str p then Some p else None
  | None => None
  end.

Definition convert_pdf_to_html (pdf_path : string) (output_path : option string)
  : M string :=
  try_except
    (pdf <- PDF pdf_path ;;
     html <- Pypdf2htmlEX.to_html pdf ;;
     match truthy_path output_path with
     | Some output_path => write_file rt output_path html
     | None => ret tt
     end ;;;
     ret html)
    (fun e => raise (mk_exn "ValueError" ("Conversion failed: " ++ exn_msg e))).

End Script.

End pdf2htmlEX.

(* ================================================================== *)
(** * The scripts as programs *)
(* ================================================================== *)

(** The code that runs when a script is started. *)
Module Main.

Section Scripts.

Variable rt : runtime.
Variable lib : libraries.

(** [os.path.dirname(os.path.abspath(__file__))]. *)
Variable current_dir : string.



(** Truth value of what [pdfplumber_test.convert_pdf_to_html] returns:
    [None] and the empty string are false. *)
Definition truthy_result (result : option string) : option string :=
  match result with
  | Some path => if truthy_str path then Some path else None
  | None => None
  end.

(** The last lines of [pdfplumber_test.py]. *)
Definition pdfplumber_test_main : M unit :=
  result <- pdfplumber_test.convert_pdf_to_html rt lib "pdf/a.pdf" "output" ;;
  match truthy_result result with
  | Some result => print ("HTML file created at: " ++ result)
  | None => print "Conversion failed."
  end.

End Scripts.

End Main.

(* ================================================================== *)
(** * How the statements read the programs *)
(* ================================================================== *)

(** Notions the statements are phrased in. *)
Module Reading.

(** [sub] occurs in [s] as a contiguous substring. *)
Definition occurs (sub s : string) : Prop :=
  exists pre post, s = pre ++ sub ++ post.

(** Two strings are equal up to the case of their ASCII letters. *)
Definition ci_equal (a b : string) : Prop := lower a = lower b.

(** [pat] occurs in [s] case-insensitively: some contiguous part of [s]
    equals [pat] up to letter case. *)
Definition occurs_ci (pat s : string) : Prop :=
  exists pre mid post, s = pre ++ mid ++ post /\ ci_equal mid pat.

(** A packed sRGB colour [0xRRGGBB]. *)
Definition packed_rgb (c : Z) : Prop := 0 <= c < 16777216.

Definition is_hex_digit (c : ascii) : bool :=
  let n := N_of_ascii c in
  (((48 <=? n) && (n <=? 57)) || ((97 <=? n) && (n <=? 102)))%N.

Fixpoint all_hex (s : string) : bool :=
  match s with
  | EmptyString => true
  | String c t => is_hex_digit c && all_hex t
  end.

(** Exactly [k] hexadecimal digits of [n], least significant last. *)
Fixpoint hex_pad (k : nat) (n : Z) (acc : string) : string :=
  match k with
  | O => acc
  | S k' => hex_pad k' (n / 16) (String (hex_digit (n mod 16)) acc)
  end.

(** The number of places at which [sub] occurs in [s]. *)
Fixpoint count_str (sub s : string) : nat :=
  ((if prefix sub s then 1 else 0)
   + match s with
     | EmptyString => 0
     | String _ t => count_str sub t
     end)%nat.

End Reading.
Import Reading.

(** The outcome of each script as a function of the bytes of the input
    file, outside the state monad. *)
Module Outcome.

Import fritz_test2.

(** The world with further records handed to the logger. *)
Definition add_log (w : world) (records : list log_record) : world :=
  mk_world (fs w) (log w ++ records) (stdout w) (stderr w).

Definition add_stdout (w : world) (line : string) : world :=
  mk_world (fs w) (log w) (stdout w ++ [line]) (stderr w).

Definition add_stderr (w : world) (line : string) : world :=
  mk_world (fs w) (log w) (stdout w) (stderr w ++ [line]).

(** The world once [os.makedirs(folder, exist_ok=True)] has succeeded. *)
Definition after_makedirs (w : world) (folder : string) : world :=
  mk_world (mk_fs (files (fs w)) (fun p => String.eqb p folder || dirs (fs w) p))
    (log w) (stdout w) (stderr w).

(** The world in which [path] holds [content]. *)
Definition with_file (w : world) (path content : string) : world :=
  mk_world (write_fs (fs w) path content) (log w) (stdout w) (stderr w).

(** How [with open(path, "w") as f: f.write(content)] ends in [w]: the
    exception raised, if any, and the world then.  When [open] raises,
    nothing has changed; when [f.write] raises, the file has been created
    or emptied and holds what had been written. *)
Definition write_outcome (rt : runtime) (w : world) (path content : string)
  : option exn * world :=
  match open_w_error rt (fs w) path with
  | Some e => (Some e, w)
  | None =>
      match write_error rt (write_fs (fs w) path "") path content with
      | Some (e, n) => (Some e, with_file w path (written content n))
      | None => (None, with_file w path content)
      end
  end.

(** The output path of the scripts that take an output folder. *)
Definition output_path_in (rt : runtime) (pdf_path output_folder : string)
  : string :=
  path_join rt output_folder
    (path_splitext_root rt (path_basename rt pdf_path) ++ ".html").

(** *** fritz_test2.py *)

Definition line_data_of (line : Fitz.line) : line_data :=
  mk_line_data (Fitz.line_bbox line) (map span_data_of (Fitz.line_spans line)).

(** The text blocks of a page: the blocks that have lines, in order. *)
Fixpoint text_blocks_of (blocks : list Fitz.block) : list block_data :=
  match blocks with
  | [] => []
  | block :: rest =>
      match Fitz.block_lines block with
      | Some lines =>
          mk_block_data "text" (Fitz.block_bbox block) (map line_data_of lines)
            :: text_blocks_of rest
      | None => text_blocks_of rest
      end
  end.

(** What the extraction of one image yields, or the exception it raises. *)
Definition image_outcome (page_num img_index : Z) (img : Fitz.image)
  : res image_info :=
  match Fitz.img_pixmap img with
  | Raise e => Raise e
  | Ok pix =>
      let encoded :=
        if Fitz.pix_n pix - Fitz.pix_alpha pix <? 4
        then (Fitz.pix_png pix, "png")
        else (Fitz.pix_rgb_jpeg pix, "jpeg") in
      match fst encoded with
      | Raise e => Raise e
      | Ok img_data =>
          match Fitz.img_rects img with
          | Raise e => Raise e
          | Ok img_rects =>
              Ok (mk_image_info img_index page_num (snd encoded)
                    (b64encode img_data) (Fitz.pix_width pix)
                    (Fitz.pix_height pix) img_rects)
          end
      end
  end.

(** The images of a page that are kept: those whose extraction raises
    nothing, in order, each under the index it has in [page.get_images()]. *)
Fixpoint kept_images (page_num : Z) (entries : list (Z * Fitz.image))
  : list image_info :=
  match entries with
  | [] => []
  | (img_index, img) :: rest =>
      match image_outcome page_num img_index img with
      | Ok info => info :: kept_images page_num rest
      | Raise _ => kept_images page_num rest
      end
  end.

(** One warning for each image whose extraction raises. *)
Fixpoint image_warnings (logger : string) (page_num : Z)
    (entries : list (Z * Fitz.image)) : list log_record :=
  match entries with
  | [] => []
  | (img_index, img) :: rest =>
      match image_outcome page_num img_index img with
      | Ok _ => image_warnings logger page_num rest
      | Raise e =>
          mk_log_record logger WARNING
            ("Could not extract image " ++ str_of_Z img_index
               ++ " from page " ++ str_of_Z page_num ++ ": " ++ exn_msg e)
            :: image_warnings logger page_num rest
      end
  end.

(** The drawings of a page: none when [page.get_drawings()] raises. *)
Definition drawings_of (page : Fitz.page) : list drawing_info :=
  match Fitz.get_drawings page with
  | Ok paths => map drawing_info_of paths
  | Raise _ => []
  end.

Definition drawing_warnings (logger : string) (page : Fitz.page)
  : list log_record :=
  match Fitz.get_drawings page with
  | Ok _ => []
  | Raise e =>
      [mk_log_record logger WARNING
         ("Could not extract drawings: " ++ exn_msg e)]
  end.

(** The content of one page and the warnings logged on the way; the page
    fails only when [get_text("dict")] or [get_images()] raises. *)
Definition page_outcome (logger : string) (page : Fitz.page) (page_num : Z)
  : res page_content * list log_record :=
  match Fitz.get_text_dict page with
  | Raise e => (Raise e, [])
  | Ok blocks =>
      match Fitz.get_images page with
      | Raise e => (Raise e, [])
      | Ok image_list =>
          (Ok (mk_page_content page_num
                 (Fitz.page_width page, Fitz.page_height page)
                 (text_blocks_of blocks)
                 (kept_images page_num (enumerate 0 image_list))
                 (drawings_of page)),
           image_warnings logger page_num (enumerate 0 image_list)
             ++ drawing_warnings logger page)%list
      end
  end.

(** The contents of the pages in order, up to the first page that fails to
    load or to be extracted, with the warnings logged until then. *)
Fixpoint pages_outcome (logger : string) (entries : list (Z * res Fitz.page))
  : res (list page_content) * list log_record :=
  match entries with
  | [] => (Ok [], [])
  | (page_num, loaded) :: rest =>
      match loaded with
      | Raise e => (Raise e, [])
      | Ok page =>
          match page_outcome logger page page_num with
          | (Raise e, warnings) => (Raise e, warnings)
          | (Ok page_data, warnings) =>
              match pages_outcome logger rest with
              | (Raise e, more) => (Raise e, warnings ++ more)%list
              | (Ok pages, more) => (Ok (page_data :: pages), warnings ++ more)%list
              end
          end
      end
  end.

(** The HTML text that [fritz_test2] computes from the bytes of the input
    file, or the exception that stops it, with the warnings logged. *)
Definition fritz_test2_document (rt : runtime) (lib : libraries)
    (self : PDFToHTMLConverter) (pdf_path bytes : string)
  : res string * list log_record :=
  match fitz_load lib bytes with
  | Raise e => (Raise e, [])
  | Ok doc =>
      match pages_outcome (logger self) (enumerate 0 (Fitz.load_page doc)) with
      | (Raise e, warnings) => (Raise e, warnings)
      | (Ok pages, warnings) =>
          (Ok (_generate_complete_html rt self
                 (mk_content pages [] [] (Fitz.metadata doc)) pdf_path),
           warnings)
      end
  end.

(** *** fritz_test.py and new.py *)

(** The HTML of the pages as PyMuPDF gives it, up to the first failure. *)
Fixpoint pages_html (pages : list (res Fitz.page)) : res (list string) :=
  match pages with
  | [] => Ok []
  | loaded :: rest =>
      match loaded with
      | Raise e => Raise e
      | Ok page =>
          match Fitz.get_text_html page with
          | Raise e => Raise e
          | Ok page_html =>
              match pages_html rest with
              | Raise e => Raise e
              | Ok htmls => Ok (page_html :: htmls)
              end
          end
      end
  end.

(** The elements appended to [html_content] for the pages numbered from
    [start]. *)
Fixpoint fritz_test_blocks (start : Z) (htmls : list string) : list string :=
  match htmls with
  | [] => []
  | page_html :: rest =>
      fritz_test.page_div start :: page_html :: "</div>"
        :: fritz_test_blocks (start + 1) rest
  end.

(** What [fitz.open(path)] gives in a file system: a new PDF without pages
    for the empty path, else what the library makes of the bytes of the
    file. *)
Definition fitz_document_at (lib : libraries) (f : filesys) (path : string)
  : res Fitz.document :=
  if String.eqb path ""
  then Ok (Fitz.mk_document (fitz_new_metadata lib) [])
  else
    match files f path with
    | Some bytes => fitz_load lib bytes
    | None => Raise (fitz_open_error lib f path)
    end.

(** The HTML text that [fritz_test] computes from an open document. *)
Definition fritz_test_html (doc : Fitz.document) : res string :=
  match pages_html (Fitz.load_page doc) with
  | Raise e => Raise e
  | Ok htmls =>
      Ok (join nl ([fritz_test.html_header] ++ fritz_test_blocks 1 htmls
                     ++ ["</body></html>"])%list)
  end.

Definition fritz_test_document (lib : libraries) (bytes : string) : res string :=
  match fitz_load lib bytes with
  | Raise e => Raise e
  | Ok doc => fritz_test_html doc
  end.

(** The HTML text that [new] computes from an open document. *)
Definition new_html (doc : Fitz.document) : res string :=
  match pages_html (Fitz.load_page doc) with
  | Raise e => Raise e
  | Ok htmls =>
      Ok ("<html><body>" ++ String.concat "" htmls ++ "</body></html>")
  end.

Definition new_document (lib : libraries) (bytes : string) : res string :=
  match fitz_load lib bytes with
  | Raise e => Raise e
  | Ok doc => new_html doc
  end.

(** *** pdfplumber_test.py *)

(** The text of the pages, up to the first failure. *)
Fixpoint pages_text (pages : list Pdfplumber.page) : res (list (option string)) :=
  match pages with
  | [] => Ok []
  | page :: rest =>
      match Pdfplumber.extract_text page with
      | Raise e => Raise e
      | Ok text =>
          match pages_text rest with
          | Raise e => Raise e
          | Ok texts => Ok (text :: texts)
          end
      end
  end.

Fixpoint pdfplumber_blocks (index : Z) (texts : list (option string))
  : list string :=
  match texts with
  | [] => []
  | text :: rest =>
      ([pdfplumber_test.page_div (index + 1);
        ("<h2>Page " ++ str_of_Z (index + 1) ++ "</h2>")%string]
       ++ match pdfplumber_test.truthy_text text with
          | Some text =>
              [("<div class=" ++ q "text-block" ++ ">")%string;
               ("<pre>" ++ text ++ "</pre>")%string;
               "</div>"]
          | None => []
          end
       ++ ["</div>"]
       ++ pdfplumber_blocks (index + 1) rest)%list
  end.

Definition pdfplumber_document (lib : libraries) (bytes : string) : res string :=
  match pdfplumber_load lib bytes with
  | Raise e => Raise e
  | Ok pdf =>
      match Pdfplumber.pages pdf with
      | Raise e => Raise e
      | Ok pages =>
          match pages_text pages with
          | Raise e => Raise e
          | Ok texts =>
              Ok (join nl ([pdfplumber_test.html_header]
                             ++ pdfplumber_blocks 0 texts
                             ++ [("</body>" ++ nl ++ "</html>")%string])%list)
          end
      end
  end.

End Outcome.
Import Outcome.

(** The layout of the documents the scripts write. *)
Module Shape.

Import fritz_test2.

(** The concatenation of the images of a list. *)
Definition concat_map {A : Type} (f : A -> string) (l : list A) : string :=
  String.concat "" (map f l).

(** *** fritz_test2.py *)

Definition is_text_block (block : block_data) : bool :=
  String.eqb (bd_type block) "text".

(** One line of a text block: its spans, joined; nothing for a line
    without spans. *)
Definition line_shape (rt : runtime) (line : line_data) : string :=
  match ld_spans line with
  | [] => ""
  | _ :: _ => nl ++ concat_map (span_html rt) (ld_spans line)
  end.

Definition text_block_shape (rt : runtime) (block : block_data) : string :=
  "<div class=" ++ q "text-block" ++ ">"
    ++ concat_map (line_shape rt) (bd_lines block)
    ++ nl ++ "</div>".

(** The block of one page: the container with its id, the page-number
    marker, the text blocks, the images, the closing tag. *)
Definition page_shape (rt : runtime) (self : PDFToHTMLConverter)
    (page_data : page_content) : string :=
  "        <div class=" ++ q "pdf-page" ++ " id="
    ++ q ("page-" ++ str_of_Z (pc_page_num page_data + 1)) ++ ">" ++ nl
    ++ "            <div class=" ++ q "page-number" ++ ">Page "
    ++ str_of_Z (pc_page_num page_data + 1) ++ "</div>"
    ++ concat_map
         (fun block => nl ++ "            " ++ _generate_text_block_html rt self block)
         (filter is_text_block (pc_text_blocks page_data))
    ++ concat_map
         (fun image => nl ++ "            " ++ _generate_image_html self image)
         (pc_images page_data)
    ++ nl ++ "        </div>".

Definition fritz_test2_head (rt : runtime) (self : PDFToHTMLConverter)
    (pdf_path : string) : string :=
  "<!DOCTYPE html>" ++ nl
    ++ "<html lang=" ++ q "en" ++ ">" ++ nl
    ++ "<head>" ++ nl
    ++ "    <meta charset=" ++ q "UTF-8" ++ ">" ++ nl
    ++ "    <meta name=" ++ q "viewport" ++ " content="
    ++ q "width=device-width, initial-scale=1.0" ++ ">" ++ nl
    ++ "    <title>" ++ escape (path_stem rt pdf_path) ++ "</title>" ++ nl
    ++ "    <style>" ++ nl
    ++ _generate_css self (mk_content [] [] [] []) ++ nl
    ++ "    </style>" ++ nl
    ++ "</head>" ++ nl.

Definition fritz_test2_shape (rt : runtime) (self : PDFToHTMLConverter)
    (pdf_path : string) (pages : list page_content) : string :=
  fritz_test2_head rt self pdf_path
    ++ "<body>" ++ nl
    ++ "    <div class=" ++ q "pdf-container" ++ ">" ++ nl
    ++ "        <h1 class=" ++ q "pdf-title" ++ ">"
    ++ escape (path_stem rt pdf_path) ++ "</h1>" ++ nl
    ++ join nl (map (page_shape rt self) pages) ++ nl
    ++ "    </div>" ++ nl
    ++ "</body>" ++ nl
    ++ "</html>".

(** The pages carry the numbers [start], [start + 1], ... in order. *)
Fixpoint numbered_from (start : Z) (pages : list page_content) : Prop :=
  match pages with
  | [] => True
  | page_data :: rest =>
      pc_page_num page_data = start /\ numbered_from (start + 1) rest
  end.

(** *** fritz_test.py *)

Definition fritz_test_page_shape (entry : Z * string) : string :=
  let '(number, page_html) := entry in
  nl ++ fritz_test.page_div number ++ nl ++ page_html ++ nl ++ "</div>".

Definition fritz_test_shape (htmls : list string) : string :=
  fritz_test.html_header
    ++ concat_map fritz_test_page_shape (enumerate 1 htmls)
    ++ nl ++ "</body></html>".

(** *** pdfplumber_test.py *)

Definition pdfplumber_page_shape (entry : Z * option string) : string :=
  let '(index, text) := entry in
  nl ++ pdfplumber_test.page_div (index + 1) ++ nl
    ++ "<h2>Page " ++ str_of_Z (index + 1) ++ "</h2>"
    ++ match pdfplumber_test.truthy_text text with
       | Some text =>
           nl ++ "<div class=" ++ q "text-block" ++ ">" ++ nl
             ++ "<pre>" ++ text ++ "</pre>" ++ nl ++ "</div>"
       | None => ""
       end
    ++ nl ++ "</div>".

Definition pdfplumber_shape (texts : list (option string)) : string :=
  pdfplumber_test.html_header
    ++ concat_map pdfplumber_page_shape (enumerate 0 texts)
    ++ nl ++ "</body>" ++ nl ++ "</html>".

(** *** new.py *)

Definition new_shape (htmls : list string) : string :=
  "<html><body>" ++ String.concat "" htmls ++ "</body></html>".

(** *** The elements of a text block, from what the library hands over *)

(** The block has the key ["lines"]. *)
Definition has_lines (block : Fitz.block) : bool :=
  match Fitz.block_lines block with
  | Some _ => true
  | None => false
  end.

(** The element of one span of [page.get_text("dict")]. *)
Definition span_element (rt : runtime) (span : Fitz.span) : string :=
  span_html rt (span_data_of span).

(** The elements of the spans of a line, after a newline; nothing for a
    line without spans. *)
Definition line_element (rt : runtime) (line : Fitz.line) : string :=
  match Fitz.line_spans line with
  | [] => ""
  | _ :: _ => nl ++ concat_map (span_element rt) (Fitz.line_spans line)
  end.

Definition block_element (rt : runtime) (block : Fitz.block) : string :=
  "<div class=" ++ q "text-block" ++ ">"
    ++ concat_map (line_element rt) (get (Fitz.block_lines block) [])
    ++ nl ++ "</div>".



End Shape.
Import Shape.

(** Counting the page containers of a document. *)
Module Counting.

Import fritz_test2.

(** [s] holds no [<]. *)
Fixpoint lt_free (s : string) : bool :=
  match s with
  | EmptyString => true
  | String c t => negb (Ascii.eqb c "<") && lt_free t
  end.

(** [s] is a prefix of [pat] and shorter than it. *)
Fixpoint proper_prefix (s pat : string) : bool :=
  match s, pat with
  | EmptyString, EmptyString => false
  | EmptyString, String _ _ => true
  | String _ _, EmptyString => false
  | String a s', String b pat' => Ascii.eqb a b && proper_prefix s' pat'
  end.

(** No end of [s] is the beginning of an occurrence of [pat] that would
    need what follows [s] to be completed. *)
Fixpoint closed_for (pat s : string) : bool :=
  match s with
  | EmptyString => true
  | String _ t => negb (proper_prefix s pat) && closed_for pat t
  end.

(** The opening of a page container, up to the end of its class. *)
Definition pdf_page_tag : string := "<div class=" ++ q "pdf-page".
Definition page_tag : string := "<div class=" ++ q "page".

(** Occurrences of [pat] in [s] are counted independently of what follows
    [s]. *)
Definition additive (pat s : string) : Prop :=
  forall t, count_str pat (s ++ t) = (count_str pat s + count_str pat t)%nat.

(** [s] holds [k] occurrences of [pat], whatever follows it. *)
Definition counts (pat : string) (k : nat) (s : string) : Prop :=
  additive pat s /\ count_str pat s = k.


(** A string that neither holds nor ends inside a page container opening. *)
Definition no_page_tag (s : string) : bool :=
  closed_for page_tag s && (count_str page_tag s =? 0)%nat.

(** The strings of an image record hold no [<]. *)
Definition image_lt_free (image : image_info) : bool :=
  lt_free (ii_format image) && lt_free (ii_data image).

Definition page_images_lt_free (page_data : page_content) : bool :=
  forallb image_lt_free (pc_images page_data).

End Counting.
Import Counting.

(** Further notions the statements are phrased in: decoders, to read back
    what the scripts encode, and counts of what was extracted. *)
Module Notions.

(** [s] without its beginning [p], when it begins with [p]. *)
Fixpoint strip_prefix (p s : string) : option string :=
  match p with
  | EmptyString => Some s
  | String a p' =>
      match s with
      | EmptyString => None
      | String b s' => if Ascii.eqb a b then strip_prefix p' s' else None
      end
  end.

(** The first of [table] whose entity begins [s], with what follows it. *)
Fixpoint first_entity (table : list (string * ascii)) (s : string)
  : option (ascii * string) :=
  match table with
  | [] => None
  | (name, c) :: more =>
      match strip_prefix name s with
      | Some rest => Some (c, rest)
      | None => first_entity more s
      end
  end.

(** The character an entity of [html.escape] stands for, with what follows
    the entity. *)
Definition entity (s : string) : option (ascii * string) :=
  first_entity
    [("&amp;", "&"%char); ("&lt;", "<"%char); ("&gt;", ">"%char);
     ("&quot;", ascii_of_nat 34); ("&#x27;", "'"%char)] s.

(** Replaces the five entities of [html.escape] by their characters, from
    left to right; [fuel] bounds the number of characters read. *)
Fixpoint unescape_fuel (fuel : nat) (s : string) : string :=
  match fuel with
  | O => s
  | S fuel' =>
      match entity s with
      | Some (c, rest) => String c (unescape_fuel fuel' rest)
      | None =>
          match s with
          | EmptyString => EmptyString
          | String c rest => String c (unescape_fuel fuel' rest)
          end
      end
  end.

Definition unescape (s : string) : string := unescape_fuel (String.length s) s.

(** The characters that open or close a tag or an attribute value. *)
Definition is_markup (c : ascii) : bool :=
  match N_of_ascii c with
  | 60%N | 62%N | 34%N | 39%N => true
  | _ => false
  end.

Fixpoint markup_free (s : string) : bool :=
  match s with
  | EmptyString => true
  | String c t => negb (is_markup c) && markup_free t
  end.

(** The place of a character in the base64 alphabet. *)
Fixpoint index_from (k : N) (c : ascii) (alphabet : string) : option N :=
  match alphabet with
  | EmptyString => None
  | String a rest => if Ascii.eqb a c then Some k else index_from (k + 1) c rest
  end.

Definition b64_index (c : ascii) : option N := index_from 0 c b64_alphabet.

(** [base64.b64decode(s)] on padded input; [None] for a string that is not
    a base64 encoding. *)
Fixpoint b64decode (s : string) : option (list N) :=
  match s with
  | EmptyString => Some []
  | String c1 (String c2 (String c3 (String c4 rest))) =>
      match b64_index c1, b64_index c2 with
      | Some v1, Some v2 =>
          let b1 := (v1 * 4 + v2 / 16)%N in
          if Ascii.eqb c3 "="
          then
            if Ascii.eqb c4 "=" && String.eqb rest "" then Some [b1] else None
          else
            match b64_index c3 with
            | Some v3 =>
                let b2 := ((v2 mod 16) * 16 + v3 / 4)%N in
                if Ascii.eqb c4 "="
                then if String.eqb rest "" then Some [b1; b2] else None
                else
                  match b64_index c4, b64decode rest with
                  | Some v4, Some bytes =>
                      Some (b1 :: b2 :: ((v3 mod 4) * 64 + v4)%N :: bytes)
                  | _, _ => None
                  end
            | None => None
            end
      | _, _ => None
      end
  | _ => None
  end.

(** A list of bytes. *)
Definition all_bytes (bs : list N) : Prop := Forall (fun b => (b < 256)%N) bs.

(** The bytes that [_extract_images] encodes for a picture: the PNG form
    when the picture has fewer than four colour channels, else the JPEG form
    of its RGB conversion. *)
Definition encoded_bytes (pix : Fitz.pixmap) : res (list N) :=
  if Fitz.pix_n pix - Fitz.pix_alpha pix <? 4
  then Fitz.pix_png pix
  else Fitz.pix_rgb_jpeg pix.

(** The pages that load. *)
Fixpoint loaded_pages (loaded : list (res Fitz.page)) : list Fitz.page :=
  match loaded with
  | [] => []
  | Ok page :: rest => page :: loaded_pages rest
  | Raise _ :: rest => loaded_pages rest
  end.

(** The number of spans of a block, and of the blocks of type ["text"] of a
    page. *)
Definition spans_of_block (block : fritz_test2.block_data) : nat :=
  list_sum (map (fun line => length (fritz_test2.ld_spans line))
              (fritz_test2.bd_lines block)).

Definition spans_of_page (page_data : fritz_test2.page_content) : nat :=
  list_sum (map spans_of_block
              (filter is_text_block (fritz_test2.pc_text_blocks page_data))).

Definition spans_of_pages (pages : list fritz_test2.page_content) : nat :=
  list_sum (map spans_of_page pages).

Definition images_of_pages (pages : list fritz_test2.page_content) : nat :=
  list_sum (map (fun page_data => length (fritz_test2.pc_images page_data)) pages).

(** The openings of an image element and of a span element. *)
Definition img_tag : string := "<img".
Definition span_tag : string := "<span".

(** A record of [logger] at the level [WARNING]. *)
Definition warning_of (logger : string) (r : log_record) : Prop :=
  lr_logger r = logger /\ lr_level r = WARNING.

End Notions.
Import Notions.

(** Concrete inputs on which the statements are evaluated. *)
Module Sample.

(** A file name without its final [.pdf]. *)
Fixpoint strip_pdf (name : string) : string :=
  if String.eqb name ".pdf" then ""
  else
    match name with
    | EmptyString => EmptyString
    | String c rest => String c (strip_pdf rest)
    end.

(** A runtime restricted to what the samples need: the floats [10.5] and
    [12.0], paths without directory part that end in [.pdf], the template of
    [poppdf_test], whose first replacement field names a keyword argument
    that is not passed, and a file system that refuses nothing and on which
    no write fails. *)
Definition rt : runtime :=
  mk_runtime
    (fun f => if PrimFloat.eqb f 10.5%float then "10.5" else "12.0")
    strip_pdf
    (fun name => name)
    strip_pdf
    (fun folder name => folder ++ "/" ++ name)
    (fun _ _ => Raise (mk_exn "KeyError" "' font-family'"))
    (fun _ _ => None)
    (fun _ _ => None)
    (fun _ _ _ => None).

Definition bold_span : Fitz.span :=
  Fitz.mk_span (Some "1 < 2") None (Some "Helvetica-BoldOblique")
    (Some (PyFloat 10.5%float)) (Some 255).

Definition plain_span : Fitz.span :=
  Fitz.mk_span (Some "plain") None (Some "Times-Roman")
    (Some (PyFloat 12%float)) (Some 0).

Definition good_image : Fitz.image :=
  Fitz.mk_image 7
    (Ok (Fitz.mk_pixmap 3 0 2 1 (Ok [77; 97; 110]%N)
           (Raise (mk_exn "RuntimeError" "unused"))))
    (Ok []).

Definition bad_image : Fitz.image :=
  Fitz.mk_image 9 (Raise (mk_exn "RuntimeError" "bad xref")) (Ok []).

(** A page whose second image cannot be extracted and whose drawings
    cannot be read. *)
Definition page : Fitz.page :=
  Fitz.mk_page (PyFloat 595%float) (PyFloat 842%float)
    (Ok [Fitz.mk_block []
           (Some [Fitz.mk_line [] [bold_span; plain_span]; Fitz.mk_line [] []]);
         Fitz.mk_block [] None])
    (Ok ("<div id=" ++ q "page0" ++ "><p>1 &lt; 2</p></div>"))
    (Ok [bad_image; good_image])
    (Raise (mk_exn "RuntimeError" "cannot read drawings")).

Definition document : Fitz.document := Fitz.mk_document [] [Ok page].

(** A one-page file for pdfplumber whose text holds markup characters. *)
Definition comparison_pdf : Pdfplumber.pdf :=
  Pdfplumber.mk_pdf (Ok [Pdfplumber.mk_page (Ok (Some "1 < 2 & 3"))]).

(** A one-page file for pdfplumber whose text is itself a page container
    tag, as in a document about HTML. *)
Definition markup_pdf : Pdfplumber.pdf :=
  Pdfplumber.mk_pdf
    (Ok [Pdfplumber.mk_page
           (Ok (Some ("<div class=" ++ q "page" ++ " id=" ++ q "page-1" ++ ">")))]).

Definition lib : libraries :=
  mk_libraries
    (fun _ path => mk_exn "FileNotFoundError" ("no such file: '" ++ path ++ "'"))
    [("format", "PDF 1.7")]
    (fun bytes =>
       if String.eqb bytes "%PDF-sample" then Ok document
       else Raise (mk_exn "FileDataError" "Failed to open file"))
    (fun bytes =>
       if String.eqb bytes "%PDF-sample" then Ok comparison_pdf
       else if String.eqb bytes "%PDF-markup" then Ok markup_pdf
       else Raise (mk_exn "PDFSyntaxError" "No /Root object"))%string
    (fun _ _ bytes =>
       if String.eqb bytes "%PDF-sample"
       then Ok ("<html><body><span>1 &lt; 2</span></body></html>")
       else Raise (mk_exn "PDFSyntaxError" "No /Root object"))%string.

(** A world with no file at all. *)
Definition empty_world : world :=
  mk_world (mk_fs (fun _ => None) (fun _ => false)) [] [] [].

(** A world that holds the input files. *)
Definition world : Sys.world :=
  mk_world
    (mk_fs (fun p =>
              if String.eqb p "a.pdf" then Some "%PDF-sample"
              else if String.eqb p "m.pdf" then Some "%PDF-markup"
              else None)
           (fun _ => false))
    [] [] [].

Definition converter : fritz_test2.PDFToHTMLConverter :=
  fritz_test2.mk_converter true true fritz_test2.__name__.

End Sample.

(* ================================================================== *)
(** * Facts about strings *)
(* ================================================================== *)

Import fritz_test2.

Section StringFacts.

Lemma append_assoc (a b c : string) : (a ++ b) ++ c = a ++ (b ++ c).
Proof. induction a as [|x a IH]; simpl; [reflexivity | now rewrite IH]. Qed.

Lemma append_nil_r (a : string) : a ++ "" = a.
Proof. induction a as [|x a IH]; simpl; [reflexivity | now rewrite IH]. Qed.

Lemma length_append (a b : string) :
  String.length (a ++ b) = (String.length a + String.length b)%nat.
Proof. induction a as [|x a IH]; simpl; [reflexivity | now rewrite IH]. Qed.

Lemma lower_append (a b : string) : lower (a ++ b) = lower a ++ lower b.
Proof. induction a as [|x a IH]; simpl; [reflexivity | now rewrite IH]. Qed.

(** A lowered string splits where its image splits. *)
Lemma lower_split (s a b : string) :
  lower s = a ++ b -> exists s1 s2, s = s1 ++ s2 /\ lower s1 = a /\ lower s2 = b.
Proof.
  revert s; induction a as [|x a IH]; intros s H.
  - exists "", s. simpl in *. auto.
  - destruct s as [|c s]; simpl in H; [discriminate|].
    injection H as Hc Hs. destruct (IH _ Hs) as (s1 & s2 & -> & H1 & H2).
    exists (String c s1), s2. simpl. rewrite Hc, H1. auto.
Qed.

Lemma prefix_spec (a s : string) :
  prefix a s = true <-> exists post, s = a ++ post.
Proof.
  revert s; induction a as [|x a IH]; intros s.
  - split; [intros _; now exists s | intros _; now destruct s].
  - destruct s as [|c s]; simpl.
    + split; [discriminate | intros [post H]; discriminate].
    + destruct (ascii_dec x c) as [->|Hne].
      * rewrite IH. split; intros [post H]; exists post.
        -- now rewrite H.
        -- now injection H.
      * split; [discriminate | intros [post H]; injection H as H1 _; congruence].
Qed.

Lemma str_in_spec (sub s : string) : str_in sub s = true <-> occurs sub s.
Proof.
  induction s as [|c s IH]; cbn [str_in].
  - rewrite orb_false_r, prefix_spec. split.
    + intros [post H]. now exists "", post.
    + intros (pre & post & H). destruct pre; simpl in H.
      * now exists post.
      * discriminate.
  - fold str_in. rewrite orb_true_iff, prefix_spec, IH. split.
    + intros [[post H] | (pre & post & H)].
      * now exists "", post.
      * exists (String c pre), post. simpl. now rewrite H.
    + intros (pre & post & H). destruct pre as [|x pre]; simpl in H.
      * left. now exists post.
      * right. injection H as _ H. now exists pre, post.
Qed.

(** Python's test ["pat" in s.lower()], for a lower-case [pat], decides the
    case-insensitive occurrence of [pat] in [s]. *)
Lemma str_in_lower_spec (pat s : string) :
  lower pat = pat ->
  (str_in pat (lower s) = true <-> occurs_ci pat s).
Proof.
  intros Hpat. rewrite str_in_spec. unfold occurs, occurs_ci, ci_equal. split.
  - intros (pre & post & H).
    destruct (lower_split _ _ _ H) as (s1 & s23 & -> & H1 & H23).
    destruct (lower_split _ _ _ H23) as (s2 & s3 & -> & H2 & H3).
    exists s1, s2, s3. split; [reflexivity | congruence].
  - intros (pre & mid & post & -> & H).
    exists (lower pre), (lower post).
    now rewrite !lower_append, H, Hpat.
Qed.

End StringFacts.

(* ================================================================== *)
(** * The format specification 06x *)
(* ================================================================== *)

Section HexFacts.

Lemma hex_fuel_acc (fuel : nat) (n : Z) (acc : string) :
  hex_fuel fuel n acc = hex_fuel fuel n "" ++ acc.
Proof.
  revert n acc; induction fuel as [|f IH]; intros n acc; simpl; [reflexivity|].
  destruct (n <? 16); [reflexivity|].
  rewrite (IH _ (String _ acc)), (IH _ (String _ "")), append_assoc. reflexivity.
Qed.

Lemma hex_pad_acc (k : nat) (n : Z) (acc : string) :
  hex_pad k n acc = hex_pad k n "" ++ acc.
Proof.
  revert n acc; induction k as [|k IH]; intros n acc; simpl; [reflexivity|].
  rewrite (IH _ (String _ acc)), (IH _ (String _ "")), append_assoc. reflexivity.
Qed.

Lemma hex_pad_zero (k : nat) : hex_pad k 0 "" = zeros k.
Proof.
  induction k as [|k IH]; simpl; [reflexivity|].
  change (0 / 16) with 0. change (hex_digit (0 mod 16)) with "0"%char.
  rewrite hex_pad_acc, IH. clear IH.
  induction k as [|k IH]; simpl; [reflexivity | now rewrite IH].
Qed.

Lemma hex_pad_length (k : nat) (n : Z) (acc : string) :
  String.length (hex_pad k n acc) = (k + String.length acc)%nat.
Proof.
  revert n acc; induction k as [|k IH]; intros n acc; simpl; [reflexivity|].
  rewrite IH. simpl. lia.
Qed.

Lemma hex_digit_is_hex (n : Z) : is_hex_digit (hex_digit (n mod 16)) = true.
Proof.
  assert (H : 0 <= n mod 16 < 16) by (apply Z.mod_pos_bound; lia).
  assert (n mod 16 = 0 \/ n mod 16 = 1 \/ n mod 16 = 2 \/ n mod 16 = 3 \/
          n mod 16 = 4 \/ n mod 16 = 5 \/ n mod 16 = 6 \/ n mod 16 = 7 \/
          n mod 16 = 8 \/ n mod 16 = 9 \/ n mod 16 = 10 \/ n mod 16 = 11 \/
          n mod 16 = 12 \/ n mod 16 = 13 \/ n mod 16 = 14 \/ n mod 16 = 15)
    as Hc by lia.
  repeat (destruct Hc as [-> | Hc]; [reflexivity|]). now rewrite Hc.
Qed.

Lemma all_hex_append (a b : string) :
  all_hex (a ++ b) = all_hex a && all_hex b.
Proof.
  induction a as [|c a IH]; simpl; [reflexivity|]. now rewrite IH, andb_assoc.
Qed.

Lemma hex_pad_all_hex (k : nat) (n : Z) : all_hex (hex_pad k n "") = true.
Proof.
  revert n; induction k as [|k IH]; intros n; simpl; [reflexivity|].
  rewrite hex_pad_acc, all_hex_append, IH. simpl.
  now rewrite hex_digit_is_hex.
Qed.

(** With enough fuel, padding the digits of [n] with zeros to any width [k]
    that holds them gives exactly the [k] low digits of [n]. *)
Lemma hex_fuel_padded (fuel : nat) :
  forall (n : Z) (k : nat),
    0 <= n < 16 ^ Z.of_nat fuel -> (1 <= fuel)%nat ->
    n < 16 ^ Z.of_nat k -> (1 <= k)%nat ->
    hex_pad k n "" =
      zeros (k - String.length (hex_fuel fuel n "")) ++ hex_fuel fuel n "" /\
    (1 <= String.length (hex_fuel fuel n "") <= k)%nat.
Proof.
  induction fuel as [|f IH]; intros n k Hn Hf Hk Hk1; [lia|].
  destruct k as [|k]; [lia|].
  cbn [hex_fuel hex_pad].
  destruct (Z.ltb_spec n 16) as [Hsmall|Hbig].
  - rewrite Z.div_small by lia. rewrite hex_pad_acc, hex_pad_zero.
    cbn [String.length]. replace (S k - 1)%nat with k by lia.
    split; [reflexivity | lia].
  - assert (Hf1 : (1 <= f)%nat).
    { destruct f; [|lia]. change (16 ^ Z.of_nat 1) with 16 in Hn. lia. }
    assert (Hk2 : (1 <= k)%nat).
    { destruct k; [|lia]. change (16 ^ Z.of_nat 1) with 16 in Hk. lia. }
    assert (Hdiv : forall m : nat, n < 16 ^ Z.of_nat (S m) -> n / 16 < 16 ^ Z.of_nat m).
    { intros m Hm. apply Z.div_lt_upper_bound; [lia|].
      rewrite Nat2Z.inj_succ, Z.pow_succ_r in Hm by lia. exact Hm. }
    assert (H0 : 0 <= n / 16) by (apply Z.div_pos; lia).
    destruct (IH (n / 16) k) as [Heq Hlen];
      [split; [exact H0 | apply Hdiv; lia] | exact Hf1 | now apply Hdiv
      | exact Hk2 |].
    rewrite hex_pad_acc, Heq, (hex_fuel_acc f (n / 16) (String _ "")).
    rewrite length_append. cbn [String.length].
    replace (S k - (String.length (hex_fuel f (n / 16) "") + 1))%nat
      with (k - String.length (hex_fuel f (n / 16) ""))%nat by lia.
    split; [now rewrite append_assoc | lia].
Qed.

Lemma hex_fuel_enough (n : Z) :
  0 <= n -> n < 16 ^ Z.of_nat (S (Z.to_nat (Z.log2 n))).
Proof.
  intros Hn. rewrite Nat2Z.inj_succ, Z2Nat.id by apply Z.log2_nonneg.
  destruct (Z.eq_dec n 0) as [->|Hnz]; [reflexivity|].
  pose proof (Z.log2_spec n ltac:(lia)) as [_ Hlt].
  apply Z.lt_le_trans with (1 := Hlt).
  change 16 with (2 ^ 4). rewrite <- Z.pow_mul_r; try lia.
  - apply Z.pow_le_mono_r; [lia|]. pose proof (Z.log2_nonneg n). lia.
  - pose proof (Z.log2_nonneg n). lia.
Qed.

(** A packed colour is printed as its six hexadecimal digits. *)
Lemma format_06x_packed (c : Z) :
  packed_rgb c -> format_06x c = hex_pad 6 c "".
Proof.
  intros [H0 H1]. unfold format_06x.
  destruct (Z.ltb_spec c 0) as [Hneg|_]; [lia|]. cbv zeta. unfold hex.
  assert (Hfuel : 0 <= c < 16 ^ Z.of_nat (S (Z.to_nat (Z.log2 c))))
    by (split; [exact H0 | now apply hex_fuel_enough]).
  assert (Hsix : c < 16 ^ Z.of_nat 6)
    by (change (16 ^ Z.of_nat 6) with 16777216; exact H1).
  destruct (hex_fuel_padded (S (Z.to_nat (Z.log2 c))) c 6 Hfuel
              ltac:(lia) Hsix ltac:(lia)) as [Heq _].
  now rewrite Heq.
Qed.

End HexFacts.

(* ================================================================== *)
(** * The extraction loops of fritz_test2.py *)
(* ================================================================== *)

Section MonadFacts.

Lemma add_log_nil (w : world) : add_log w [] = w.
Proof. destruct w; unfold add_log; simpl. now rewrite app_nil_r. Qed.

Lemma add_log_app (w : world) (a b : list log_record) :
  add_log (add_log w a) b = add_log w (a ++ b).
Proof. unfold add_log; simpl. now rewrite app_assoc. Qed.

Lemma logger_log_eq (name : string) (lv : level) (msg : string) (w : world) :
  logger_log name lv msg w = (Ok tt, add_log w [mk_log_record name lv msg]).
Proof. reflexivity. Qed.

Lemma fs_add_log (w : world) (l : list log_record) : fs (add_log w l) = fs w.
Proof. reflexivity. Qed.

Lemma fold_left_list_append {A B : Type} (f : A -> B) (l : list A) (init : list B) :
  fold_left (fun acc x => list_append acc (f x)) l init = (init ++ map f l)%list.
Proof.
  revert init; induction l as [|x l IH]; intros init; simpl.
  - now rewrite app_nil_r.
  - rewrite IH. unfold list_append. now rewrite <- app_assoc.
Qed.

End MonadFacts.

Section ExtractionFacts.

Variable self : PDFToHTMLConverter.

Lemma extract_text_blocks_loop (blocks : list Fitz.block) (init : list block_data) :
  fold_left
    (fun text_blocks block =>
       match Fitz.block_lines block with
       | Some lines =>
           let block_lines :=
             fold_left
               (fun acc line =>
                  let spans :=
                    fold_left (fun acc span => list_append acc (span_data_of span))
                      (Fitz.line_spans line) [] in
                  list_append acc (mk_line_data (Fitz.line_bbox line) spans))
               lines [] in
           list_append text_blocks
             (mk_block_data "text" (Fitz.block_bbox block) block_lines)
       | None => text_blocks
       end)
    blocks init
  = (init ++ text_blocks_of blocks)%list.
Proof.
  revert init; induction blocks as [|b blocks IH]; intros init; simpl.
  - now rewrite app_nil_r.
  - rewrite IH. destruct (Fitz.block_lines b) as [lines|]; [|reflexivity].
    unfold list_append at 1. rewrite <- app_assoc. simpl. do 3 f_equal.
    rewrite (fold_left_list_append
               (fun line =>
                  mk_line_data (Fitz.line_bbox line)
                    (fold_left (fun acc span => list_append acc (span_data_of span))
                       (Fitz.line_spans line) []))).
    simpl. apply map_ext. intros line. unfold line_data_of. f_equal.
    now rewrite fold_left_list_append.
Qed.

Lemma extract_text_blocks_eq (page : Fitz.page) (w : world) :
  _extract_text_blocks self page w =
    (match Fitz.get_text_dict page with
     | Ok blocks => Ok (text_blocks_of blocks)
     | Raise e => Raise e
     end, w).
Proof.
  unfold _extract_text_blocks, bind, call, ret.
  destruct (Fitz.get_text_dict page) as [blocks|e]; [|reflexivity].
  now rewrite extract_text_blocks_loop.
Qed.

Lemma extract_image_eq (page : Fitz.page) (page_num img_index : Z)
    (img : Fitz.image) (w : world) :
  extract_image page page_num img_index img w =
    (image_outcome page_num img_index img, w).
Proof.
  unfold extract_image, image_outcome, bind, call, ret.
  destruct (Fitz.img_pixmap img) as [pix|e]; [|reflexivity].
  destruct (Fitz.pix_n pix - Fitz.pix_alpha pix <? 4); cbn [fst snd].
  - destruct (Fitz.pix_png pix) as [d|e]; [|reflexivity]. cbn [fst snd].
    destruct (Fitz.img_rects img); reflexivity.
  - destruct (Fitz.pix_rgb_jpeg pix) as [d|e]; [|reflexivity]. cbn [fst snd].
    destruct (Fitz.img_rects img); reflexivity.
Qed.

(** The per-image loop never raises: a failing image costs a warning. *)
Lemma extract_images_loop (page : Fitz.page) (page_num : Z)
    (entries : list (Z * Fitz.image)) :
  forall (images : list image_info) (w : world),
    for_each entries
      (fun images entry =>
         let '(img_index, img) := entry in
         try_except
           (image_info <- extract_image page page_num img_index img ;;
            ret (list_append images image_info))
           (fun e =>
              logger_log (logger self) WARNING
                ("Could not extract image " ++ str_of_Z img_index
                   ++ " from page " ++ str_of_Z page_num ++ ": " ++ exn_msg e) ;;;
              ret images))
      images w
    = (Ok (images ++ kept_images page_num entries)%list,
       add_log w (image_warnings (logger self) page_num entries)).
Proof.
  induction entries as [|[i img] entries IH]; intros images w.
  - simpl. unfold ret. now rewrite app_nil_r, add_log_nil.
  - cbn [for_each kept_images image_warnings].
    unfold bind at 1. unfold try_except at 1. unfold bind at 1.
    rewrite extract_image_eq.
    destruct (image_outcome page_num i img) as [info|e].
    + unfold ret at 1. rewrite IH. unfold list_append.
      now rewrite <- app_assoc.
    + unfold bind at 1. rewrite logger_log_eq. unfold ret at 1.
      rewrite IH, add_log_app. reflexivity.
Qed.

Lemma extract_images_eq (page : Fitz.page) (page_num : Z) (w : world) :
  _extract_images self page page_num w =
    match Fitz.get_images page with
    | Ok image_list =>
        (Ok (kept_images page_num (enumerate 0 image_list)),
         add_log w (image_warnings (logger self) page_num
                      (enumerate 0 image_list)))
    | Raise e => (Raise e, w)
    end.
Proof.
  unfold _extract_images. unfold bind at 1. unfold call.
  destruct (Fitz.get_images page) as [image_list|e]; [|reflexivity].
  now rewrite extract_images_loop.
Qed.

(** Drawing extraction never raises either. *)
Lemma extract_drawings_eq (page : Fitz.page) (w : world) :
  _extract_drawings self page w =
    (Ok (drawings_of page), add_log w (drawing_warnings (logger self) page)).
Proof.
  unfold _extract_drawings, try_except, bind, call, ret, drawings_of,
    drawing_warnings.
  destruct (Fitz.get_drawings page) as [paths|e].
  - now rewrite fold_left_list_append, add_log_nil.
  - now rewrite logger_log_eq.
Qed.

Lemma extract_page_content_eq (page : Fitz.page) (page_num : Z) (w : world) :
  _extract_page_content self page page_num w =
    (fst (page_outcome (logger self) page page_num),
     add_log w (snd (page_outcome (logger self) page page_num))).
Proof.
  unfold _extract_page_content, page_outcome. unfold bind at 1.
  rewrite extract_text_blocks_eq.
  destruct (Fitz.get_text_dict page) as [blocks|e];
    [|cbn [fst snd]; now rewrite add_log_nil].
  unfold bind at 1. rewrite extract_images_eq.
  destruct (Fitz.get_images page) as [image_list|e];
    [|cbn [fst snd]; now rewrite add_log_nil].
  unfold bind at 1. rewrite extract_drawings_eq. unfold ret. cbn [fst snd].
  now rewrite add_log_app.
Qed.

Lemma extract_content_loop (metadata : list (string * string))
    (entries : list (Z * res Fitz.page)) :
  forall (pages : list page_content) (w : world),
    for_each entries
      (fun content entry =>
         let '(page_num, loaded) := entry in
         page <- call loaded ;;
         page_content <- _extract_page_content self page page_num ;;
         ret (mk_content (list_append (c_pages content) page_content)
                (c_images content) (c_fonts content) (c_metadata content)))
      (mk_content pages [] [] metadata) w
    = (match fst (pages_outcome (logger self) entries) with
       | Ok more => Ok (mk_content (pages ++ more) [] [] metadata)
       | Raise e => Raise e
       end,
       add_log w (snd (pages_outcome (logger self) entries))).
Proof.
  induction entries as [|[page_num loaded] entries IH]; intros pages w.
  - simpl. unfold ret. now rewrite app_nil_r, add_log_nil.
  - cbn [for_each pages_outcome]. unfold bind at 1. unfold bind at 1.
    unfold call.
    destruct loaded as [page|e]; [|cbn [fst snd]; now rewrite add_log_nil].
    unfold bind at 1. rewrite extract_page_content_eq.
    destruct (page_outcome (logger self) page page_num) as [[page_data|e] warnings];
      cbn [fst snd]; [|reflexivity].
    unfold ret at 1. cbn [c_pages c_images c_fonts c_metadata].
    unfold list_append. rewrite IH, add_log_app.
    destruct (pages_outcome (logger self) entries) as [[more|e] warnings'];
      cbn [fst snd]; [|reflexivity].
    now rewrite <- app_assoc.
Qed.

Lemma extract_content_eq (doc : Fitz.document) (w : world) :
  _extract_content_from_pdf self doc w =
    (match fst (pages_outcome (logger self) (enumerate 0 (Fitz.load_page doc))) with
     | Ok pages => Ok (mk_content pages [] [] (Fitz.metadata doc))
     | Raise e => Raise e
     end,
     add_log w (snd (pages_outcome (logger self)
                       (enumerate 0 (Fitz.load_page doc))))).
Proof. unfold _extract_content_from_pdf. now rewrite extract_content_loop. Qed.

End ExtractionFacts.

(* ================================================================== *)
(** * The conversions, case by case *)
(* ================================================================== *)

Section ConversionFacts.

Variable rt : runtime.
Variable lib : libraries.

Lemma open_with_eq {A : Type} (error : filesys -> string -> exn)
    (load : string -> res A) (path : string) (w : world) :
  open_with error load path w =
    (match files (fs w) path with
     | Some bytes => load bytes
     | None => Raise (error (fs w) path)
     end, w).
Proof. unfold open_with. destruct (files (fs w) path); reflexivity. Qed.

Lemma fitz_open_eq (path : string) (w : world) :
  fitz_open lib path w = (fitz_document_at lib (fs w) path, w).
Proof.
  unfold fitz_open, fitz_document_at.
  destruct (String.eqb path ""); [reflexivity | apply open_with_eq].
Qed.

(** A path that exists is not the empty path. *)
Lemma path_exists_not_empty (f : filesys) (path : string) :
  path_exists f path = true -> String.eqb path "" = false.
Proof. unfold path_exists. now destruct (String.eqb path ""). Qed.

(** What [fitz.open] gives depends on the regular files only, when it gives
    a document. *)
Lemma fitz_document_at_files (f1 f2 : filesys) (path : string)
    (doc : Fitz.document) :
  files f1 path = files f2 path ->
  fitz_document_at lib f1 path = Ok doc ->
  fitz_document_at lib f2 path = Ok doc.
Proof.
  unfold fitz_document_at. intros <-.
  destruct (String.eqb path ""); [auto|].
  destruct (files f1 path); [auto | discriminate].
Qed.

Lemma write_file_eq (path content : string) (w : world) :
  write_file rt path content w =
    (match fst (write_outcome rt w path content) with
     | Some e => Raise e
     | None => Ok tt
     end, snd (write_outcome rt w path content)).
Proof.
  unfold write_file, write_outcome.
  destruct (open_w_error rt (fs w) path); [reflexivity|].
  destruct (write_error rt (write_fs (fs w) path "") path content) as [[e n]|];
    reflexivity.
Qed.

(** What writing leaves of the world: everything but the files. *)
Lemma write_outcome_keeps (path content : string) (w : world) :
  let w' := snd (write_outcome rt w path content) in
  log w' = log w /\ stdout w' = stdout w /\ stderr w' = stderr w /\
  dirs (fs w') = dirs (fs w).
Proof.
  cbv zeta. unfold write_outcome.
  destruct (open_w_error rt (fs w) path); [repeat split|].
  destruct (write_error rt (write_fs (fs w) path "") path content) as [[e n]|];
    repeat split.
Qed.

Lemma write_outcome_add_log (path content : string) (w : world)
    (records : list log_record) :
  write_outcome rt (add_log w records) path content =
    (fst (write_outcome rt w path content),
     add_log (snd (write_outcome rt w path content)) records).
Proof.
  unfold write_outcome. rewrite fs_add_log.
  destruct (open_w_error rt (fs w) path); [reflexivity|].
  destruct (write_error rt (write_fs (fs w) path "") path content) as [[e n]|];
    reflexivity.
Qed.

(** When writing succeeds, the file holds the content. *)
Lemma write_outcome_done (path content : string) (w w' : world) :
  write_outcome rt w path content = (None, w') -> w' = with_file w path content.
Proof.
  unfold write_outcome.
  destruct (open_w_error rt (fs w) path); [discriminate|].
  destruct (write_error rt (write_fs (fs w) path "") path content) as [[e n]|];
    [discriminate|].
  intros H. now injection H.
Qed.

(** *** fritz_test2.py *)

Lemma fritz_test2_convert_eq (self : fritz_test2.PDFToHTMLConverter)
    (pdf_path : string) (output_path : option string) (w : world) :
  fritz_test2.PDFToHTMLConverter_convert_pdf_to_html rt lib self
    pdf_path output_path w =
  let failed w' e warnings :=
    (Raise e,
     add_log w' (warnings ++
       [mk_log_record (fritz_test2.logger self) ERROR
          ("Error converting PDF to HTML: " ++ exn_msg e)])) in
  if negb (path_exists (fs w) pdf_path)
  then (Raise (mk_exn "FileNotFoundError" ("PDF file not found: " ++ pdf_path)), w)
  else
    match files (fs w) pdf_path with
    | None => failed w (fitz_open_error lib (fs w) pdf_path) []
    | Some bytes =>
        match fritz_test2_document rt lib self pdf_path bytes with
        | (Raise e, warnings) => failed w e warnings
        | (Ok html, warnings) =>
            let out := fritz_test2.output_path_or_default rt pdf_path output_path in
            match write_outcome rt w out html with
            | (Some e, w') => failed w' e warnings
            | (None, w') =>
                (Ok out,
                 add_log w'
                   (warnings ++
                      [mk_log_record (fritz_test2.logger self) INFO
                         ("Successfully converted " ++ pdf_path ++ " to " ++ out)]))
            end
        end
    end.
Proof.
  cbv zeta.
  unfold fritz_test2.PDFToHTMLConverter_convert_pdf_to_html.
  unfold bind at 1. unfold os_path_exists.
  destruct (path_exists (fs w) pdf_path) eqn:Hexists; [|reflexivity].
  cbn [negb]. apply path_exists_not_empty in Hexists.
  unfold try_except. unfold bind at 1. rewrite fitz_open_eq.
  unfold fitz_document_at. rewrite Hexists.
  unfold fritz_test2_document.
  destruct (files (fs w) pdf_path) as [bytes|].
  2:{ unfold bind. rewrite logger_log_eq. reflexivity. }
  destruct (fitz_load lib bytes) as [doc|e].
  2:{ unfold bind. rewrite logger_log_eq. reflexivity. }
  unfold bind at 1. rewrite extract_content_eq.
  destruct (pages_outcome (fritz_test2.logger self)
              (enumerate 0 (Fitz.load_page doc))) as [[pages|e] warnings];
    cbn [fst snd].
  2:{ unfold bind. rewrite logger_log_eq, add_log_app. reflexivity. }
  unfold bind at 1. rewrite write_file_eq, write_outcome_add_log.
  cbn [fst snd].
  destruct (write_outcome rt w
              (fritz_test2.output_path_or_default rt pdf_path output_path)
              (fritz_test2._generate_complete_html rt self
                 (fritz_test2.mk_content pages [] [] (Fitz.metadata doc))
                 pdf_path))
    as [[e|] w']; cbn [fst snd].
  - unfold bind. rewrite logger_log_eq, add_log_app. reflexivity.
  - unfold bind, ret. rewrite logger_log_eq, add_log_app. reflexivity.
Qed.

(** *** fritz_test.py *)

Lemma fritz_test_loop (pages : list (res Fitz.page)) :
  forall (start : Z) (html_content : list string) (w : world),
    for_each (enumerate start pages) fritz_test.page_step html_content w =
      (match pages_html pages with
       | Ok htmls => Ok (html_content ++ fritz_test_blocks start htmls)%list
       | Raise e => Raise e
       end, w).
Proof.
  induction pages as [|loaded pages IH]; intros start html_content w.
  - simpl. unfold ret. now rewrite app_nil_r.
  - cbn [enumerate for_each pages_html]. unfold bind at 1.
    unfold fritz_test.page_step at 1. unfold bind at 1. unfold call.
    destruct loaded as [page|e]; [|reflexivity].
    unfold bind at 1.
    destruct (Fitz.get_text_html page) as [page_html|e]; [|reflexivity].
    unfold ret at 1. rewrite IH.
    destruct (pages_html pages) as [htmls|e]; [|reflexivity].
    unfold list_append. cbn [fritz_test_blocks].
    now rewrite <- !app_assoc.
Qed.

Lemma fritz_test_convert_eq (pdf_path output_folder : string) (w : world) :
  fritz_test.convert_pdf_to_html rt lib pdf_path output_folder w =
  let reported w' e :=
    (Ok tt, add_stderr w' ("An error occurred: " ++ exn_msg e)) in
  match makedirs_error rt (fs w) output_folder with
  | Some e => reported w e
  | None =>
      let w1 := after_makedirs w output_folder in
      match fitz_document_at lib (fs w1) pdf_path with
      | Raise e => reported w1 e
      | Ok doc =>
          match fritz_test_html doc with
          | Raise e => reported w1 e
          | Ok html =>
              let out := output_path_in rt pdf_path output_folder in
              match write_outcome rt w1 out html with
              | (Some e, w2) => reported w2 e
              | (None, w2) =>
                  (Ok tt,
                   add_stdout w2
                     ("Successfully converted '" ++ pdf_path ++ "' to '"
                        ++ out ++ "'"))
              end
          end
      end
  end.
Proof.
  cbv zeta. unfold fritz_test.convert_pdf_to_html, try_except.
  unfold bind at 1. unfold makedirs.
  destruct (makedirs_error rt (fs w) output_folder) as [e|]; [reflexivity|].
  fold (after_makedirs w output_folder).
  unfold bind at 1. rewrite fitz_open_eq.
  destruct (fitz_document_at lib (fs (after_makedirs w output_folder)) pdf_path)
    as [doc|e]; [|reflexivity].
  unfold fritz_test_html.
  unfold bind at 1. rewrite fritz_test_loop.
  destruct (pages_html (Fitz.load_page doc)) as [htmls|e]; [|reflexivity].
  unfold bind at 1. rewrite write_file_eq. unfold list_append, output_path_in.
  rewrite <- app_assoc.
  destruct (write_outcome rt _ _ _) as [[e|] w2]; reflexivity.
Qed.

(** *** pdfplumber_test.py *)

Lemma pdfplumber_loop (pages : list Pdfplumber.page) :
  forall (index : Z) (html_content : list string) (w : world),
    for_each (enumerate index pages) pdfplumber_test.page_step html_content w =
      (match pages_text pages with
       | Ok texts => Ok (html_content ++ pdfplumber_blocks index texts)%list
       | Raise e => Raise e
       end, w).
Proof.
  induction pages as [|page pages IH]; intros index html_content w.
  - simpl. unfold ret. now rewrite app_nil_r.
  - cbn [enumerate for_each pages_text]. unfold bind at 1.
    unfold pdfplumber_test.page_step at 1. unfold bind at 1. unfold call.
    destruct (Pdfplumber.extract_text page) as [text|e]; [|reflexivity].
    unfold ret at 1. rewrite IH.
    destruct (pages_text pages) as [texts|e]; [|reflexivity].
    unfold list_append. cbn [pdfplumber_blocks].
    destruct (pdfplumber_test.truthy_text text);
      cbn [app]; now rewrite <- !app_assoc.
Qed.

Lemma pdfplumber_convert_eq (pdf_path output_folder : string) (w : world) :
  pdfplumber_test.convert_pdf_to_html rt lib pdf_path output_folder w =
  let reported w' e :=
    (Ok None, add_stdout w' ("Error converting PDF: " ++ exn_msg e)) in
  match makedirs_error rt (fs w) output_folder with
  | Some e => reported w e
  | None =>
      let w1 := after_makedirs w output_folder in
      match files (fs w) pdf_path with
      | None => reported w1 (builtin_open_error (fs w1) pdf_path)
      | Some bytes =>
          match pdfplumber_document lib bytes with
          | Raise e => reported w1 e
          | Ok html =>
              let out := output_path_in rt pdf_path output_folder in
              match write_outcome rt w1 out html with
              | (Some e, w2) => reported w2 e
              | (None, w2) => (Ok (Some out), w2)
              end
          end
      end
  end.
Proof.
  cbv zeta. unfold pdfplumber_test.convert_pdf_to_html, try_except.
  unfold bind at 1. unfold makedirs.
  destruct (makedirs_error rt (fs w) output_folder) as [e|]; [reflexivity|].
  fold (after_makedirs w output_folder).
  unfold bind at 1. rewrite open_with_eq.
  change (files (fs (after_makedirs w output_folder)) pdf_path)
    with (files (fs w) pdf_path).
  unfold pdfplumber_document.
  destruct (files (fs w) pdf_path) as [bytes|]; [|reflexivity].
  destruct (pdfplumber_load lib bytes) as [pdf|e]; [|reflexivity].
  unfold bind at 1. unfold call.
  destruct (Pdfplumber.pages pdf) as [pages|e]; [|reflexivity].
  unfold bind at 1. rewrite pdfplumber_loop.
  destruct (pages_text pages) as [texts|e]; [|reflexivity].
  unfold bind at 1. rewrite write_file_eq. unfold list_append, output_path_in.
  rewrite <- app_assoc.
  destruct (write_outcome rt _ _ _) as [[e|] w2]; reflexivity.
Qed.

(** *** new.py *)

Lemma new_loop (pages : list (res Fitz.page)) :
  forall (html_content : string) (w : world),
    for_each pages new.page_step html_content w =
      (match pages_html pages with
       | Ok htmls => Ok (html_content ++ String.concat "" htmls)
       | Raise e => Raise e
       end, w).
Proof.
  induction pages as [|loaded pages IH]; intros html_content w.
  - simpl. unfold ret. now rewrite append_nil_r.
  - cbn [for_each pages_html]. unfold bind at 1.
    unfold new.page_step at 1. unfold bind at 1. unfold call.
    destruct loaded as [page|e]; [|reflexivity].
    unfold bind at 1.
    destruct (Fitz.get_text_html page) as [page_html|e]; [|reflexivity].
    unfold ret at 1. rewrite IH.
    destruct (pages_html pages) as [htmls|e]; [|reflexivity].
    rewrite append_assoc. do 3 f_equal.
    destruct htmls as [|h htmls]; simpl; [now rewrite append_nil_r | reflexivity].
Qed.

Lemma new_convert_eq (pdf_path output_path : string) (w : world) :
  new.convert_pdf_to_html rt lib pdf_path output_path w =
  let failed w' e :=
    (Raise (mk_exn "ValueError" ("Conversion failed: " ++ exn_msg e)), w') in
  match fitz_document_at lib (fs w) pdf_path with
  | Raise e => failed w e
  | Ok doc =>
      match new_html doc with
      | Raise e => failed w e
      | Ok html =>
          match write_outcome rt w output_path html with
          | (Some e, w') => failed w' e
          | (None, w') => (Ok output_path, w')
          end
      end
  end.
Proof.
  cbv zeta. unfold new.convert_pdf_to_html, try_except.
  unfold bind at 1. rewrite fitz_open_eq.
  destruct (fitz_document_at lib (fs w) pdf_path) as [doc|e]; [|reflexivity].
  unfold new_html.
  unfold bind at 1. rewrite new_loop.
  destruct (pages_html (Fitz.load_page doc)) as [htmls|e]; [|reflexivity].
  unfold bind at 1. rewrite write_file_eq. cbn [append].
  destruct (write_outcome rt _ _ _) as [[e|] w']; reflexivity.
Qed.

(** *** pdfminer_test.py *)

Lemma pdfminer_convert_eq (pdf_path output_folder : string) (w : world) :
  pdfminer_test.convert_pdf_to_html rt lib pdf_path output_folder w =
  let failed w' e :=
    (Raise e, add_stderr w' ("An error occurred: " ++ exn_msg e)) in
  match makedirs_error rt (fs w) output_folder with
  | Some e => failed w e
  | None =>
      let w1 := after_makedirs w output_folder in
      match files (fs w) pdf_path with
      | None => failed w1 (builtin_open_error (fs w1) pdf_path)
      | Some bytes =>
          match pdfminer_html lib None None bytes with
          | Raise e => failed w1 e
          | Ok html =>
              let out := output_path_in rt pdf_path output_folder in
              match write_outcome rt w1 out html with
              | (Some e, w2) => failed w2 e
              | (None, w2) =>
                  (Ok tt,
                   add_stdout w2
                     ("Successfully converted '" ++ pdf_path ++ "' to '"
                        ++ out ++ "'"))
              end
          end
      end
  end.
Proof.
  cbv zeta. unfold pdfminer_test.convert_pdf_to_html, try_except.
  unfold bind at 1. unfold makedirs.
  destruct (makedirs_error rt (fs w) output_folder) as [e|]; [reflexivity|].
  fold (after_makedirs w output_folder).
  unfold bind at 1. rewrite open_with_eq.
  change (files (fs (after_makedirs w output_folder)) pdf_path)
    with (files (fs w) pdf_path).
  destruct (files (fs w) pdf_path) as [bytes|]; [|reflexivity].
  destruct (pdfminer_html lib None None bytes) as [html|e]; [|reflexivity].
  unfold bind at 1. rewrite write_file_eq. unfold output_path_in.
  destruct (write_outcome rt _ _ _) as [[e|] w2]; reflexivity.
Qed.

(** *** poppdf_test.py *)

Lemma poppdf_convert_eq (pdf_path output_folder : string) (w : world) :
  poppdf_test.convert_pdf_to_html rt lib pdf_path output_folder w =
  let failed w' e :=
    (Raise e, add_stderr w' ("An error occurred: " ++ exn_msg e)) in
  match makedirs_error rt (fs w) output_folder with
  | Some e => failed w e
  | None =>
      let w1 := after_makedirs w output_folder in
      match files (fs w) pdf_path with
      | None => failed w1 (builtin_open_error (fs w1) pdf_path)
      | Some bytes =>
          match pdfminer_html lib (Some "utf-8") (Some poppdf_test.laparams)
                  bytes with
          | Raise e => failed w1 e
          | Ok content =>
              let out := output_path_in rt pdf_path output_folder in
              match open_w_error rt (fs w1) out with
              | Some e => failed w1 e
              | None =>
                  let w2 := with_file w1 out "" in
                  match str_format rt poppdf_test.html_template content with
                  | Raise e => failed w2 e
                  | Ok formatted =>
                      match write_error rt (fs w2) out formatted with
                      | Some (e, n) =>
                          failed (with_file w2 out (written formatted n)) e
                      | None =>
                          (Ok tt,
                           add_stdout (with_file w2 out formatted)
                             ("Successfully converted '" ++ pdf_path ++ "' to '"
                                ++ out ++ "'"))
                      end
                  end
              end
          end
      end
  end.
Proof.
  cbv zeta. unfold poppdf_test.convert_pdf_to_html, try_except.
  unfold bind at 1. unfold makedirs.
  destruct (makedirs_error rt (fs w) output_folder) as [e|]; [reflexivity|].
  fold (after_makedirs w output_folder).
  unfold bind at 1. rewrite open_with_eq.
  change (files (fs (after_makedirs w output_folder)) pdf_path)
    with (files (fs w) pdf_path).
  destruct (files (fs w) pdf_path) as [bytes|]; [|reflexivity].
  destruct (pdfminer_html lib (Some "utf-8") (Some poppdf_test.laparams) bytes)
    as [content|e]; [|reflexivity].
  unfold bind at 1. unfold open_w, output_path_in.
  destruct (open_w_error rt (fs (after_makedirs w output_folder))
              (path_join rt output_folder
                 (path_splitext_root rt (path_basename rt pdf_path) ++ ".html")))
    as [e|]; [reflexivity|].
  unfold bind at 1. unfold call.
  destruct (str_format rt poppdf_test.html_template content)
    as [formatted|e]; [|reflexivity].
  unfold bind at 1. unfold file_write, with_file. cbn [fs].
  destruct (write_error rt _ _ formatted) as [[e n]|]; reflexivity.
Qed.

(** When the template cannot be filled in, [poppdf_test] has already
    emptied the output file: the exception is raised again and an empty file
    is left behind. *)
Lemma poppdf_format_failure_leaves_empty_file (pdf_path output_folder : string)
    (w : world) (bytes content : string) (e : exn) :
  makedirs_error rt (fs w) output_folder = None ->
  files (fs w) pdf_path = Some bytes ->
  pdfminer_html lib (Some "utf-8") (Some poppdf_test.laparams) bytes
    = Ok content ->
  open_w_error rt (fs (after_makedirs w output_folder))
    (output_path_in rt pdf_path output_folder) = None ->
  str_format rt poppdf_test.html_template content = Raise e ->
  let run := poppdf_test.convert_pdf_to_html rt lib pdf_path output_folder w in
  fst run = Raise e /\
  files (fs (snd run)) (output_path_in rt pdf_path output_folder) = Some "".
Proof.
  intros Hmk Hfile Hhtml Hopen Hfmt. cbv zeta.
  rewrite poppdf_convert_eq. cbv zeta. rewrite Hmk, Hfile, Hhtml, Hopen, Hfmt.
  split; [reflexivity|]. unfold add_stderr, with_file. cbn [snd fs].
  unfold write_fs. cbn [files]. now rewrite String.eqb_refl.
Qed.

End ConversionFacts.

(* ================================================================== *)
(** * The layout of the generated documents *)
(* ================================================================== *)

Section ShapeFacts.

Lemma concat_nil_app (l1 l2 : list string) :
  String.concat "" (l1 ++ l2) = String.concat "" l1 ++ String.concat "" l2.
Proof.
  induction l1 as [|x l1 IH]; [reflexivity|].
  destruct l1 as [|y l1].
  - simpl. destruct l2; simpl; [now rewrite append_nil_r | reflexivity].
  - change (String.concat "" ((x :: y :: l1) ++ l2))
      with (x ++ "" ++ String.concat "" ((y :: l1) ++ l2)).
    rewrite IH. change (String.concat "" (x :: y :: l1))
      with (x ++ "" ++ String.concat "" (y :: l1)).
    simpl. now rewrite append_assoc.
Qed.

Lemma concat_nil_cons (x : string) (l : list string) :
  String.concat "" (x :: l) = x ++ String.concat "" l.
Proof. apply (concat_nil_app [x] l). Qed.

(** A join is its first element followed by the others, each after the
    separator. *)
Lemma join_cons (sep x : string) (l : list string) :
  join sep (x :: l) = x ++ concat_map (fun y => sep ++ y) l.
Proof.
  unfold join, concat_map. revert x; induction l as [|y l IH]; intros x.
  - simpl. now rewrite append_nil_r.
  - change (String.concat sep (x :: y :: l))
      with (x ++ sep ++ String.concat sep (y :: l)).
    rewrite IH. cbn [map]. rewrite concat_nil_cons.
    now rewrite append_assoc.
Qed.

Lemma concat_map_app {A : Type} (f : A -> string) (l1 l2 : list A) :
  concat_map f (l1 ++ l2) = concat_map f l1 ++ concat_map f l2.
Proof. unfold concat_map. now rewrite map_app, concat_nil_app. Qed.

Lemma concat_map_cons {A : Type} (f : A -> string) (x : A) (l : list A) :
  concat_map f (x :: l) = f x ++ concat_map f l.
Proof. unfold concat_map. cbn [map]. apply concat_nil_cons. Qed.

Lemma concat_map_map {A B : Type} (f : B -> string) (g : A -> B) (l : list A) :
  concat_map f (map g l) = concat_map (fun x => f (g x)) l.
Proof. unfold concat_map. now rewrite map_map. Qed.

Lemma fold_left_filter_append {A B : Type} (p : A -> bool) (f : A -> B)
    (l : list A) (init : list B) :
  fold_left (fun acc x => if p x then list_append acc (f x) else acc) l init
  = (init ++ map f (filter p l))%list.
Proof.
  revert init; induction l as [|x l IH]; intros init; simpl.
  - now rewrite app_nil_r.
  - rewrite IH. destruct (p x); [|reflexivity].
    unfold list_append. now rewrite <- app_assoc.
Qed.

End ShapeFacts.

Section Fritz2Shape.

Import fritz_test2.

Variable rt : runtime.
Variable self : PDFToHTMLConverter.

Lemma generate_text_block_html_shape (block : block_data) :
  _generate_text_block_html rt self block = text_block_shape rt block.
Proof.
  unfold _generate_text_block_html, text_block_shape.
  assert (Hloop : forall lines init,
    fold_left
      (fun html_parts line =>
         let line_parts :=
           fold_left (fun line_parts span => list_append line_parts (span_html rt span))
             (ld_spans line) [] in
         if truthy_list line_parts
         then list_append html_parts (join "" line_parts)
         else html_parts) lines init
    = (init ++ map (fun line => join "" (map (span_html rt) (ld_spans line)))
                 (filter (fun line => truthy_list (ld_spans line)) lines))%list).
  { induction lines as [|line lines IH]; intros init.
    - simpl. now rewrite app_nil_r.
    - cbn [fold_left filter]. cbv zeta. rewrite fold_left_list_append.
      cbn [app]. rewrite IH.
      destruct (ld_spans line) as [|s spans] eqn:Hspans;
        cbn [map truthy_list]; [reflexivity|].
      unfold list_append. rewrite <- app_assoc. cbn [app map].
      now rewrite Hspans. }
  assert (Hlines : forall lines,
    concat_map (fun y => nl ++ y)
      (map (fun line => join "" (map (span_html rt) (ld_spans line)))
         (filter (fun line => truthy_list (ld_spans line)) lines))
    = concat_map (line_shape rt) lines).
  { induction lines as [|line lines IH]; [reflexivity|].
    rewrite concat_map_cons, <- IH. cbn [filter]. unfold line_shape.
    destruct (ld_spans line) as [|s spans] eqn:Hspans; cbn [truthy_list];
      [reflexivity|].
    cbn [map]. rewrite concat_map_cons, Hspans. reflexivity. }
  rewrite Hloop. unfold list_append. rewrite <- app_assoc.
  cbn [app]. rewrite join_cons, concat_map_app, Hlines.
  rewrite concat_map_cons. cbn [concat_map map String.concat].
  rewrite append_nil_r, !append_assoc. reflexivity.
Qed.

Lemma generate_page_html_shape (page_data : page_content) :
  _generate_page_html rt self page_data = page_shape rt self page_data.
Proof.
  unfold _generate_page_html, page_shape.
  rewrite (fold_left_filter_append is_text_block
             (fun block => "            " ++ _generate_text_block_html rt self block)).
  rewrite (fold_left_list_append
             (fun image => "            " ++ _generate_image_html self image)).
  unfold list_append. rewrite <- !app_assoc. cbn [app].
  rewrite join_cons. rewrite concat_map_cons, !concat_map_app.
  rewrite !concat_map_map.
  change (concat_map (fun y => nl ++ y) ["        </div>"])
    with (nl ++ "        </div>").
  rewrite !append_assoc. reflexivity.
Qed.

Lemma generate_body_html_shape (content : content) :
  _generate_body_html rt self content =
    join nl (map (page_shape rt self) (c_pages content)).
Proof.
  unfold _generate_body_html.
  rewrite (fold_left_list_append (_generate_page_html rt self)). cbn [app].
  f_equal. apply map_ext. apply generate_page_html_shape.
Qed.

Lemma generate_complete_html_shape (content : content) (pdf_path : string) :
  _generate_complete_html rt self content pdf_path =
    fritz_test2_shape rt self pdf_path (c_pages content).
Proof.
  unfold _generate_complete_html, fritz_test2_shape, fritz_test2_head.
  rewrite generate_body_html_shape. rewrite !append_assoc. reflexivity.
Qed.

End Fritz2Shape.

Section DocumentShapes.

Lemma pages_outcome_numbered (logger : string) (loaded : list (res Fitz.page)) :
  forall (start : Z) (pages : list fritz_test2.page_content)
         (warnings : list log_record),
    pages_outcome logger (enumerate start loaded) = (Ok pages, warnings) ->
    numbered_from start pages /\ length pages = length loaded.
Proof.
  induction loaded as [|l loaded IH]; intros start pages warnings H.
  - simpl in H. injection H as <- _. simpl. auto.
  - cbn [enumerate pages_outcome] in H.
    destruct l as [page|e]; [|discriminate].
    unfold page_outcome in H.
    destruct (Fitz.get_text_dict page) as [blocks|e]; [|discriminate].
    destruct (Fitz.get_images page) as [image_list|e]; [|discriminate].
    destruct (pages_outcome logger (enumerate (start + 1) loaded))
      as [[more|e] warnings'] eqn:Hrest; [|discriminate].
    injection H as <- _. destruct (IH _ _ _ Hrest) as [Hnum Hlen].
    simpl. auto.
Qed.

Lemma pages_html_length (loaded : list (res Fitz.page)) :
  forall htmls, pages_html loaded = Ok htmls -> length htmls = length loaded.
Proof.
  induction loaded as [|l loaded IH]; intros htmls H; simpl in H.
  - injection H as <-. reflexivity.
  - destruct l as [page|e]; [|discriminate].
    destruct (Fitz.get_text_html page) as [h|e]; [|discriminate].
    destruct (pages_html loaded) as [more|e]; [|discriminate].
    injection H as <-. simpl. f_equal. now apply IH.
Qed.


Lemma fritz_test_blocks_shape (htmls : list string) :
  forall start,
    concat_map (fun y => nl ++ y) (fritz_test_blocks start htmls) =
    concat_map fritz_test_page_shape (enumerate start htmls).
Proof.
  induction htmls as [|h htmls IH]; intros start; [reflexivity|].
  cbn [fritz_test_blocks enumerate]. rewrite !concat_map_cons, IH.
  unfold fritz_test_page_shape. now rewrite !append_assoc.
Qed.

Lemma fritz_test_join_shape (htmls : list string) :
  join nl ([fritz_test.html_header] ++ fritz_test_blocks 1 htmls
             ++ ["</body></html>"])%list
  = fritz_test_shape htmls.
Proof.
  cbn [app]. rewrite join_cons, concat_map_app, fritz_test_blocks_shape.
  reflexivity.
Qed.



Lemma list_snoc_neq {A : Type} (l : list A) (x : A) : (l ++ [x])%list <> l.
Proof.
  intros H. apply (f_equal (@length A)) in H. rewrite length_app in H.
  simpl in H. lia.
Qed.

End DocumentShapes.

Lemma Ok_inj {A : Type} (a b : A) : Ok a = Ok b -> a = b.
Proof. intros H. now injection H. Qed.

Lemma pair_Ok_inj {A B : Type} (a b : A) (x y : B) :
  (Ok a, x) = (Ok b, y) -> a = b /\ x = y.
Proof. intros H. now injection H. Qed.

Section Occurrence.

Lemma occurs_refl (s : string) : occurs s s.
Proof. exists "", "". now rewrite append_nil_r. Qed.

Lemma occurs_append_l (sub a b : string) : occurs sub a -> occurs sub (a ++ b).
Proof.
  intros (pre & post & ->). exists pre, (post ++ b).
  now rewrite !append_assoc.
Qed.

Lemma occurs_append_r (sub a b : string) : occurs sub b -> occurs sub (a ++ b).
Proof.
  intros (pre & post & ->). exists (a ++ pre), post.
  now rewrite !append_assoc.
Qed.

Lemma occurs_concat_map {A : Type} (sub : string) (f : A -> string)
    (l : list A) (x : A) :
  In x l -> occurs sub (f x) -> occurs sub (concat_map f l).
Proof.
  induction l as [|y l IH]; intros Hin Hocc; [contradiction|].
  rewrite concat_map_cons. destruct Hin as [-> | Hin].
  - now apply occurs_append_l.
  - apply occurs_append_r. now apply IH.
Qed.

Lemma occurs_join_map {A : Type} (sub sep : string) (f : A -> string)
    (l : list A) (x : A) :
  In x l -> occurs sub (f x) -> occurs sub (join sep (map f l)).
Proof.
  destruct l as [|y l]; intros Hin Hocc; [contradiction|].
  cbn [map]. rewrite join_cons, concat_map_map. destruct Hin as [-> | Hin].
  - now apply occurs_append_l.
  - apply occurs_append_r.
    apply (occurs_concat_map sub (fun y => sep ++ f y) l x Hin).
    now apply occurs_append_r.
Qed.

End Occurrence.

(* ================================================================== *)
(** * Styling of spans *)
(* ================================================================== *)

Section TextBlockElements.

Variable rt : runtime.
Variable self : PDFToHTMLConverter.

Lemma concat_map_ext {A : Type} (f g : A -> string) (l : list A) :
  (forall x, f x = g x) -> concat_map f l = concat_map g l.
Proof. intros H. unfold concat_map. f_equal. now apply map_ext. Qed.

Lemma line_shape_element (line : Fitz.line) :
  line_shape rt (line_data_of line) = line_element rt line.
Proof.
  unfold line_shape, line_element. cbn [line_data_of ld_spans].
  destruct (Fitz.line_spans line) as [|span spans]; [reflexivity|].
  rewrite concat_map_map. reflexivity.
Qed.

(** The text blocks extracted from a page are laid out as the elements of
    the blocks that have lines. *)
Lemma text_blocks_html (blocks : list Fitz.block) :
  map (_generate_text_block_html rt self) (text_blocks_of blocks)
  = map (block_element rt) (filter has_lines blocks).
Proof.
  induction blocks as [|block blocks IH]; [reflexivity|].
  cbn [text_blocks_of filter]. unfold has_lines at 1.
  destruct (Fitz.block_lines block) as [lines|] eqn:Hlines; [|exact IH].
  cbn [map]. rewrite IH. f_equal.
  rewrite generate_text_block_html_shape. unfold text_block_shape, block_element.
  cbn [bd_lines]. rewrite Hlines. cbn [get].
  rewrite concat_map_map.
  now rewrite (concat_map_ext _ (line_element rt) lines line_shape_element).
Qed.

(** The element of a span occurs in the HTML of its block. *)
Lemma span_html_in_text_block (block : block_data) (line : line_data)
    (span : span_data) :
  In line (bd_lines block) -> In span (ld_spans line) ->
  occurs (span_html rt span) (_generate_text_block_html rt self block).
Proof.
  intros Hline Hspan. rewrite generate_text_block_html_shape.
  unfold text_block_shape.
  do 3 apply occurs_append_r. apply occurs_append_l.
  apply (occurs_concat_map _ _ _ line Hline).
  unfold line_shape. destruct (ld_spans line) as [|s spans] eqn:Hs;
    [contradiction|].
  apply occurs_append_r. rewrite <- Hs in Hspan.
  rewrite <- Hs. apply (occurs_concat_map _ _ _ span Hspan), occurs_refl.
Qed.

End TextBlockElements.

(** C1.  [_extract_text_blocks] returns the blocks of the page that have
    lines, and [_generate_text_block_html] lays each of them out as its
    [text-block] element holding, line by line, one span element for every
    span the library hands over.  The span element of a span is
    [<span class="...">] with its classes, the inline style, and the escaped
    text; the classes hold ["bold"] exactly when ["bold"] occurs in the
    span's font name up to letter case, and ["italic"] exactly when
    ["italic"] does. *)
Theorem C1_span_classes_follow_font_name (rt : runtime)
    (self : PDFToHTMLConverter) (page : Fitz.page) (w : world) :
  match Fitz.get_text_dict page with
  | Raise e => _extract_text_blocks self page w = (Raise e, w)
  | Ok blocks =>
      exists text_blocks,
        _extract_text_blocks self page w = (Ok text_blocks, w) /\
        map (_generate_text_block_html rt self) text_blocks
          = map (block_element rt) (filter has_lines blocks)
  end /\
  forall span : Fitz.span,
    let font := get (Fitz.span_font span) "" in
    let data := span_data_of span in
    let classes := span_classes (sd_font_info data) in
    (In "bold" classes <-> occurs_ci "bold" font) /\
    (In "italic" classes <-> occurs_ci "italic" font) /\
    In "text-span" classes /\
    span_element rt span =
      "<span class=" ++ q (join " " classes)
        ++ style_attr (span_styles rt (sd_font_info data))
        ++ ">" ++ escape (get (Fitz.span_text span) "") ++ "</span>".
Proof.
  split.
  { rewrite extract_text_blocks_eq.
    destruct (Fitz.get_text_dict page) as [blocks|e]; [|reflexivity].
    exists (text_blocks_of blocks). split; [reflexivity|].
    apply text_blocks_html. }
  intros span font data classes.
  assert (Hb : fi_bold (sd_font_info data) = true <-> occurs_ci "bold" font)
    by (apply str_in_lower_spec; reflexivity).
  assert (Hi : fi_italic (sd_font_info data) = true <-> occurs_ci "italic" font)
    by (apply str_in_lower_spec; reflexivity).
  unfold span_element, span_html. fold data. subst classes. unfold span_classes.
  destruct (fi_bold (sd_font_info data)), (fi_italic (sd_font_info data));
    cbn [list_append app In class_attr truthy_list];
    (split; [rewrite <- Hb | split; [rewrite <- Hi | split; [auto | reflexivity]]]);
    split; intros H; try reflexivity; try discriminate; auto;
    repeat (destruct H as [H | H]; try discriminate H); try contradiction.
Qed.

(** C2.  [_generate_text_block_html] lays a block out as its [text-block]
    element holding the span elements of its lines, and the element of
    every span occurs in it.  For a span whose colour is a packed sRGB
    integer, the inline styles of that element hold [font-size: <size>px]
    exactly when the size differs from 12 and [color: #hhhhhh], six
    hexadecimal digits, exactly when the colour differs from 0; the style
    attribute lists the declarations present, and a span of size 12 and
    colour 0 has no style attribute. *)
Theorem C2_inline_style (rt : runtime) (self : PDFToHTMLConverter)
    (span : span_data) :
  packed_rgb (fi_color (sd_font_info span)) ->
  let font_info := sd_font_info span in
  let size := fi_size font_info in
  let color := fi_color font_info in
  let size_decl := "font-size: " ++ num_str rt size ++ "px" in
  let color_decl := "color: #" ++ format_06x color in
  let styles := span_styles rt font_info in
  (forall block, _generate_text_block_html rt self block = text_block_shape rt block) /\
  (forall block line,
     In line (bd_lines block) -> In span (ld_spans line) ->
     occurs (span_html rt span) (_generate_text_block_html rt self block)) /\
  span_html rt span =
    "<span" ++ class_attr (span_classes font_info) ++ style_attr styles
      ++ ">" ++ escape (sd_text span) ++ "</span>" /\
  (In size_decl styles <-> num_ne size 12 12%float = true) /\
  (In color_decl styles <-> color <> 0) /\
  format_06x color = hex_pad 6 color "" /\
  String.length (format_06x color) = 6%nat /\
  all_hex (format_06x color) = true /\
  style_attr styles =
    match num_ne size 12 12%float, negb (color =? 0) with
    | false, false => ""
    | true, false => " style=" ++ q size_decl
    | false, true => " style=" ++ q color_decl
    | true, true => " style=" ++ q (size_decl ++ "; " ++ color_decl)
    end.
Proof.
  intros Hc font_info size color size_decl color_decl styles.
  split; [intros block; apply generate_text_block_html_shape|].
  split; [intros block line; apply span_html_in_text_block|].
  split; [reflexivity|].
  pose proof (format_06x_packed _ Hc) as Hfmt. fold font_info color in Hfmt.
  subst styles. unfold span_styles. fold size color.
  destruct (Z.eqb_spec color 0) as [Hz|Hnz];
    destruct (num_ne size 12 12%float);
    cbn [negb list_append app In style_attr truthy_list join String.concat];
    (split; [|split; [|split; [exact Hfmt|split; [|split; [|reflexivity]]]]]);
    try (rewrite Hfmt; apply hex_pad_length);
    try (rewrite Hfmt; apply hex_pad_all_hex);
    try (split; intros H; try reflexivity; try discriminate; auto;
         repeat (destruct H as [H | H]; try discriminate H);
         try contradiction; try congruence).
Qed.

(** C2 at a concrete input: size 10.5 and blue. *)
Lemma C2_inline_style_witness :
  packed_rgb 255 /\
  style_attr
    (span_styles Sample.rt
       (mk_font_info "Helvetica-Bold" (PyFloat 10.5%float) 255 true false))
  = " style=" ++ q "font-size: 10.5px; color: #0000ff".
Proof.
  assert (H : packed_rgb 255) by (unfold packed_rgb; lia).
  split; [exact H|].
  exact (proj2 (proj2 (proj2 (proj2 (proj2 (proj2 (proj2 (proj2
           (C2_inline_style Sample.rt Sample.converter
              (mk_span_data "blue" []
                 (mk_font_info "Helvetica-Bold" (PyFloat 10.5%float) 255
                    true false))
              H))))))))).
Defined.

(* ================================================================== *)
(** * Failure policy *)
(* ================================================================== *)

Lemma files_write_fs_same (f : filesys) (path content : string) :
  files (write_fs f path content) path = Some content.
Proof. unfold write_fs. cbn [files]. now rewrite String.eqb_refl. Qed.



(* ================================================================== *)
(** * A missing input file *)
(* ================================================================== *)

(** When the input path names no file, each conversion reports an error and
    writes no file, the two scripts that hand the path to [fitz.open]
    unchecked as long as the path is not empty: [fritz_test2] raises and
    leaves the file system as it is ([FileNotFoundError], with nothing
    logged, when the path does not exist at all), [fritz_test] prints the
    error on the error stream, [pdfplumber_test] prints it and returns
    [None], [new] raises [ValueError], [pdfminer_test] and [poppdf_test]
    print the error on the error stream and raise it again; the regular
    files are the same afterwards. *)
Lemma missing_input_writes_nothing (rt : runtime) (lib : libraries)
    (pdf_path : string) (w : world) :
  files (fs w) pdf_path = None ->
  (forall self output_path,
     exists e w',
       fritz_test2.PDFToHTMLConverter_convert_pdf_to_html rt lib self
         pdf_path output_path w = (Raise e, w') /\
       fs w' = fs w /\
       (path_exists (fs w) pdf_path = false ->
        e = mk_exn "FileNotFoundError" ("PDF file not found: " ++ pdf_path) /\
        w' = w)) /\
  (forall output_folder,
     pdf_path <> "" ->
     exists e w',
       fritz_test.convert_pdf_to_html rt lib pdf_path output_folder w
         = (Ok tt, w') /\
       stderr w' = list_append (stderr w) ("An error occurred: " ++ exn_msg e) /\
       stdout w' = stdout w /\
       files (fs w') = files (fs w)) /\
  (forall output_folder,
     exists e w',
       pdfplumber_test.convert_pdf_to_html rt lib pdf_path output_folder w
         = (Ok None, w') /\
       stdout w' = list_append (stdout w) ("Error converting PDF: " ++ exn_msg e) /\
       files (fs w') = files (fs w)) /\
  (forall output_path,
     pdf_path <> "" ->
     exists e,
       new.convert_pdf_to_html rt lib pdf_path output_path w = (Raise e, w) /\
       exn_type e = "ValueError") /\
  (forall output_folder,
     exists e w',
       pdfminer_test.convert_pdf_to_html rt lib pdf_path output_folder w
         = (Raise e, w') /\
       stderr w' = list_append (stderr w) ("An error occurred: " ++ exn_msg e) /\
       stdout w' = stdout w /\
       files (fs w') = files (fs w)) /\
  (forall output_folder,
     exists e w',
       poppdf_test.convert_pdf_to_html rt lib pdf_path output_folder w
         = (Raise e, w') /\
       stderr w' = list_append (stderr w) ("An error occurred: " ++ exn_msg e) /\
       stdout w' = stdout w /\
       files (fs w') = files (fs w)).
Proof.
  intros Hmissing. split; [|split; [|split; [|split; [|split]]]].
  - intros self output_path. rewrite fritz_test2_convert_eq. cbv zeta.
    rewrite Hmissing.
    destruct (path_exists (fs w) pdf_path); cbn [negb];
      do 2 eexists; (split; [reflexivity|]); split;
      try reflexivity; intros H; try discriminate H; split; reflexivity.
  - intros output_folder Hpath. apply String.eqb_neq in Hpath.
    rewrite fritz_test_convert_eq. cbv zeta.
    unfold fitz_document_at. rewrite Hpath. cbn [after_makedirs fs files].
    rewrite Hmissing.
    destruct (makedirs_error rt (fs w) output_folder) as [e|];
      do 2 eexists; (split; [reflexivity|]); repeat split; reflexivity.
  - intros output_folder. rewrite pdfplumber_convert_eq. cbv zeta.
    rewrite Hmissing.
    destruct (makedirs_error rt (fs w) output_folder) as [e|];
      do 2 eexists; (split; [reflexivity|]); repeat split; reflexivity.
  - intros output_path Hpath. apply String.eqb_neq in Hpath.
    rewrite new_convert_eq. cbv zeta.
    unfold fitz_document_at. rewrite Hpath, Hmissing.
    eexists. split; reflexivity.
  - intros output_folder. rewrite pdfminer_convert_eq. cbv zeta.
    rewrite Hmissing.
    destruct (makedirs_error rt (fs w) output_folder) as [e|];
      do 2 eexists; (split; [reflexivity|]); repeat split; reflexivity.
  - intros output_folder. rewrite poppdf_convert_eq. cbv zeta.
    rewrite Hmissing.
    destruct (makedirs_error rt (fs w) output_folder) as [e|];
      do 2 eexists; (split; [reflexivity|]); repeat split; reflexivity.
Qed.

(** C4 at the failing input.  The empty path names no file, and [fitz.open]
    takes it as no file name: [fritz_test] and [new], which hand the path over
    unchecked, convert the new PDF without pages that they get, write an
    output file and report success. *)
Lemma C4_empty_path_is_converted :
  let before := Sample.empty_world in
  let run :=
    fritz_test.convert_pdf_to_html Sample.rt Sample.lib "" "output" before in
  let run' :=
    new.convert_pdf_to_html Sample.rt Sample.lib "" "a.html" before in
  path_exists (fs before) "" = false /\
  files (fs before) "" = None /\
  files (fs before) "output/.html" = None /\
  files (fs before) "a.html" = None /\
  fst run = Ok tt /\
  stderr (snd run) = [] /\
  stdout (snd run) = ["Successfully converted '' to 'output/.html'"] /\
  files (fs (snd run)) "output/.html"
    = Some (fritz_test.html_header ++ nl ++ "</body></html>") /\
  fst run' = Ok "a.html" /\
  files (fs (snd run')) "a.html" = Some "<html><body></body></html>".
Proof.
  cbv zeta. repeat split; vm_compute; reflexivity.
Qed.

(* ================================================================== *)
(** * The documents written *)
(* ================================================================== *)

Section WrittenDocuments.

Variable rt : runtime.
Variable lib : libraries.

(** Whenever [fritz_test2] returns a path, that file holds the document
    computed from the bytes of the input file. *)
Lemma fritz_test2_success (self : fritz_test2.PDFToHTMLConverter)
    (pdf_path : string) (output_path : option string) (w w' : world)
    (out : string) :
  fritz_test2.PDFToHTMLConverter_convert_pdf_to_html rt lib self
    pdf_path output_path w = (Ok out, w') ->
  out = fritz_test2.output_path_or_default rt pdf_path output_path /\
  exists bytes html warnings,
    files (fs w) pdf_path = Some bytes /\
    fritz_test2_document rt lib self pdf_path bytes = (Ok html, warnings) /\
    files (fs w') out = Some html.
Proof.
  rewrite fritz_test2_convert_eq. cbv zeta.
  destruct (negb (path_exists (fs w) pdf_path)); [discriminate|].
  destruct (files (fs w) pdf_path) as [bytes|]; [|discriminate].
  destruct (fritz_test2_document rt lib self pdf_path bytes)
    as [[html|e] warnings] eqn:Hdoc; [|discriminate].
  destruct (write_outcome rt w _ html) as [[e|] w2] eqn:Hwrite; [discriminate|].
  apply write_outcome_done in Hwrite. subst w2.
  intros H. apply pair_Ok_inj in H as [<- <-]. split; [reflexivity|].
  exists bytes, html, warnings. cbn [add_log with_file fs].
  rewrite files_write_fs_same. auto.
Qed.

(** Whenever [fritz_test] reports no error, the output file holds the
    document computed from what [fitz.open] gives for the input path. *)
Lemma fritz_test_success (pdf_path output_folder : string) (w : world) :
  let w' := snd (fritz_test.convert_pdf_to_html rt lib pdf_path output_folder w) in
  stderr w' = stderr w ->
  exists doc html,
    fitz_document_at lib (fs w) pdf_path = Ok doc /\
    fritz_test_html doc = Ok html /\
    files (fs w') (output_path_in rt pdf_path output_folder) = Some html.
Proof.
  rewrite fritz_test_convert_eq. cbv zeta.
  destruct (makedirs_error rt (fs w) output_folder);
    [intros H; cbn in H; now apply list_snoc_neq in H|].
  destruct (fitz_document_at lib (fs (after_makedirs w output_folder)) pdf_path)
    as [doc|e] eqn:Hopen;
    [|intros H; cbn in H; now apply list_snoc_neq in H].
  destruct (fritz_test_html doc) as [html|e] eqn:Hdoc;
    [|intros H; cbn in H; now apply list_snoc_neq in H].
  pose proof (write_outcome_keeps rt (output_path_in rt pdf_path output_folder)
                html (after_makedirs w output_folder)) as (_ & _ & Herr & _).
  destruct (write_outcome rt (after_makedirs w output_folder) _ html)
    as [[e|] w2] eqn:Hwrite; cbn [snd] in Herr.
  { intros H. cbn in H. rewrite Herr in H. now apply list_snoc_neq in H. }
  apply write_outcome_done in Hwrite. subst w2.
  intros _. exists doc, html. split.
  - apply (fitz_document_at_files lib (fs (after_makedirs w output_folder)));
      [reflexivity | exact Hopen].
  - split; [exact Hdoc|]. unfold add_stdout, with_file. cbn [snd fs].
    apply files_write_fs_same.
Qed.

Lemma pdfplumber_success (pdf_path output_folder : string) (w w' : world)
    (out : string) :
  pdfplumber_test.convert_pdf_to_html rt lib pdf_path output_folder w
    = (Ok (Some out), w') ->
  out = output_path_in rt pdf_path output_folder /\
  exists bytes html,
    files (fs w) pdf_path = Some bytes /\
    pdfplumber_document lib bytes = Ok html /\
    files (fs w') out = Some html.
Proof.
  rewrite pdfplumber_convert_eq. cbv zeta.
  destruct (makedirs_error rt (fs w) output_folder); [discriminate|].
  destruct (files (fs w) pdf_path) as [bytes|]; [|discriminate].
  destruct (pdfplumber_document lib bytes) as [html|e] eqn:Hdoc; [|discriminate].
  destruct (write_outcome rt (after_makedirs w output_folder) _ html)
    as [[e|] w2] eqn:Hwrite; [discriminate|].
  apply write_outcome_done in Hwrite. subst w2.
  intros H. injection H as <- <-. split; [reflexivity|].
  exists bytes, html. cbn [with_file fs]. rewrite files_write_fs_same. auto.
Qed.

Lemma new_success (pdf_path output_path : string) (w w' : world) (out : string) :
  new.convert_pdf_to_html rt lib pdf_path output_path w = (Ok out, w') ->
  out = output_path /\
  exists doc html,
    fitz_document_at lib (fs w) pdf_path = Ok doc /\
    new_html doc = Ok html /\
    files (fs w') out = Some html.
Proof.
  rewrite new_convert_eq. cbv zeta.
  destruct (fitz_document_at lib (fs w) pdf_path) as [doc|e] eqn:Hopen;
    [|discriminate].
  destruct (new_html doc) as [html|e] eqn:Hdoc; [|discriminate].
  destruct (write_outcome rt w output_path html) as [[e|] w2] eqn:Hwrite;
    [discriminate|].
  apply write_outcome_done in Hwrite. subst w2.
  intros H. injection H as <- <-. split; [reflexivity|].
  exists doc, html. cbn [with_file fs]. rewrite files_write_fs_same. auto.
Qed.

Lemma pdfminer_success (pdf_path output_folder : string) (w w' : world) :
  pdfminer_test.convert_pdf_to_html rt lib pdf_path output_folder w
    = (Ok tt, w') ->
  exists bytes html,
    files (fs w) pdf_path = Some bytes /\
    pdfminer_html lib None None bytes = Ok html /\
    files (fs w') (output_path_in rt pdf_path output_folder) = Some html.
Proof.
  rewrite pdfminer_convert_eq. cbv zeta.
  destruct (makedirs_error rt (fs w) output_folder); [discriminate|].
  destruct (files (fs w) pdf_path) as [bytes|]; [|discriminate].
  destruct (pdfminer_html lib None None bytes) as [html|e] eqn:Hdoc;
    [|discriminate].
  destruct (write_outcome rt (after_makedirs w output_folder) _ html)
    as [[e|] w2] eqn:Hwrite; [discriminate|].
  apply write_outcome_done in Hwrite. subst w2.
  intros H. apply pair_Ok_inj in H as [_ <-].
  exists bytes, html. unfold add_stdout, with_file. cbn [fs].
  rewrite files_write_fs_same. auto.
Qed.

Lemma poppdf_success (pdf_path output_folder : string) (w w' : world) :
  poppdf_test.convert_pdf_to_html rt lib pdf_path output_folder w
    = (Ok tt, w') ->
  exists bytes content formatted,
    files (fs w) pdf_path = Some bytes /\
    pdfminer_html lib (Some "utf-8") (Some poppdf_test.laparams) bytes
      = Ok content /\
    str_format rt poppdf_test.html_template content = Ok formatted /\
    files (fs w') (output_path_in rt pdf_path output_folder) = Some formatted.
Proof.
  rewrite poppdf_convert_eq. cbv zeta.
  destruct (makedirs_error rt (fs w) output_folder); [discriminate|].
  destruct (files (fs w) pdf_path) as [bytes|]; [|discriminate].
  destruct (pdfminer_html lib (Some "utf-8") (Some poppdf_test.laparams) bytes)
    as [content|e] eqn:Hdoc; [|discriminate].
  destruct (open_w_error rt (fs (after_makedirs w output_folder))
              (output_path_in rt pdf_path output_folder)); [discriminate|].
  destruct (str_format rt poppdf_test.html_template content)
    as [formatted|e] eqn:Hfmt; [|discriminate].
  destruct (write_error rt _ _ formatted) as [[e n]|]; [discriminate|].
  intros H. apply pair_Ok_inj in H as [_ <-].
  exists bytes, content, formatted. unfold add_stdout, with_file. cbn [fs].
  rewrite files_write_fs_same. auto.
Qed.




Lemma fritz_test2_document_shape (self : fritz_test2.PDFToHTMLConverter)
    (pdf_path bytes html : string) (warnings : list log_record) :
  fritz_test2_document rt lib self pdf_path bytes = (Ok html, warnings) ->
  exists doc pages,
    fitz_load lib bytes = Ok doc /\
    length pages = length (Fitz.load_page doc) /\
    numbered_from 0 pages /\
    html = fritz_test2_shape rt self pdf_path pages.
Proof.
  unfold fritz_test2_document.
  destruct (fitz_load lib bytes) as [doc|e]; [|discriminate].
  destruct (pages_outcome (fritz_test2.logger self)
              (enumerate 0 (Fitz.load_page doc)))
    as [[pages|e] ws] eqn:Hpages; [|discriminate].
  intros H. apply pair_Ok_inj in H as [<- _].
  destruct (pages_outcome_numbered _ _ _ _ _ Hpages) as [Hnum Hlen].
  exists doc, pages. rewrite generate_complete_html_shape. auto.
Qed.


Lemma fritz_test_html_shape (doc : Fitz.document) (html : string) :
  fritz_test_html doc = Ok html ->
  exists htmls,
    pages_html (Fitz.load_page doc) = Ok htmls /\
    length htmls = length (Fitz.load_page doc) /\
    html = fritz_test_shape htmls.
Proof.
  unfold fritz_test_html.
  destruct (pages_html (Fitz.load_page doc)) as [htmls|e] eqn:Hh; [|discriminate].
  intros H. apply Ok_inj in H as <-. exists htmls.
  rewrite fritz_test_join_shape. repeat split; auto.
  now apply pages_html_length.
Qed.

Lemma fritz_test_document_shape (bytes html : string) :
  fritz_test_document lib bytes = Ok html ->
  exists doc htmls,
    fitz_load lib bytes = Ok doc /\
    pages_html (Fitz.load_page doc) = Ok htmls /\
    length htmls = length (Fitz.load_page doc) /\
    html = fritz_test_shape htmls.
Proof.
  unfold fritz_test_document.
  destruct (fitz_load lib bytes) as [doc|e]; [|discriminate].
  intros H. destruct (fritz_test_html_shape _ _ H) as (htmls & Hh & Hl & ->).
  now exists doc, htmls.
Qed.


Lemma new_html_shape (doc : Fitz.document) (html : string) :
  new_html doc = Ok html ->
  exists htmls,
    pages_html (Fitz.load_page doc) = Ok htmls /\
    length htmls = length (Fitz.load_page doc) /\
    html = new_shape htmls.
Proof.
  unfold new_html.
  destruct (pages_html (Fitz.load_page doc)) as [htmls|e] eqn:Hh; [|discriminate].
  intros H. apply Ok_inj in H as <-. exists htmls. repeat split; auto.
  now apply pages_html_length.
Qed.

Lemma new_document_shape (bytes html : string) :
  new_document lib bytes = Ok html ->
  exists doc htmls,
    fitz_load lib bytes = Ok doc /\
    pages_html (Fitz.load_page doc) = Ok htmls /\
    length htmls = length (Fitz.load_page doc) /\
    html = new_shape htmls.
Proof.
  unfold new_document.
  destruct (fitz_load lib bytes) as [doc|e]; [|discriminate].
  intros H. destruct (new_html_shape _ _ H) as (htmls & Hh & Hl & ->).
  now exists doc, htmls.
Qed.

End WrittenDocuments.

Lemma ends_with_append (a b : string) : exists middle, a ++ b = middle ++ b.
Proof. now exists a. Qed.

(** How the four layouts begin and end. *)
Lemma layouts_begin_and_end (rt : runtime)
    (self : fritz_test2.PDFToHTMLConverter) (pdf_path : string)
    (pages : list fritz_test2.page_content) (htmls : list string)
    (texts : list (option string)) :
  (prefix ("<!DOCTYPE html>" ++ nl ++ "<html lang=" ++ q "en" ++ ">" ++ nl
             ++ "<head>")
     (fritz_test2_shape rt self pdf_path pages) = true /\
   exists middle,
     fritz_test2_shape rt self pdf_path pages
       = middle ++ "</body>" ++ nl ++ "</html>") /\
  (prefix (nl ++ "<!DOCTYPE html>" ++ nl ++ "<html>" ++ nl ++ "<head>")
     (fritz_test_shape htmls) = true /\
   exists middle, fritz_test_shape htmls = middle ++ "</body></html>") /\
  (prefix ("<!DOCTYPE html>" ++ nl ++ "<html>" ++ nl ++ "<head>")
     (pdfplumber_shape texts) = true /\
   exists middle,
     pdfplumber_shape texts = middle ++ "</body>" ++ nl ++ "</html>") /\
  (prefix "<html><body>" (new_shape htmls) = true /\
   exists middle, new_shape htmls = middle ++ "</body></html>").
Proof.
  split; [|split; [|split]]; split.
  - apply prefix_spec. unfold fritz_test2_shape, fritz_test2_head.
    eexists. cbn [append q dq nl]. reflexivity.
  - unfold fritz_test2_shape.
    repeat lazymatch goal with
           | |- exists m, ?a ++ ?b = m ++ ?b => apply ends_with_append
           | |- exists m, ?a ++ ?b ++ ?c = m ++ ?d =>
               rewrite <- (append_assoc a b c)
           end.
  - apply prefix_spec. unfold fritz_test_shape, fritz_test.html_header.
    eexists. cbn [append q dq nl]. reflexivity.
  - unfold fritz_test_shape.
    repeat lazymatch goal with
           | |- exists m, ?a ++ ?b = m ++ ?b => apply ends_with_append
           | |- exists m, ?a ++ ?b ++ ?c = m ++ ?d =>
               rewrite <- (append_assoc a b c)
           end.
  - apply prefix_spec. unfold pdfplumber_shape, pdfplumber_test.html_header.
    eexists. cbn [append q dq nl]. reflexivity.
  - unfold pdfplumber_shape.
    repeat lazymatch goal with
           | |- exists m, ?a ++ ?b = m ++ ?b => apply ends_with_append
           | |- exists m, ?a ++ ?b ++ ?c = m ++ ?d =>
               rewrite <- (append_assoc a b c)
           end.
  - apply prefix_spec. unfold new_shape. eexists. reflexivity.
  - unfold new_shape.
    repeat lazymatch goal with
           | |- exists m, ?a ++ ?b = m ++ ?b => apply ends_with_append
           | |- exists m, ?a ++ ?b ++ ?c = m ++ ?d =>
               rewrite <- (append_assoc a b c)
           end.
Qed.




(* ================================================================== *)
(** * Determinism and unused inputs *)
(* ================================================================== *)

(** C8.  The libraries being functions of the bytes of the input file, two
    runs of a conversion on worlds that agree on the input file, whatever
    else differs, write the same bytes to the same output path whenever both
    succeed. *)
Theorem C8_same_input_same_html (rt : runtime) (lib : libraries)
    (pdf_path : string) (w1 w2 : world) :
  files (fs w1) pdf_path = files (fs w2) pdf_path ->
  (forall self output_path out1 out2 w1' w2',
     fritz_test2.PDFToHTMLConverter_convert_pdf_to_html rt lib self
       pdf_path output_path w1 = (Ok out1, w1') ->
     fritz_test2.PDFToHTMLConverter_convert_pdf_to_html rt lib self
       pdf_path output_path w2 = (Ok out2, w2') ->
     out1 = out2 /\
     exists html,
       files (fs w1') out1 = Some html /\ files (fs w2') out2 = Some html) /\
  (forall output_folder,
     let out := output_path_in rt pdf_path output_folder in
     let w1' :=
       snd (fritz_test.convert_pdf_to_html rt lib pdf_path output_folder w1) in
     let w2' :=
       snd (fritz_test.convert_pdf_to_html rt lib pdf_path output_folder w2) in
     stderr w1' = stderr w1 -> stderr w2' = stderr w2 ->
     exists html,
       files (fs w1') out = Some html /\ files (fs w2') out = Some html) /\
  (forall output_folder out1 out2 w1' w2',
     pdfplumber_test.convert_pdf_to_html rt lib pdf_path output_folder w1
       = (Ok (Some out1), w1') ->
     pdfplumber_test.convert_pdf_to_html rt lib pdf_path output_folder w2
       = (Ok (Some out2), w2') ->
     out1 = out2 /\
     exists html,
       files (fs w1') out1 = Some html /\ files (fs w2') out2 = Some html) /\
  (forall output_path out1 out2 w1' w2',
     new.convert_pdf_to_html rt lib pdf_path output_path w1 = (Ok out1, w1') ->
     new.convert_pdf_to_html rt lib pdf_path output_path w2 = (Ok out2, w2') ->
     out1 = out2 /\
     exists html,
       files (fs w1') out1 = Some html /\ files (fs w2') out2 = Some html) /\
  (forall output_folder w1' w2',
     let out := output_path_in rt pdf_path output_folder in
     pdfminer_test.convert_pdf_to_html rt lib pdf_path output_folder w1
       = (Ok tt, w1') ->
     pdfminer_test.convert_pdf_to_html rt lib pdf_path output_folder w2
       = (Ok tt, w2') ->
     exists html,
       files (fs w1') out = Some html /\ files (fs w2') out = Some html) /\
  (forall output_folder w1' w2',
     let out := output_path_in rt pdf_path output_folder in
     poppdf_test.convert_pdf_to_html rt lib pdf_path output_folder w1
       = (Ok tt, w1') ->
     poppdf_test.convert_pdf_to_html rt lib pdf_path output_folder w2
       = (Ok tt, w2') ->
     exists html,
       files (fs w1') out = Some html /\ files (fs w2') out = Some html).
Proof.
  intros Hsame. split; [|split; [|split; [|split; [|split]]]].
  - intros self output_path out1 out2 w1' w2' H1 H2.
    destruct (fritz_test2_success _ _ _ _ _ _ _ _ H1)
      as (-> & b1 & h1 & ws1 & Hb1 & Hd1 & Ho1).
    destruct (fritz_test2_success _ _ _ _ _ _ _ _ H2)
      as (-> & b2 & h2 & ws2 & Hb2 & Hd2 & Ho2).
    split; [reflexivity|]. exists h1. split; [exact Ho1|].
    assert (b1 = b2) by congruence. subst b2.
    assert (h1 = h2) by congruence. now subst h2.
  - intros output_folder out w1' w2' H1 H2.
    destruct (fritz_test_success rt lib pdf_path output_folder w1 H1)
      as (d1 & h1 & Hb1 & Hd1 & Ho1).
    destruct (fritz_test_success rt lib pdf_path output_folder w2 H2)
      as (d2 & h2 & Hb2 & Hd2 & Ho2).
    exists h1. split; [exact Ho1|].
    apply (fitz_document_at_files lib _ (fs w2) _ _ Hsame) in Hb1.
    assert (d1 = d2) by congruence. subst d2.
    assert (h1 = h2) by congruence. now subst h2.
  - intros output_folder out1 out2 w1' w2' H1 H2.
    destruct (pdfplumber_success _ _ _ _ _ _ _ H1)
      as (-> & b1 & h1 & Hb1 & Hd1 & Ho1).
    destruct (pdfplumber_success _ _ _ _ _ _ _ H2)
      as (-> & b2 & h2 & Hb2 & Hd2 & Ho2).
    split; [reflexivity|]. exists h1. split; [exact Ho1|].
    assert (b1 = b2) by congruence. subst b2.
    assert (h1 = h2) by congruence. now subst h2.
  - intros output_path out1 out2 w1' w2' H1 H2.
    destruct (new_success _ _ _ _ _ _ _ H1)
      as (-> & d1 & h1 & Hb1 & Hd1 & Ho1).
    destruct (new_success _ _ _ _ _ _ _ H2)
      as (-> & d2 & h2 & Hb2 & Hd2 & Ho2).
    split; [reflexivity|]. exists h1. split; [exact Ho1|].
    apply (fitz_document_at_files lib _ (fs w2) _ _ Hsame) in Hb1.
    assert (d1 = d2) by congruence. subst d2.
    assert (h1 = h2) by congruence. now subst h2.
  - intros output_folder w1' w2' out H1 H2.
    destruct (pdfminer_success _ _ _ _ _ _ H1) as (b1 & h1 & Hb1 & Hd1 & Ho1).
    destruct (pdfminer_success _ _ _ _ _ _ H2) as (b2 & h2 & Hb2 & Hd2 & Ho2).
    exists h1. split; [exact Ho1|].
    assert (b1 = b2) by congruence. subst b2.
    assert (h1 = h2) by congruence. now subst h2.
  - intros output_folder w1' w2' out H1 H2.
    destruct (poppdf_success _ _ _ _ _ _ H1)
      as (b1 & c1 & h1 & Hb1 & Hd1 & Hf1 & Ho1).
    destruct (poppdf_success _ _ _ _ _ _ H2)
      as (b2 & c2 & h2 & Hb2 & Hd2 & Hf2 & Ho2).
    exists h1. split; [exact Ho1|].
    assert (b1 = b2) by congruence. subst b2.
    assert (c1 = c2) by congruence. subst c2.
    assert (h1 = h2) by congruence. now subst h2.
Qed.

(** C8 at a concrete input: running [fritz_test2] a second time, in the
    world the first run left, rewrites the same bytes. *)
Lemma C8_rerun_witness :
  let first :=
    fritz_test2.PDFToHTMLConverter_convert_pdf_to_html Sample.rt
      Sample.lib Sample.converter "a.pdf" None Sample.world in
  let second :=
    fritz_test2.PDFToHTMLConverter_convert_pdf_to_html Sample.rt
      Sample.lib Sample.converter "a.pdf" None (snd first) in
  files (fs Sample.world) "a.pdf" = files (fs (snd first)) "a.pdf" /\
  fst first = Ok "a.html" /\ fst second = Ok "a.html" /\
  exists html,
    files (fs (snd first)) "a.html" = Some html /\
    files (fs (snd second)) "a.html" = Some html.
Proof.
  cbv zeta.
  assert (Hsame : files (fs Sample.world) "a.pdf"
                  = files (fs (snd (fritz_test2.PDFToHTMLConverter_convert_pdf_to_html
                        Sample.rt Sample.lib Sample.converter "a.pdf"
                        None Sample.world))) "a.pdf")
    by (vm_compute; reflexivity).
  split; [exact Hsame|]. split; [vm_compute; reflexivity|].
  split; [vm_compute; reflexivity|].
  exact (proj2 (proj1 (C8_same_input_same_html Sample.rt Sample.lib
                  "a.pdf" Sample.world _ Hsame)
           Sample.converter None "a.html" "a.html" _ _
           (surjective_pairing _) (surjective_pairing _))).
Defined.

(** C9.  The result of [convert_pdf_to_html], and the world it leaves, are
    the same for every value of [embed_fonts] and [preserve_layout]; so are
    those of the method on two converters that differ in the flags only. *)
Theorem C9_flags_do_not_interfere (rt : runtime) (lib : libraries)
    (pdf_path : string) (output_path : option string)
    (embed_fonts1 preserve_layout1 embed_fonts2 preserve_layout2 : bool)
    (w : world) :
  fritz_test2.convert_pdf_to_html rt lib pdf_path output_path
    embed_fonts1 preserve_layout1 w
  = fritz_test2.convert_pdf_to_html rt lib pdf_path output_path
      embed_fonts2 preserve_layout2 w
  /\
  forall logger,
    fritz_test2.PDFToHTMLConverter_convert_pdf_to_html rt lib
      (fritz_test2.mk_converter embed_fonts1 preserve_layout1 logger)
      pdf_path output_path w
    = fritz_test2.PDFToHTMLConverter_convert_pdf_to_html rt lib
        (fritz_test2.mk_converter embed_fonts2 preserve_layout2 logger)
        pdf_path output_path w.
Proof.
  assert (Hmethod : forall logger,
    fritz_test2.PDFToHTMLConverter_convert_pdf_to_html rt lib
      (fritz_test2.mk_converter embed_fonts1 preserve_layout1 logger)
      pdf_path output_path w
    = fritz_test2.PDFToHTMLConverter_convert_pdf_to_html rt lib
        (fritz_test2.mk_converter embed_fonts2 preserve_layout2 logger)
        pdf_path output_path w).
  { intros logger. rewrite !fritz_test2_convert_eq. reflexivity. }
  split; [|exact Hmethod].
  unfold fritz_test2.convert_pdf_to_html, fritz_test2.__init__, bind, ret.
  apply Hmethod.
Qed.

(** C10.  The drawings extracted from a page are stored in the page
    content; the HTML of the page is its header, its text blocks and its
    images, and is the same whatever the list of drawings holds. *)
Theorem C10_drawings_are_stored_not_rendered (rt : runtime)
    (self : fritz_test2.PDFToHTMLConverter) :
  (forall page page_num w,
     match fritz_test2._extract_page_content self page page_num w with
     | (Ok page_data, _) =>
         fritz_test2.pc_drawings page_data =
           match Fitz.get_drawings page with
           | Ok paths => map fritz_test2.drawing_info_of paths
           | Raise _ => []
           end
     | (Raise _, _) => True
     end) /\
  (forall page_data,
     fritz_test2._generate_page_html rt self page_data
       = page_shape rt self page_data) /\
  (forall page_data drawings,
     fritz_test2._generate_page_html rt self
       (fritz_test2.mk_page_content
          (fritz_test2.pc_page_num page_data)
          (fritz_test2.pc_dimensions page_data)
          (fritz_test2.pc_text_blocks page_data)
          (fritz_test2.pc_images page_data)
          drawings)
     = fritz_test2._generate_page_html rt self page_data).
Proof.
  split; [|split].
  - intros page page_num w. rewrite extract_page_content_eq.
    unfold page_outcome.
    destruct (Fitz.get_text_dict page); [|exact I].
    destruct (Fitz.get_images page); [|exact I].
    reflexivity.
  - apply generate_page_html_shape.
  - intros page_data drawings. reflexivity.
Qed.

(* ================================================================== *)
(** * Escaped text *)
(* ================================================================== *)



(** Walks down a right-nested concatenation until [tac] finds the
    occurrence in one of its parts. *)
Ltac occurs_in_part tac :=
  first [ tac
        | apply occurs_append_l; tac
        | apply occurs_append_r; occurs_in_part tac ].

Section EscapedText.

Variable rt : runtime.
Variable self : PDFToHTMLConverter.

Lemma span_text_in_span_html (span : span_data) :
  occurs (escape (sd_text span)) (span_html rt span).
Proof.
  unfold span_html. occurs_in_part ltac:(apply occurs_refl).
Qed.

Lemma span_text_in_text_block (block : block_data) (line : line_data)
    (span : span_data) :
  In line (bd_lines block) -> In span (ld_spans line) ->
  occurs (escape (sd_text span)) (_generate_text_block_html rt self block).
Proof.
  intros Hline Hspan. rewrite generate_text_block_html_shape.
  unfold text_block_shape.
  occurs_in_part ltac:(apply (occurs_concat_map _ _ _ line Hline)).
  unfold line_shape.
  destruct (ld_spans line) as [|s spans] eqn:Hs; [contradiction|].
  apply occurs_append_r. rewrite <- Hs in *.
  apply (occurs_concat_map _ _ _ span Hspan), span_text_in_span_html.
Qed.

Lemma span_text_in_page (page_data : page_content) (block : block_data)
    (line : line_data) (span : span_data) :
  In block (pc_text_blocks page_data) -> is_text_block block = true ->
  In line (bd_lines block) -> In span (ld_spans line) ->
  occurs (escape (sd_text span)) (page_shape rt self page_data).
Proof.
  intros Hblock Htext Hline Hspan. unfold page_shape.
  assert (Hin : In block (filter is_text_block (pc_text_blocks page_data)))
    by (apply filter_In; auto).
  occurs_in_part ltac:(apply (occurs_concat_map _
    (fun block => nl ++ "            " ++ _generate_text_block_html rt self block)
    _ block Hin)).
  do 2 apply occurs_append_r. now apply span_text_in_text_block with line.
Qed.

Lemma span_text_in_document (pdf_path : string) (pages : list page_content)
    (page_data : page_content) (block : block_data) (line : line_data)
    (span : span_data) :
  In page_data pages ->
  In block (pc_text_blocks page_data) -> is_text_block block = true ->
  In line (bd_lines block) -> In span (ld_spans line) ->
  occurs (escape (sd_text span)) (fritz_test2_shape rt self pdf_path pages).
Proof.
  intros Hpage Hblock Htext Hline Hspan. unfold fritz_test2_shape.
  occurs_in_part ltac:(apply (occurs_join_map _ _ _ _ page_data Hpage)).
  now apply span_text_in_page with block line.
Qed.

End EscapedText.

Section ExtractedText.

Lemma text_blocks_of_In (blocks : list Fitz.block) (block : Fitz.block)
    (lines : list Fitz.line) :
  In block blocks -> Fitz.block_lines block = Some lines ->
  In (mk_block_data "text" (Fitz.block_bbox block) (map line_data_of lines))
     (text_blocks_of blocks).
Proof.
  induction blocks as [|b blocks IH]; intros Hin Hlines; [contradiction|].
  cbn [text_blocks_of]. destruct Hin as [-> | Hin].
  - rewrite Hlines. now left.
  - destruct (Fitz.block_lines b); [right|]; now apply IH.
Qed.

Lemma pages_outcome_In (logger : string) (loaded : list (res Fitz.page))
    (page : Fitz.page) :
  forall start pages warnings,
    pages_outcome logger (enumerate start loaded) = (Ok pages, warnings) ->
    In (Ok page) loaded ->
    exists page_num page_data,
      fst (page_outcome logger page page_num) = Ok page_data /\
      In page_data pages.
Proof.
  induction loaded as [|l loaded IH]; intros start pages warnings H Hin;
    [contradiction|].
  cbn [enumerate pages_outcome] in H.
  destruct l as [p|e]; [|discriminate].
  destruct (page_outcome logger p start) as [[pd|e] ws] eqn:Hp; [|discriminate].
  destruct (pages_outcome logger (enumerate (start + 1) loaded))
    as [[more|e] ws'] eqn:Hrest; [|discriminate].
  apply pair_Ok_inj in H as [<- _].
  destruct Hin as [Heq | Hin].
  - apply Ok_inj in Heq as ->. exists start, pd. rewrite Hp. split; [reflexivity | now left].
  - destruct (IH _ _ _ Hrest Hin) as (n & page_data & Hout & Hm).
    exists n, page_data. split; [exact Hout | now right].
Qed.

(** Every span text the library hands over for a page of the document
    occurs, escaped, in the HTML that [fritz_test2] computes. *)
Lemma fritz_test2_text_is_escaped (rt : runtime) (lib : libraries)
    (self : PDFToHTMLConverter) (pdf_path bytes html : string)
    (warnings : list log_record) (doc : Fitz.document) (page : Fitz.page)
    (blocks : list Fitz.block) (block : Fitz.block) (lines : list Fitz.line)
    (line : Fitz.line) (span : Fitz.span) :
  fritz_test2_document rt lib self pdf_path bytes = (Ok html, warnings) ->
  fitz_load lib bytes = Ok doc ->
  In (Ok page) (Fitz.load_page doc) ->
  Fitz.get_text_dict page = Ok blocks ->
  In block blocks -> Fitz.block_lines block = Some lines ->
  In line lines -> In span (Fitz.line_spans line) ->
  occurs (escape (get (Fitz.span_text span) "")) html.
Proof.
  intros Hdoc Hload Hpage Hdict Hblock Hlines Hline Hspan.
  unfold fritz_test2_document in Hdoc. rewrite Hload in Hdoc.
  destruct (pages_outcome (logger self) (enumerate 0 (Fitz.load_page doc)))
    as [[pages|e] ws] eqn:Hpages; [|discriminate].
  apply pair_Ok_inj in Hdoc as [<- _].
  rewrite generate_complete_html_shape. cbn [c_pages].
  destruct (pages_outcome_In _ _ _ _ _ _ Hpages Hpage)
    as (n & page_data & Hout & Hin).
  unfold page_outcome in Hout. rewrite Hdict in Hout.
  destruct (Fitz.get_images page) as [image_list|e]; [|discriminate].
  apply Ok_inj in Hout. subst page_data.
  apply (span_text_in_document rt self pdf_path pages _
           (mk_block_data "text" (Fitz.block_bbox block) (map line_data_of lines))
           (line_data_of line) (span_data_of span) Hin).
  - cbn [pc_text_blocks]. now apply text_blocks_of_In.
  - reflexivity.
  - cbn [bd_lines]. now apply in_map.
  - cbn [line_data_of ld_spans]. now apply in_map.
Qed.

End ExtractedText.

(** C6 at the failing input.  For a page whose text is [1 < 2 & 3],
    [pdfplumber_test] writes the text as it is; the escaped text is absent
    from the document. *)
Lemma C6_pdfplumber_text_is_not_escaped :
  let run :=
    pdfplumber_test.convert_pdf_to_html Sample.rt Sample.lib
      "a.pdf" "output" Sample.world in
  Pdfplumber.pages Sample.comparison_pdf
    = Ok [Pdfplumber.mk_page (Ok (Some "1 < 2 & 3"))] /\
  escape "1 < 2 & 3" = "1 &lt; 2 &amp; 3" /\
  fst run = Ok (Some "output/a.html") /\
  exists html,
    files (fs (snd run)) "output/a.html" = Some html /\
    str_in (escape "1 < 2 & 3") html = false /\
    str_in "<pre>1 < 2 & 3</pre>" html = true.
Proof.
  cbv zeta. split; [reflexivity|]. split; [reflexivity|].
  split; [vm_compute; reflexivity|].
  eexists. split; [vm_compute; reflexivity|].
  split; vm_compute; reflexivity.
Qed.

(* ================================================================== *)
(** * Counting page containers *)
(* ================================================================== *)

Section CountingFacts.

Variable pat : string.

Lemma prefix_nil_r (p : string) : prefix p "" = match p with "" => true | _ => false end.
Proof. destruct p; reflexivity. Qed.

Lemma counts_append (a b : nat) (s1 s2 : string) :
  counts pat a s1 -> counts pat b s2 -> counts pat (a + b) (s1 ++ s2).
Proof.
  intros [Ha1 Hc1] [Ha2 Hc2]. split.
  - intros t. rewrite append_assoc, Ha1, Ha2, Ha1. lia.
  - rewrite Ha1. lia.
Qed.

Lemma counts_zero_append (s1 s2 : string) :
  counts pat 0 s1 -> counts pat 0 s2 -> counts pat 0 (s1 ++ s2).
Proof. apply (counts_append 0 0). Qed.

Lemma counts_concat_map {A : Type} (k : nat) (f : A -> string) (l : list A) :
  counts pat 0 "" ->
  (forall x, In x l -> counts pat k (f x)) ->
  counts pat (k * length l) (concat_map f l).
Proof.
  intros Hnil. induction l as [|x l IH]; intros H.
  - rewrite Nat.mul_0_r. exact Hnil.
  - rewrite concat_map_cons. cbn [length].
    replace (k * S (length l))%nat with (k + k * length l)%nat by lia.
    apply counts_append; [apply H; now left|].
    apply IH. intros y Hy. apply H. now right.
Qed.

End CountingFacts.

Section PatternFacts.

(** The pattern begins with [<]. *)
Variable rest : string.
Let pat : string := String "<" rest.

Lemma counts_nil : counts pat 0 "".
Proof. split; [intros t; reflexivity | reflexivity]. Qed.

Lemma prefix_pat_cons (c : ascii) (s : string) :
  Ascii.eqb c "<" = false -> prefix pat (String c s) = false.
Proof.
  intros H. unfold pat. cbn [prefix].
  destruct (ascii_dec "<" c) as [<-|_]; [discriminate | reflexivity].
Qed.

Lemma counts_lt_free (s : string) : lt_free s = true -> counts pat 0 s.
Proof.
  induction s as [|c s IH]; intros H; [apply counts_nil|].
  cbn [lt_free] in H. apply andb_true_iff in H as [Hc Hs].
  apply negb_true_iff in Hc. destruct (IH Hs) as [Ha Hz]. split.
  - intros t. cbn [append count_str].
    rewrite !prefix_pat_cons by exact Hc. rewrite Ha. reflexivity.
  - cbn [count_str]. rewrite prefix_pat_cons by exact Hc. exact Hz.
Qed.

End PatternFacts.

Section ClosedFacts.

(** What follows a string that is not a proper prefix of the pattern does
    not matter to whether the pattern begins it. *)
Lemma prefix_append_decided (p : string) :
  forall s t, proper_prefix s p = false -> prefix p (s ++ t) = prefix p s.
Proof.
  induction p as [|a p IH]; intros s t H.
  - destruct s; destruct t; reflexivity.
  - destruct s as [|b s]; [discriminate|].
    cbn [proper_prefix] in H. cbn [append prefix].
    destruct (ascii_dec a b) as [->|Hne]; [|reflexivity].
    rewrite Ascii.eqb_refl in H. now apply IH.
Qed.

Lemma closed_for_counts (a : ascii) (p s : string) :
  closed_for (String a p) s = true ->
  counts (String a p) (count_str (String a p) s) s.
Proof.
  intros H. split; [|reflexivity].
  induction s as [|c s IH]; intros t; [reflexivity|].
  cbn [closed_for] in H. apply andb_true_iff in H as [Hd Hs].
  apply negb_true_iff in Hd.
  change (String c s ++ t) with (String c (s ++ t)).
  cbn [count_str]. rewrite (IH Hs t).
  change (String c (s ++ t)) with (String c s ++ t).
  rewrite (prefix_append_decided _ _ t Hd). lia.
Qed.

Lemma closed_for_zero (a : ascii) (p s : string) :
  closed_for (String a p) s = true -> count_str (String a p) s = 0%nat ->
  counts (String a p) 0 s.
Proof. intros Hc Hz. rewrite <- Hz. now apply closed_for_counts. Qed.

Lemma regroup (a b c : string) : a ++ b ++ c = (a ++ b) ++ c.
Proof. symmetry. apply append_assoc. Qed.

End ClosedFacts.

(** Makes one constant of two adjacent constant parts. *)
Ltac merge a b :=
  rewrite (regroup a b);
  let whole := eval vm_compute in (a ++ b) in
  change (a ++ b) with whole.

(** Splits a concatenation that holds no occurrence, and closes the parts
    that are constants or that [tac] shows to hold no [<]. *)
Ltac zero_parts_with tac :=
  repeat first
    [ lazymatch goal with
      | |- counts _ _ (String.append _ _) => apply counts_zero_append
      end
    | apply closed_for_zero; [vm_compute; reflexivity | vm_compute; reflexivity]
    | apply counts_lt_free; first [ reflexivity | tac ] ].

Section LtFreeFacts.

Lemma lt_free_append (a b : string) :
  lt_free (a ++ b) = lt_free a && lt_free b.
Proof.
  induction a as [|c a IH]; [reflexivity|].
  cbn [append lt_free]. now rewrite IH, andb_assoc.
Qed.

Lemma lt_free_escape (s : string) : lt_free (escape s) = true.
Proof.
  induction s as [|c s IH]; [reflexivity|].
  cbn [escape]. rewrite lt_free_append, IH, andb_true_r.
  destruct c as [[] [] [] [] [] [] [] []]; reflexivity.
Qed.

Lemma lt_free_string_of_uint (d : Decimal.uint) :
  lt_free (NilEmpty.string_of_uint d) = true.
Proof. induction d; cbn; auto. Qed.

Lemma lt_free_str_of_Z (z : Z) : lt_free (str_of_Z z) = true.
Proof.
  unfold str_of_Z, NilEmpty.string_of_int.
  destruct (Z.to_int z); cbn [lt_free]; now rewrite ?lt_free_string_of_uint.
Qed.

(** A character taken from a string without [<] is not [<]. *)
Lemma lt_free_get (s : string) :
  forall (k : nat) (c : ascii),
    lt_free s = true -> String.get k s = Some c -> Ascii.eqb c "<" = false.
Proof.
  induction s as [|x s IH]; intros k c H Hget; [discriminate|].
  cbn [lt_free] in H. apply andb_true_iff in H as [Hx Hs].
  destruct k as [|k]; cbn [String.get] in Hget.
  - injection Hget as <-. now apply negb_true_iff.
  - now apply (IH k).
Qed.

Lemma b64_char_not_lt (n : N) : Ascii.eqb (b64_char n) "<" = false.
Proof.
  unfold b64_char.
  destruct (String.get (N.to_nat n) b64_alphabet) as [c|] eqn:Hget;
    [|reflexivity].
  now apply (lt_free_get b64_alphabet (N.to_nat n)).
Qed.

Lemma lt_free_b64encode (bs : list N) : lt_free (b64encode bs) = true.
Proof.
  assert (H : forall n bs, (length bs <= n)%nat -> lt_free (b64encode bs) = true).
  { clear bs. induction n as [|n IH]; intros bs Hlen.
    - destruct bs; [reflexivity | simpl in Hlen; lia].
    - destruct bs as [|a [|b [|c rest]]]; cbn [b64encode lt_free];
        rewrite ?b64_char_not_lt; try reflexivity.
      cbn [negb andb]. apply IH. simpl in Hlen. lia. }
  now apply (H (length bs)).
Qed.

Lemma hex_digit_not_lt (d : Z) : Ascii.eqb (hex_digit d) "<" = false.
Proof.
  unfold hex_digit.
  destruct (String.get (Z.to_nat d) "0123456789abcdef") as [c|] eqn:Hget;
    [|reflexivity].
  now apply (lt_free_get "0123456789abcdef" (Z.to_nat d)).
Qed.

Lemma lt_free_hex_fuel (fuel : nat) :
  forall n acc, lt_free acc = true -> lt_free (hex_fuel fuel n acc) = true.
Proof.
  induction fuel as [|f IH]; intros n acc H; [exact H|].
  cbn [hex_fuel]. cbv zeta.
  assert (H' : lt_free (String (hex_digit (n mod 16)) acc) = true)
    by (cbn [lt_free]; now rewrite hex_digit_not_lt, H).
  destruct (n <? 16); [exact H' | now apply IH].
Qed.

Lemma lt_free_zeros (k : nat) : lt_free (zeros k) = true.
Proof. induction k; cbn; auto. Qed.

Lemma lt_free_format_06x (n : Z) : lt_free (format_06x n) = true.
Proof.
  unfold format_06x, hex.
  destruct (n <? 0); cbv zeta; cbn [append lt_free];
    rewrite ?lt_free_append, lt_free_zeros, lt_free_hex_fuel; reflexivity.
Qed.

End LtFreeFacts.

Section PdfPageCount.

Variable rt : runtime.
Variable self : PDFToHTMLConverter.

(** [str(x)] of a float holds no [<]. *)
Hypothesis float_str_lt_free : forall f, lt_free (float_str rt f) = true.

Ltac zero_parts :=
  zero_parts_with
    ltac:(first [ apply lt_free_escape | apply lt_free_str_of_Z
                | apply lt_free_b64encode | apply lt_free_format_06x
                | apply float_str_lt_free | assumption ]).

Lemma num_str_lt_free (x : pynum) : lt_free (num_str rt x) = true.
Proof. destruct x; [apply lt_free_str_of_Z | apply float_str_lt_free]. Qed.

Lemma span_html_counts (span : span_data) :
  counts pdf_page_tag 0 (span_html rt span).
Proof.
  unfold span_html. zero_parts.
  - unfold span_classes.
    destruct (fi_bold (sd_font_info span)), (fi_italic (sd_font_info span));
      apply counts_lt_free; reflexivity.
  - unfold span_styles.
    destruct (num_ne (fi_size (sd_font_info span)) 12 12%float),
             (negb (fi_color (sd_font_info span) =? 0));
      cbn [list_append app style_attr truthy_list join String.concat];
      unfold q; zero_parts; apply counts_lt_free, num_str_lt_free.
Qed.

Lemma line_shape_counts (line : line_data) :
  counts pdf_page_tag 0 (line_shape rt line).
Proof.
  unfold line_shape. destruct (ld_spans line) as [|s spans] eqn:Hs.
  - apply counts_lt_free. reflexivity.
  - rewrite <- Hs. zero_parts.
    apply (counts_concat_map pdf_page_tag 0); [zero_parts|].
    intros span _. apply span_html_counts.
Qed.

Lemma text_block_counts (block : block_data) :
  counts pdf_page_tag 0 (_generate_text_block_html rt self block).
Proof.
  rewrite generate_text_block_html_shape. unfold text_block_shape.
  merge "<div class=" (q "text-block"). zero_parts.
  apply (counts_concat_map pdf_page_tag 0); [zero_parts|].
  intros line _. apply line_shape_counts.
Qed.

Lemma image_html_counts (image : image_info) :
  image_lt_free image = true ->
  counts pdf_page_tag 0 (_generate_image_html self image).
Proof.
  intros H. apply andb_true_iff in H as [Hf Hd].
  unfold _generate_image_html. cbv zeta.
  merge "<div class=" (q "image-container").
  merge "                     class=" (q "pdf-image").
  unfold q. zero_parts.
Qed.

Lemma page_shape_counts (page_data : page_content) :
  page_images_lt_free page_data = true ->
  counts pdf_page_tag 1 (page_shape rt self page_data).
Proof.
  intros Himages. unfold page_shape.
  merge "        <div class=" (q "pdf-page").
  apply (counts_append pdf_page_tag 1 0).
  { apply (closed_for_counts "<"). vm_compute. reflexivity. }
  merge "            <div class=" (q "page-number").
  unfold q. zero_parts.
  - replace 0%nat
      with (0 * length (filter is_text_block (pc_text_blocks page_data)))%nat
      by reflexivity.
    apply counts_concat_map; [zero_parts|].
    intros block _. zero_parts. apply text_block_counts.
  - replace 0%nat with (0 * length (pc_images page_data))%nat by reflexivity.
    apply counts_concat_map; [zero_parts|].
    intros image Hin. zero_parts. apply image_html_counts.
    unfold page_images_lt_free in Himages.
    rewrite forallb_forall in Himages. now apply Himages.
Qed.

Lemma pages_join_counts (pages : list page_content) :
  forallb page_images_lt_free pages = true ->
  counts pdf_page_tag (length pages) (join nl (map (page_shape rt self) pages)).
Proof.
  intros H. destruct pages as [|page_data pages]; [apply counts_lt_free; reflexivity|].
  cbn [forallb] in H. apply andb_true_iff in H as [Hp Hps].
  cbn [map]. rewrite join_cons, concat_map_map. cbn [length].
  apply (counts_append pdf_page_tag 1 (length pages));
    [now apply page_shape_counts|].
  replace (length pages) with (1 * length pages)%nat by lia.
  apply counts_concat_map; [zero_parts|].
  intros page_data' Hin. apply (counts_append pdf_page_tag 0 1); [zero_parts|].
  apply page_shape_counts. rewrite forallb_forall in Hps. now apply Hps.
Qed.

Lemma fritz_test2_shape_counts (pdf_path : string) (pages : list page_content) :
  forallb page_images_lt_free pages = true ->
  count_str pdf_page_tag (fritz_test2_shape rt self pdf_path pages)
    = length pages.
Proof.
  intros H.
  enough (Hc : counts pdf_page_tag (length pages)
                 (fritz_test2_shape rt self pdf_path pages)) by apply Hc.
  unfold fritz_test2_shape, fritz_test2_head, _generate_css.
  rewrite !append_assoc.
  merge "    <div class=" (q "pdf-container").
  unfold q.
  repeat lazymatch goal with
         | |- counts _ _ (String.append (join _ _) _) => fail
         | |- counts _ _ (String.append _ _) =>
             apply (counts_append pdf_page_tag 0 (length pages)); [zero_parts|]
         end.
  replace (length pages) with (length pages + 0)%nat by lia.
  apply counts_append; [now apply pages_join_counts | zero_parts].
Qed.

End PdfPageCount.

Section ExtractedImages.

Lemma image_outcome_lt_free (page_num img_index : Z) (img : Fitz.image)
    (info : image_info) :
  image_outcome page_num img_index img = Ok info -> image_lt_free info = true.
Proof.
  unfold image_outcome.
  destruct (Fitz.img_pixmap img) as [pix|e]; [|discriminate].
  destruct (Fitz.pix_n pix - Fitz.pix_alpha pix <? 4); cbn [fst snd].
  - destruct (Fitz.pix_png pix) as [d|e]; [|discriminate].
    destruct (Fitz.img_rects img) as [r|e]; [|discriminate].
    intros H. apply Ok_inj in H as <-. unfold image_lt_free.
    cbn [ii_format ii_data]. now rewrite lt_free_b64encode.
  - destruct (Fitz.pix_rgb_jpeg pix) as [d|e]; [|discriminate].
    destruct (Fitz.img_rects img) as [r|e]; [|discriminate].
    intros H. apply Ok_inj in H as <-. unfold image_lt_free.
    cbn [ii_format ii_data]. now rewrite lt_free_b64encode.
Qed.

Lemma kept_images_lt_free (page_num : Z) (entries : list (Z * Fitz.image)) :
  forallb image_lt_free (kept_images page_num entries) = true.
Proof.
  induction entries as [|[i img] entries IH]; [reflexivity|].
  cbn [kept_images].
  destruct (image_outcome page_num i img) as [info|e] eqn:Hout; [|exact IH].
  cbn [forallb]. now rewrite (image_outcome_lt_free _ _ _ _ Hout), IH.
Qed.

Lemma pages_outcome_lt_free (logger : string) (loaded : list (res Fitz.page)) :
  forall start pages warnings,
    pages_outcome logger (enumerate start loaded) = (Ok pages, warnings) ->
    forallb page_images_lt_free pages = true.
Proof.
  induction loaded as [|l loaded IH]; intros start pages warnings H.
  - cbn in H. apply pair_Ok_inj in H as [<- _]. reflexivity.
  - cbn [enumerate pages_outcome] in H.
    destruct l as [page|e]; [|discriminate].
    unfold page_outcome in H.
    destruct (Fitz.get_text_dict page) as [blocks|e]; [|discriminate].
    destruct (Fitz.get_images page) as [image_list|e]; [|discriminate].
    destruct (pages_outcome logger (enumerate (start + 1) loaded))
      as [[more|e] ws] eqn:Hrest; [|discriminate].
    apply pair_Ok_inj in H as [<- _]. cbn [forallb].
    rewrite (IH _ _ _ Hrest), andb_true_r.
    unfold page_images_lt_free. cbn [pc_images]. apply kept_images_lt_free.
Qed.

(** The HTML that [fritz_test2] computes holds as many page container
    openings as the document has pages, whatever the text of the pages, as
    long as the printed form of a float holds no [<]. *)
Lemma fritz_test2_page_container_count (rt : runtime) (lib : libraries)
    (self : PDFToHTMLConverter) (pdf_path bytes html : string)
    (warnings : list log_record) (doc : Fitz.document) :
  (forall f, lt_free (float_str rt f) = true) ->
  fritz_test2_document rt lib self pdf_path bytes = (Ok html, warnings) ->
  fitz_load lib bytes = Ok doc ->
  count_str pdf_page_tag html = length (Fitz.load_page doc).
Proof.
  intros Hfloat Hdoc Hload. unfold fritz_test2_document in Hdoc.
  rewrite Hload in Hdoc.
  destruct (pages_outcome (logger self) (enumerate 0 (Fitz.load_page doc)))
    as [[pages|e] ws] eqn:Hpages; [|discriminate].
  apply pair_Ok_inj in Hdoc as [<- _].
  rewrite generate_complete_html_shape. cbn [c_pages].
  rewrite (fritz_test2_shape_counts rt self Hfloat).
  - now destruct (pages_outcome_numbered _ _ _ _ _ Hpages).
  - now apply pages_outcome_lt_free with (1 := Hpages).
Qed.

End ExtractedImages.

Section PageCount.

Ltac zero_parts :=
  zero_parts_with ltac:(first [ apply lt_free_str_of_Z | assumption ]).

Lemma fritz_test_page_div_counts (number : Z) :
  counts page_tag 1 (fritz_test.page_div number).
Proof.
  unfold fritz_test.page_div. merge "<div class=" (q "page").
  apply (counts_append page_tag 1 0).
  - apply (closed_for_counts "<"). vm_compute. reflexivity.
  - unfold q. zero_parts.
Qed.


(** *** pdfplumber_test.py, for text without markup *)


Lemma enumerate_snd_In {A : Type} (l : list A) :
  forall start entry, In entry (enumerate start l) -> In (snd entry) l.
Proof.
  induction l as [|x l IH]; intros start entry H; [contradiction|].
  cbn [enumerate] in H. destruct H as [<- | H]; [now left | right].
  now apply (IH (start + 1)).
Qed.

Lemma enumerate_length {A : Type} (l : list A) :
  forall start, length (enumerate start l) = length l.
Proof. induction l as [|x l IH]; intros start; cbn; [|rewrite IH]; reflexivity. Qed.


(** *** fritz_test.py, for page HTML that holds no page container *)

Lemma no_page_tag_counts (s : string) :
  no_page_tag s = true -> counts page_tag 0 s.
Proof.
  intros H. apply andb_true_iff in H as [Hc Hz].
  apply Nat.eqb_eq in Hz. now apply (closed_for_zero "<").
Qed.

Lemma fritz_test_page_shape_counts (entry : Z * string) :
  no_page_tag (snd entry) = true ->
  counts page_tag 1 (fritz_test_page_shape entry).
Proof.
  destruct entry as [number page_html]. cbn [snd]. intros Hhtml.
  unfold fritz_test_page_shape.
  apply (counts_append page_tag 0 1); [zero_parts|].
  apply (counts_append page_tag 1 0); [apply fritz_test_page_div_counts|].
  zero_parts. now apply no_page_tag_counts.
Qed.

Lemma fritz_test_shape_counts (htmls : list string) :
  forallb no_page_tag htmls = true ->
  count_str page_tag (fritz_test_shape htmls) = length htmls.
Proof.
  intros H.
  enough (Hc : counts page_tag (length htmls) (fritz_test_shape htmls))
    by apply Hc.
  unfold fritz_test_shape.
  apply (counts_append page_tag 0 (length htmls)); [zero_parts|].
  replace (length htmls) with (1 * length (enumerate 1 htmls) + 0)%nat
    by (rewrite enumerate_length; lia).
  apply counts_append; [|zero_parts].
  apply counts_concat_map; [zero_parts|].
  intros entry Hin. apply fritz_test_page_shape_counts.
  rewrite forallb_forall in H. apply H. now apply enumerate_snd_In with 1.
Qed.

End PageCount.

Section DocumentCounts.

Variable lib : libraries.


(** The document of [fritz_test] holds one page container opening per page
    when the HTML the library gives for the pages holds none. *)
Lemma fritz_test_page_container_count (bytes html : string)
    (doc : Fitz.document) (htmls : list string) :
  fritz_test_document lib bytes = Ok html ->
  fitz_load lib bytes = Ok doc ->
  pages_html (Fitz.load_page doc) = Ok htmls ->
  forallb no_page_tag htmls = true ->
  count_str page_tag html = length (Fitz.load_page doc).
Proof.
  intros Hdoc Hload Hhtmls Hfree.
  unfold fritz_test_document, fritz_test_html in Hdoc.
  rewrite Hload, Hhtmls in Hdoc. apply Ok_inj in Hdoc as <-.
  rewrite fritz_test_join_shape, (fritz_test_shape_counts _ Hfree).
  now apply pages_html_length.
Qed.

End DocumentCounts.

(** C5 at the failing input.  For a one-page file whose text is a page
    container tag, [pdfplumber_test] writes a document in which the tag
    occurs twice. *)
Lemma C5_pdfplumber_markup_text_adds_a_container :
  let run :=
    pdfplumber_test.convert_pdf_to_html Sample.rt Sample.lib
      "m.pdf" "output" Sample.world in
  Pdfplumber.pages Sample.markup_pdf
    = Ok [Pdfplumber.mk_page
            (Ok (Some ("<div class=" ++ q "page" ++ " id=" ++ q "page-1" ++ ">")))] /\
  fst run = Ok (Some "output/m.html") /\
  exists html,
    files (fs (snd run)) "output/m.html" = Some html /\
    count_str ("<div class=" ++ q "page" ++ " id=" ++ q "page-1" ++ ">") html
      = 2%nat /\
    count_str page_tag html = 2%nat.
Proof.
  cbv zeta. split; [reflexivity|]. split; [vm_compute; reflexivity|].
  eexists. split; [vm_compute; reflexivity|].
  split; vm_compute; reflexivity.
Qed.

(* ================================================================== *)
(** * What a conversion reports and what it leaves behind *)
(* ================================================================== *)

Section LoggedWarnings.

Variable logger : string.

Lemma image_warnings_are_warnings (page_num : Z)
    (entries : list (Z * Fitz.image)) :
  Forall (warning_of logger) (image_warnings logger page_num entries).
Proof.
  induction entries as [|[i img] entries IH]; [constructor|].
  cbn [image_warnings]. destruct (image_outcome page_num i img); [exact IH|].
  constructor; [split; reflexivity | exact IH].
Qed.

Lemma drawing_warnings_are_warnings (page : Fitz.page) :
  Forall (warning_of logger) (drawing_warnings logger page).
Proof.
  unfold drawing_warnings. destruct (Fitz.get_drawings page); [constructor|].
  constructor; [split; reflexivity | constructor].
Qed.

Lemma page_outcome_warnings (page : Fitz.page) (page_num : Z) :
  Forall (warning_of logger) (snd (page_outcome logger page page_num)).
Proof.
  unfold page_outcome.
  destruct (Fitz.get_text_dict page); [|constructor].
  destruct (Fitz.get_images page); [|constructor].
  cbn [snd]. apply Forall_app. split.
  - apply image_warnings_are_warnings.
  - apply drawing_warnings_are_warnings.
Qed.

Lemma pages_outcome_warnings (entries : list (Z * res Fitz.page)) :
  Forall (warning_of logger) (snd (pages_outcome logger entries)).
Proof.
  induction entries as [|[page_num loaded] entries IH]; [constructor|].
  cbn [pages_outcome]. destruct loaded as [page|e]; [|constructor].
  pose proof (page_outcome_warnings page page_num) as Hpage.
  destruct (page_outcome logger page page_num) as [[page_data|e] warnings];
    [|exact Hpage].
  destruct (pages_outcome logger entries) as [[pages|e] more];
    cbn [snd] in *; apply Forall_app; split; assumption.
Qed.

End LoggedWarnings.



(** X2.  When [PDFToHTMLConverter.convert_pdf_to_html] returns, the regular
    files are those from before with the document at the output path: no
    other file is created, changed or removed.  The document begins with the
    doctype, so a conversion whose output path is its input path leaves the
    document in place of the PDF. *)
Theorem fritz_test2_writes_only_the_output (rt : runtime) (lib : libraries)
    (self : PDFToHTMLConverter) (pdf_path : string)
    (output_path : option string) (w w' : world) (out : string) :
  PDFToHTMLConverter_convert_pdf_to_html rt lib self pdf_path output_path w
    = (Ok out, w') ->
  out = match output_path with
        | Some path => path
        | None => path_stem rt pdf_path ++ ".html"
        end /\
  exists html,
    files (fs w') = files (write_fs (fs w) out html) /\
    prefix "<!DOCTYPE html>" html = true /\
    (out = pdf_path -> files (fs w') pdf_path = Some html).
Proof.
  rewrite fritz_test2_convert_eq. cbv zeta.
  destruct (negb (path_exists (fs w) pdf_path)); [discriminate|].
  destruct (files (fs w) pdf_path) as [bytes|]; [|discriminate].
  destruct (fritz_test2_document rt lib self pdf_path bytes)
    as [[html|e] warnings] eqn:Hdoc; [|discriminate].
  destruct (write_outcome rt w _ html) as [[e|] w2] eqn:Hwrite; [discriminate|].
  apply write_outcome_done in Hwrite. subst w2.
  intros H. apply pair_Ok_inj in H as [<- <-].
  split; [reflexivity|]. exists html. cbn [add_log with_file fs].
  split; [reflexivity|]. split.
  - destruct (fritz_test2_document_shape _ _ _ _ _ _ _ Hdoc)
      as (doc & pages & _ & _ & _ & ->).
    apply prefix_spec. unfold fritz_test2_shape, fritz_test2_head.
    eexists. cbn [append]. reflexivity.
  - intros Heq. rewrite <- Heq at 2. apply files_write_fs_same.
Qed.

Lemma fritz_test2_writes_only_the_output_witness :
  let run :=
    PDFToHTMLConverter_convert_pdf_to_html Sample.rt Sample.lib
      Sample.converter "a.pdf" (Some "a.pdf") Sample.world in
  exists html,
    files (fs (snd run)) = files (write_fs (fs Sample.world) "a.pdf" html) /\
    prefix "<!DOCTYPE html>" html = true /\
    ("a.pdf" = "a.pdf" -> files (fs (snd run)) "a.pdf" = Some html).
Proof.
  exact (proj2 (fritz_test2_writes_only_the_output Sample.rt Sample.lib
                  Sample.converter "a.pdf" (Some "a.pdf") Sample.world _ "a.pdf"
                  (surjective_pairing _))).
Defined.

(** X3.  [fritz_test.convert_pdf_to_html] never raises and always returns
    [None]; it logs nothing, touches no regular file but the output path, and
    prints exactly one line.  Either the line goes to the standard output,
    and the output path holds the document computed from what [fitz.open]
    gave; or the line goes to the error stream and holds [str(e)] of the
    exception caught, and the regular files are as before, unless the
    exception came from [f.write]: then the output path holds the part of
    the document that had been written. *)
Theorem fritz_test_swallows_every_exception (rt : runtime) (lib : libraries)
    (pdf_path output_folder : string) (w : world) :
  let run := fritz_test.convert_pdf_to_html rt lib pdf_path output_folder w in
  let out := output_path_in rt pdf_path output_folder in
  fst run = Ok tt /\
  log (snd run) = log w /\
  ((exists doc html,
      fitz_document_at lib (fs w) pdf_path = Ok doc /\
      fritz_test_html doc = Ok html /\
      files (fs (snd run)) = files (write_fs (fs w) out html) /\
      stdout (snd run) =
        list_append (stdout w)
          ("Successfully converted '" ++ pdf_path ++ "' to '" ++ out ++ "'") /\
      stderr (snd run) = stderr w)
   \/
   (exists e,
      (files (fs (snd run)) = files (fs w) \/
       exists html n,
         files (fs (snd run)) = files (write_fs (fs w) out (written html n))) /\
      stdout (snd run) = stdout w /\
      stderr (snd run) =
        list_append (stderr w) ("An error occurred: " ++ exn_msg e))).
Proof.
  cbv zeta. rewrite fritz_test_convert_eq. cbv zeta.
  destruct (makedirs_error rt (fs w) output_folder) as [e|].
  { repeat split; right; exists e; repeat split; now left. }
  destruct (fitz_document_at lib (fs (after_makedirs w output_folder)) pdf_path)
    as [doc|e] eqn:Hopen.
  2:{ repeat split; right; exists e; repeat split; now left. }
  apply (fitz_document_at_files lib (fs (after_makedirs w output_folder))
           (fs w) pdf_path doc eq_refl) in Hopen.
  destruct (fritz_test_html doc) as [html|e] eqn:Hdoc.
  2:{ repeat split; right; exists e; repeat split; now left. }
  unfold write_outcome.
  destruct (open_w_error rt _ _) as [e|].
  { repeat split; right; exists e; repeat split; now left. }
  destruct (write_error rt _ _ html) as [[e n]|].
  - repeat split; right; exists e; repeat split.
    right. exists html, n. reflexivity.
  - repeat split; left; exists doc, html; repeat split; assumption.
Qed.

(** X4.  [pdfplumber_test.convert_pdf_to_html] never raises, logs nothing,
    writes nothing on the error stream and touches no regular file but the
    output path.  Either it returns the output path, prints nothing, and the
    path holds the document computed from the input; or it returns [None]
    and prints, on the standard output, one line that holds [str(e)] of the
    exception caught; the regular files are then as before, unless the
    exception came from [f.write]. *)
Theorem pdfplumber_test_returns_path_or_none (rt : runtime) (lib : libraries)
    (pdf_path output_folder : string) (w : world) :
  let run := pdfplumber_test.convert_pdf_to_html rt lib pdf_path output_folder w in
  let out := output_path_in rt pdf_path output_folder in
  log (snd run) = log w /\
  stderr (snd run) = stderr w /\
  ((exists bytes html,
      fst run = Ok (Some out) /\
      files (fs w) pdf_path = Some bytes /\
      pdfplumber_document lib bytes = Ok html /\
      files (fs (snd run)) = files (write_fs (fs w) out html) /\
      stdout (snd run) = stdout w)
   \/
   (exists e,
      fst run = Ok None /\
      (files (fs (snd run)) = files (fs w) \/
       exists html n,
         files (fs (snd run)) = files (write_fs (fs w) out (written html n))) /\
      stdout (snd run) =
        list_append (stdout w) ("Error converting PDF: " ++ exn_msg e))).
Proof.
  cbv zeta. rewrite pdfplumber_convert_eq. cbv zeta.
  destruct (makedirs_error rt (fs w) output_folder) as [e|].
  { repeat split; right; exists e; repeat split; now left. }
  destruct (files (fs w) pdf_path) as [bytes|].
  2:{ repeat split; right; eexists; repeat split; now left. }
  destruct (pdfplumber_document lib bytes) as [html|e] eqn:Hdoc.
  2:{ repeat split; right; exists e; repeat split; now left. }
  unfold write_outcome.
  destruct (open_w_error rt _ _) as [e|].
  { repeat split; right; exists e; repeat split; now left. }
  destruct (write_error rt _ _ html) as [[e n]|].
  - repeat split; right; exists e; repeat split.
    right. exists html, n. reflexivity.
  - repeat split; left; exists bytes, html; repeat split; assumption.
Qed.

(** X5.  [new.convert_pdf_to_html] raises nothing but [ValueError] and
    neither prints nor logs.  Either it returns the output path it was
    given, which then holds the document computed from what [fitz.open]
    gave; or it raises a [ValueError] whose message is
    ["Conversion failed: "] followed by [str(e)] of the exception caught;
    the world is then as before, unless the exception came from [f.write]:
    then the output path holds the part of the document that had been
    written. *)
Theorem new_raises_only_ValueError (rt : runtime) (lib : libraries)
    (pdf_path output_path : string) (w : world) :
  let run := new.convert_pdf_to_html rt lib pdf_path output_path w in
  (exists doc html,
     fst run = Ok output_path /\
     fitz_document_at lib (fs w) pdf_path = Ok doc /\
     new_html doc = Ok html /\
     snd run = with_file w output_path html)
  \/
  (exists e,
     fst run = Raise (mk_exn "ValueError" ("Conversion failed: " ++ exn_msg e)) /\
     (snd run = w \/
      exists html n, snd run = with_file w output_path (written html n))).
Proof.
  cbv zeta. rewrite new_convert_eq. cbv zeta.
  destruct (fitz_document_at lib (fs w) pdf_path) as [doc|e] eqn:Hopen.
  2:{ right; exists e; repeat split; now left. }
  destruct (new_html doc) as [html|e] eqn:Hdoc.
  2:{ right; exists e; repeat split; now left. }
  unfold write_outcome.
  destruct (open_w_error rt (fs w) output_path) as [e|].
  { right; exists e; repeat split; now left. }
  destruct (write_error rt _ _ html) as [[e n]|].
  - right. exists e. split; [reflexivity|]. right. now exists html, n.
  - left. exists doc, html. repeat split; assumption.
Qed.

(** X6.  [pdfminer_test.convert_pdf_to_html] logs nothing, touches no
    regular file but the output path, and prints exactly one line.  Either
    it returns, the line goes to the standard output, and the output path
    holds the library's HTML; or it raises the very exception it caught,
    after a line that holds [str(e)] has gone to the error stream; the
    regular files are then as before, unless the exception came from
    [f.write]. *)
Theorem pdfminer_test_reports_and_raises_again (rt : runtime)
    (lib : libraries) (pdf_path output_folder : string) (w : world) :
  let run := pdfminer_test.convert_pdf_to_html rt lib pdf_path output_folder w in
  let out := output_path_in rt pdf_path output_folder in
  log (snd run) = log w /\
  ((exists bytes html,
      fst run = Ok tt /\
      files (fs w) pdf_path = Some bytes /\
      pdfminer_html lib None None bytes = Ok html /\
      files (fs (snd run)) = files (write_fs (fs w) out html) /\
      stdout (snd run) =
        list_append (stdout w)
          ("Successfully converted '" ++ pdf_path ++ "' to '" ++ out ++ "'") /\
      stderr (snd run) = stderr w)
   \/
   (exists e,
      fst run = Raise e /\
      (files (fs (snd run)) = files (fs w) \/
       exists html n,
         files (fs (snd run)) = files (write_fs (fs w) out (written html n))) /\
      stdout (snd run) = stdout w /\
      stderr (snd run) =
        list_append (stderr w) ("An error occurred: " ++ exn_msg e))).
Proof.
  cbv zeta. rewrite pdfminer_convert_eq. cbv zeta.
  destruct (makedirs_error rt (fs w) output_folder) as [e|].
  { repeat split; right; exists e; repeat split; now left. }
  destruct (files (fs w) pdf_path) as [bytes|].
  2:{ repeat split; right; eexists; repeat split; now left. }
  destruct (pdfminer_html lib None None bytes) as [html|e] eqn:Hdoc.
  2:{ repeat split; right; exists e; repeat split; now left. }
  unfold write_outcome.
  destruct (open_w_error rt _ _) as [e|].
  { repeat split; right; exists e; repeat split; now left. }
  destruct (write_error rt _ _ html) as [[e n]|].
  - repeat split; right; exists e; repeat split.
    right. exists html, n. reflexivity.
  - repeat split; left; exists bytes, html; repeat split; assumption.
Qed.

(** X7.  [poppdf_test.convert_pdf_to_html] opens the output file before it
    fills in the template.  When everything up to there succeeds and
    [html_template.format(content)] raises, the exception is raised again
    after one line on the error stream, and the output file is left empty:
    what it held before is lost. *)
Theorem poppdf_test_failed_format_empties_the_output (rt : runtime)
    (lib : libraries) (pdf_path output_folder : string) (w : world)
    (bytes content : string) (e : exn) :
  makedirs_error rt (fs w) output_folder = None ->
  files (fs w) pdf_path = Some bytes ->
  pdfminer_html lib (Some "utf-8") (Some poppdf_test.laparams) bytes
    = Ok content ->
  open_w_error rt (fs (after_makedirs w output_folder))
    (output_path_in rt pdf_path output_folder) = None ->
  str_format rt poppdf_test.html_template content = Raise e ->
  let run := poppdf_test.convert_pdf_to_html rt lib pdf_path output_folder w in
  let out := output_path_in rt pdf_path output_folder in
  fst run = Raise e /\
  files (fs (snd run)) = files (write_fs (fs w) out "") /\
  stdout (snd run) = stdout w /\
  stderr (snd run) = list_append (stderr w) ("An error occurred: " ++ exn_msg e).
Proof.
  intros Hmk Hfile Hhtml Hopen Hfmt. cbv zeta.
  rewrite poppdf_convert_eq. cbv zeta. rewrite Hmk, Hfile, Hhtml, Hopen, Hfmt.
  repeat split.
Qed.

Lemma poppdf_test_failed_format_witness :
  let run :=
    poppdf_test.convert_pdf_to_html Sample.rt Sample.lib "a.pdf" "output"
      Sample.world in
  fst run = Raise (mk_exn "KeyError" "' font-family'") /\
  files (fs (snd run)) = files (write_fs (fs Sample.world) "output/a.html" "") /\
  stdout (snd run) = [] /\
  stderr (snd run) = ["An error occurred: ' font-family'"].
Proof.
  exact (poppdf_test_failed_format_empties_the_output Sample.rt Sample.lib
           "a.pdf" "output" Sample.world "%PDF-sample"
           "<html><body><span>1 &lt; 2</span></body></html>"
           (mk_exn "KeyError" "' font-family'")
           eq_refl eq_refl eq_refl eq_refl eq_refl).
Defined.

(* ================================================================== *)
(** * What the extraction keeps *)
(* ================================================================== *)

Section KeptImages.

Variable page_num : Z.

Lemma kept_and_warned (logger : string) (entries : list (Z * Fitz.image)) :
  (length (kept_images page_num entries)
   + length (image_warnings logger page_num entries))%nat = length entries.
Proof.
  induction entries as [|[i img] entries IH]; [reflexivity|].
  cbn [kept_images image_warnings].
  destruct (image_outcome page_num i img); cbn [length]; lia.
Qed.

(** An image that is kept comes from an entry of the list, under the index
    of that entry. *)
Lemma kept_images_In (info : image_info) (image_list : list Fitz.image) :
  forall start,
    In info (kept_images page_num (enumerate start image_list)) ->
    exists k img,
      nth_error image_list k = Some img /\
      ii_index info = start + Z.of_nat k /\
      image_outcome page_num (start + Z.of_nat k) img = Ok info.
Proof.
  induction image_list as [|img0 image_list IH]; intros start Hin;
    [contradiction|].
  cbn [enumerate kept_images] in Hin.
  assert (Hrest : In info (kept_images page_num (enumerate (start + 1) image_list))
                  -> exists k img,
                       nth_error (img0 :: image_list) k = Some img /\
                       ii_index info = start + Z.of_nat k /\
                       image_outcome page_num (start + Z.of_nat k) img = Ok info).
  { intros H. destruct (IH _ H) as (k & img & Hk & Hi & Ho).
    exists (S k), img. rewrite Nat2Z.inj_succ.
    replace (start + Z.succ (Z.of_nat k)) with (start + 1 + Z.of_nat k) by lia.
    auto. }
  destruct (image_outcome page_num start img0) as [info0|e] eqn:Hout;
    [|now apply Hrest].
  destruct Hin as [<-|Hin]; [|now apply Hrest].
  exists O, img0. rewrite Z.add_0_r. repeat split; [|exact Hout].
  unfold image_outcome in Hout.
  destruct (Fitz.img_pixmap img0); [|discriminate].
  destruct (fst _); [|discriminate].
  destruct (Fitz.img_rects img0); [|discriminate].
  apply Ok_inj in Hout as <-. reflexivity.
Qed.



End KeptImages.

(** X8.  [_extract_images] accounts for every entry of [page.get_images()]:
    an entry either gives one image of the result or one warning of the
    converter's logger, so the images kept and the warnings logged add up to
    the entries listed.  Nothing but the log changes.  When
    [page.get_images()] itself raises, the exception leaves the method and
    the world is untouched. *)
Theorem extract_images_accounts_for_every_entry (self : PDFToHTMLConverter)
    (page : Fitz.page) (page_num : Z) (w : world) :
  let run := _extract_images self page page_num w in
  match Fitz.get_images page with
  | Raise e => run = (Raise e, w)
  | Ok image_list =>
      exists images warnings,
        fst run = Ok images /\
        snd run = mk_world (fs w) (log w ++ warnings) (stdout w) (stderr w) /\
        Forall (warning_of (logger self)) warnings /\
        (length images + length warnings)%nat = length image_list
  end.
Proof.
  cbv zeta. rewrite extract_images_eq.
  destruct (Fitz.get_images page) as [image_list|e]; [|reflexivity].
  eexists _, _. split; [reflexivity|]. split; [reflexivity|]. split.
  - apply image_warnings_are_warnings.
  - rewrite kept_and_warned. apply enumerate_length.
Qed.



Section TextBlocks.

Lemma text_blocks_of_typed (blocks : list Fitz.block) :
  Forall (fun block => bd_type block = "text") (text_blocks_of blocks).
Proof.
  induction blocks as [|block blocks IH]; [constructor|].
  cbn [text_blocks_of]. destruct (Fitz.block_lines block); [|exact IH].
  constructor; [reflexivity | exact IH].
Qed.

Lemma filter_typed (text_blocks : list block_data) :
  Forall (fun block => bd_type block = "text") text_blocks ->
  filter is_text_block text_blocks = text_blocks.
Proof.
  induction 1 as [|block text_blocks Hb _ IH]; [reflexivity|].
  cbn [filter]. unfold is_text_block at 1. rewrite Hb. cbn. now rewrite IH.
Qed.

Lemma text_blocks_of_texts (blocks : list Fitz.block) :
  map (fun block =>
         (bd_bbox block,
          map (fun line => map sd_text (ld_spans line)) (bd_lines block)))
      (text_blocks_of blocks)
  = map (fun block =>
           (Fitz.block_bbox block,
            map (fun line =>
                   map (fun span => get (Fitz.span_text span) "")
                     (Fitz.line_spans line))
              (get (Fitz.block_lines block) [])))
        (filter has_lines blocks).
Proof.
  induction blocks as [|block blocks IH]; [reflexivity|].
  cbn [text_blocks_of filter]. unfold has_lines at 1.
  destruct (Fitz.block_lines block) as [lines|] eqn:Hlines; [|exact IH].
  cbn [map bd_bbox bd_lines get]. rewrite Hlines, IH. cbn [get]. f_equal. f_equal.
  rewrite map_map. apply map_ext. intros line.
  cbn [line_data_of ld_spans]. rewrite map_map. reflexivity.
Qed.

End TextBlocks.

(** X10.  [_extract_text_blocks] keeps the blocks that have the key
    ["lines"], in order, with their bounding boxes and the texts of their
    spans line by line, and drops the others; the world is untouched.  Every
    block it returns has the type ["text"], so the test of the type in
    [_generate_page_html] drops none of them. *)
Theorem extract_text_blocks_keeps_the_blocks_with_lines
    (self : PDFToHTMLConverter) (page : Fitz.page) (w : world) :
  let run := _extract_text_blocks self page w in
  match Fitz.get_text_dict page with
  | Raise e => run = (Raise e, w)
  | Ok blocks =>
      exists text_blocks,
        run = (Ok text_blocks, w) /\
        map (fun block =>
               (bd_bbox block,
                map (fun line => map sd_text (ld_spans line)) (bd_lines block)))
            text_blocks
        = map (fun block =>
                 (Fitz.block_bbox block,
                  map (fun line =>
                         map (fun span => get (Fitz.span_text span) "")
                           (Fitz.line_spans line))
                    (get (Fitz.block_lines block) [])))
              (filter has_lines blocks) /\
        Forall (fun block => bd_type block = "text") text_blocks /\
        filter is_text_block text_blocks = text_blocks
  end.
Proof.
  cbv zeta. rewrite extract_text_blocks_eq.
  destruct (Fitz.get_text_dict page) as [blocks|e]; [|reflexivity].
  exists (text_blocks_of blocks). split; [reflexivity|].
  split; [apply text_blocks_of_texts|].
  split; [apply text_blocks_of_typed|].
  apply filter_typed, text_blocks_of_typed.
Qed.

(** X11.  The defaults that [_extract_text_blocks] takes for absent keys
    are the values for which [_generate_text_block_html] emits nothing: a
    span without the keys ["font"] and ["color"], whose size is absent or is
    12 as an [int] or as a [float], becomes a span element with the class
    [text-span] alone and no style attribute, around its escaped text (the
    empty text when the key ["text"] is absent too). *)
Theorem span_without_font_keys_is_plain (rt : runtime) (span : Fitz.span) :
  Fitz.span_font span = None ->
  Fitz.span_color span = None ->
  Fitz.span_size span = None \/ Fitz.span_size span = Some (PyInt 12)
    \/ Fitz.span_size span = Some (PyFloat 12%float) ->
  span_html rt (span_data_of span) =
    "<span class=" ++ q "text-span" ++ ">"
      ++ escape (get (Fitz.span_text span) "") ++ "</span>".
Proof.
  intros Hfont Hcolor Hsize. unfold span_html, span_data_of.
  cbn [sd_font_info sd_text]. unfold span_classes, span_styles.
  cbn [fi_bold fi_italic fi_size fi_color]. rewrite Hfont, Hcolor.
  destruct Hsize as [->|[->| ->]]; reflexivity.
Qed.

Lemma span_without_font_keys_witness :
  span_html Sample.rt
    (span_data_of (Fitz.mk_span (Some "a<b") None None (Some (PyFloat 12%float)) None))
  = "<span class=" ++ q "text-span" ++ ">" ++ "a&lt;b" ++ "</span>".
Proof.
  exact (span_without_font_keys_is_plain Sample.rt
           (Fitz.mk_span (Some "a<b") None None (Some (PyFloat 12%float)) None)
           eq_refl eq_refl (or_intror (or_intror eq_refl))).
Defined.

(** X12.  [_extract_content_from_pdf] changes nothing but the log, to which
    it adds warnings of the converter's logger only, also when it raises.
    When it returns, the content holds one page record for each page of the
    document, numbered from 0 in order, and the metadata of the document;
    its lists ["images"] and ["fonts"] are always empty. *)
Theorem extract_content_only_fills_the_pages (self : PDFToHTMLConverter)
    (doc : Fitz.document) (w : world) :
  let run := _extract_content_from_pdf self doc w in
  exists warnings,
    snd run = mk_world (fs w) (log w ++ warnings) (stdout w) (stderr w) /\
    Forall (warning_of (logger self)) warnings /\
    match fst run with
    | Ok content =>
        length (c_pages content) = length (Fitz.load_page doc) /\
        numbered_from 0 (c_pages content) /\
        c_images content = [] /\
        c_fonts content = [] /\
        c_metadata content = Fitz.metadata doc
    | Raise _ => True
    end.
Proof.
  cbv zeta. rewrite extract_content_eq.
  pose proof (pages_outcome_warnings (logger self)
                (enumerate 0 (Fitz.load_page doc))) as Hw.
  destruct (pages_outcome (logger self) (enumerate 0 (Fitz.load_page doc)))
    as [[pages|e] warnings] eqn:Hpages; cbn [fst snd] in *;
    exists warnings; (split; [reflexivity|]); (split; [exact Hw|]);
    [|exact I].
  destruct (pages_outcome_numbered _ _ _ _ _ Hpages) as [Hn Hl].
  cbn [c_pages c_images c_fonts c_metadata]. auto.
Qed.

(* ================================================================== *)
(** * Reading back what is encoded *)
(* ================================================================== *)

Section EscapeFacts.

Lemma markup_free_append (a b : string) :
  markup_free (a ++ b) = markup_free a && markup_free b.
Proof.
  induction a as [|c a IH]; [reflexivity|].
  cbn [append markup_free]. now rewrite IH, andb_assoc.
Qed.

Lemma markup_free_escape_ascii (c : ascii) : markup_free (escape_ascii c) = true.
Proof. destruct c as [[] [] [] [] [] [] [] []]; reflexivity. Qed.

Lemma unescape_escape_ascii (c : ascii) (rest : string) (fuel : nat) :
  unescape_fuel (S fuel) (escape_ascii c ++ rest)
  = String c (unescape_fuel fuel rest).
Proof. destruct c as [[] [] [] [] [] [] [] []]; reflexivity. Qed.

Lemma unescape_fuel_escape (s : string) :
  forall fuel, (String.length s <= fuel)%nat -> unescape_fuel fuel (escape s) = s.
Proof.
  induction s as [|c s IH]; intros fuel Hfuel.
  - destruct fuel; reflexivity.
  - destruct fuel as [|fuel]; [cbn in Hfuel; lia|].
    cbn [escape]. rewrite unescape_escape_ascii, IH; [reflexivity|].
    cbn in Hfuel. lia.
Qed.

Lemma length_escape (s : string) :
  (String.length s <= String.length (escape s))%nat.
Proof.
  induction s as [|c s IH]; [reflexivity|].
  cbn [escape]. rewrite length_append. cbn [String.length].
  assert (1 <= String.length (escape_ascii c))%nat
    by (destruct c as [[] [] [] [] [] [] [] []]; cbn; lia).
  lia.
Qed.

End EscapeFacts.

(** X13.  What [html.escape] returns for the text of a span and for the
    title holds none of the characters [<], [>], double quote and single
    quote, whatever the text is: no text of the PDF can open or close a tag
    or an attribute value in the document of [fritz_test2]. *)
Theorem escaped_text_holds_no_markup (s : string) :
  markup_free (escape s) = true.
Proof.
  induction s as [|c s IH]; [reflexivity|].
  cbn [escape]. now rewrite markup_free_append, markup_free_escape_ascii, IH.
Qed.

(** X14.  Escaping loses nothing: replacing the five entities of
    [html.escape] by their characters gives the text back, so two texts with
    the same escaped form are the same text. *)
Theorem escaped_text_reads_back (s : string) :
  unescape (escape s) = s /\
  forall t, escape s = escape t -> s = t.
Proof.
  assert (H : forall s, unescape (escape s) = s).
  { intros s0. unfold unescape. apply unescape_fuel_escape, length_escape. }
  split; [apply H|].
  intros t Heq. rewrite <- (H s), <- (H t). now rewrite Heq.
Qed.

Section Base64Facts.

(** The numbers below 64. *)
Lemma below_64 (n : N) : (n < 64)%N -> In n (map N.of_nat (seq 0 64)).
Proof.
  intros H. apply in_map_iff. exists (N.to_nat n). split; [apply N2Nat.id|].
  apply in_seq. lia.
Qed.

Lemma b64_index_char (n : N) : (n < 64)%N -> b64_index (b64_char n) = Some n.
Proof.
  intros H. apply below_64 in H. revert n H. apply Forall_forall.
  repeat constructor.
Qed.

Lemma b64_char_not_pad (n : N) :
  (n < 64)%N -> Ascii.eqb (b64_char n) "=" = false.
Proof.
  intros H. apply below_64 in H. revert n H. apply Forall_forall.
  repeat constructor.
Qed.

(** A property of all lists that is kept when three elements are put in
    front holds for every list once it holds for the lists of fewer than
    three elements. *)
Lemma list_ind3 {A : Type} (P : list A -> Prop) :
  P [] -> (forall a, P [a]) -> (forall a b, P [a; b]) ->
  (forall a b c l, P l -> P (a :: b :: c :: l)) ->
  forall l, P l.
Proof.
  intros H0 H1 H2 H3 l.
  enough (H : P l /\ (forall a, P (a :: l)) /\ (forall a b, P (a :: b :: l)))
    by apply H.
  induction l as [|x l (IH0 & IH1 & IH2)].
  - auto.
  - split; [apply IH1|]. split; [intros a; apply IH2|].
    intros a b. now apply H3.
Qed.

Lemma b64_quantum (a b c : N) :
  (a < 256)%N -> (b < 256)%N -> (c < 256)%N ->
  ((a / 4 < 64) /\ ((a mod 4) * 16 + b / 16 < 64)
   /\ ((b mod 16) * 4 + c / 64 < 64) /\ (c mod 64 < 64)
   /\ ((a mod 4) * 16 < 64) /\ ((b mod 16) * 4 < 64)
   /\ (a / 4 * 4 + ((a mod 4) * 16 + b / 16) / 16 = a)
   /\ ((((a mod 4) * 16 + b / 16) mod 16) * 16
        + ((b mod 16) * 4 + c / 64) / 4 = b)
   /\ ((((b mod 16) * 4 + c / 64) mod 4) * 64 + c mod 64 = c)
   /\ (a / 4 * 4 + ((a mod 4) * 16) / 16 = a)
   /\ ((((a mod 4) * 16 + b / 16) mod 16) * 16 + ((b mod 16) * 4) / 4 = b))%N.
Proof.
  intros Ha Hb Hc. repeat split; zify; Z.to_euclidean_division_equations; lia.
Qed.

Lemma b64decode_encode (bs : list N) :
  all_bytes bs -> b64decode (b64encode bs) = Some bs.
Proof.
  induction bs as [|a|a b|a b c bs IH] using list_ind3; intros Hbytes.
  - reflexivity.
  - inversion Hbytes as [|? ? Ha _]; subst.
    destruct (b64_quantum a 0 0 Ha) as (H1 & _ & _ & _ & H2 & _ & _ & _ & _ & E1 & _);
      try lia.
    cbn [b64encode b64decode].
    rewrite (b64_index_char _ H1), (b64_index_char _ H2). cbn. now rewrite E1.
  - inversion Hbytes as [|? ? Ha Hrest]; subst.
    inversion Hrest as [|? ? Hb _]; subst.
    destruct (b64_quantum a b 0 Ha Hb)
      as (H1 & H2 & _ & _ & _ & H3 & E1 & _ & _ & _ & E2); try lia.
    cbn [b64encode b64decode].
    rewrite (b64_index_char _ H1), (b64_index_char _ H2),
      (b64_char_not_pad _ H3), (b64_index_char _ H3).
    cbn. now rewrite E1, E2.
  - inversion Hbytes as [|? ? Ha Hrest]; subst.
    inversion Hrest as [|? ? Hb Hrest']; subst.
    inversion Hrest' as [|? ? Hc Hbs]; subst.
    destruct (b64_quantum a b c Ha Hb Hc)
      as (H1 & H2 & H3 & H4 & _ & _ & E1 & E2 & E3 & _ & _).
    cbn [b64encode b64decode].
    rewrite (b64_index_char _ H1), (b64_index_char _ H2),
      (b64_char_not_pad _ H3), (b64_index_char _ H3),
      (b64_char_not_pad _ H4), (b64_index_char _ H4), (IH Hbs).
    now rewrite E1, E2, E3.
Qed.

Lemma b64encode_length (bs : list N) :
  String.length (b64encode bs) = (4 * ((length bs + 2) / 3))%nat.
Proof.
  induction bs as [|a|a b|a b c bs IH] using list_ind3; try reflexivity.
  cbn [b64encode String.length length]. rewrite IH.
  replace (S (S (S (length bs))) + 2)%nat with (length bs + 2 + 1 * 3)%nat by lia.
  rewrite Nat.div_add by lia. lia.
Qed.

End Base64Facts.

(** X15.  The payload of an image is a base64 text of four characters for
    every three bytes begun, and decoding it gives back the bytes that were
    encoded. *)
Theorem b64encode_reads_back (bs : list N) :
  all_bytes bs ->
  b64decode (b64encode bs) = Some bs /\
  String.length (b64encode bs) = (4 * ((length bs + 2) / 3))%nat.
Proof.
  intros H. split; [now apply b64decode_encode | apply b64encode_length].
Qed.

Lemma b64encode_reads_back_witness :
  b64decode (b64encode [77; 97; 110; 33]%N) = Some [77; 97; 110; 33]%N /\
  String.length (b64encode [77; 97; 110; 33]%N) = 8%nat.
Proof.
  exact (b64encode_reads_back [77; 97; 110; 33]%N
           ltac:(repeat constructor)).
Defined.

Section HexLength.

Lemma all_hex_zeros (k : nat) : all_hex (zeros k) = true.
Proof. induction k as [|k IH]; [reflexivity | exact IH]. Qed.

Lemma length_zeros (k : nat) : String.length (zeros k) = k.
Proof. induction k as [|k IH]; [reflexivity | cbn; now rewrite IH]. Qed.

(** A number of at least [16 ^ k] has more than [k] hexadecimal digits. *)
Lemma hex_fuel_long (fuel : nat) :
  forall (n : Z) (k : nat),
    16 ^ Z.of_nat k <= n -> (k < fuel)%nat ->
    (k < String.length (hex_fuel fuel n ""))%nat.
Proof.
  induction fuel as [|fuel IH]; intros n k Hn Hk; [lia|].
  cbn [hex_fuel]. destruct (Z.ltb_spec n 16) as [Hsmall|Hbig].
  - destruct k as [|k]; [cbn; lia|].
    rewrite Nat2Z.inj_succ, Z.pow_succ_r in Hn by lia.
    assert (0 < 16 ^ Z.of_nat k) by (apply Z.pow_pos_nonneg; lia). lia.
  - rewrite hex_fuel_acc, length_append. cbn [String.length].
    destruct k as [|k]; [lia|].
    assert (Hdiv : 16 ^ Z.of_nat k <= n / 16).
    { apply Z.div_le_lower_bound; [lia|].
      rewrite Nat2Z.inj_succ, Z.pow_succ_r in Hn by lia. lia. }
    specialize (IH (n / 16) k Hdiv ltac:(lia)). lia.
Qed.

Lemma hex_long (n : Z) (k : nat) :
  16 ^ Z.of_nat k <= n -> (k < String.length (hex n))%nat.
Proof.
  intros Hn. unfold hex. apply hex_fuel_long; [exact Hn|].
  assert (Hpos : 0 < n).
  { assert (0 < 16 ^ Z.of_nat k) by (apply Z.pow_pos_nonneg; lia). lia. }
  assert (Hlog : 4 * Z.of_nat k <= Z.log2 n).
  { apply Z.log2_le_pow2; [exact Hpos|].
    rewrite Z.pow_mul_r by lia. exact Hn. }
  pose proof (Z.log2_nonneg n). lia.
Qed.

End HexLength.

(** X16.  The colour of the inline style, [f"#{color:06x}"], is made of
    exactly six hexadecimal digits if and only if the colour is a packed
    sRGB integer: a negative colour is printed with a minus sign, and a
    colour of [0x1000000] or more with more than six digits. *)
Theorem format_06x_six_digits_iff_packed (color : Z) :
  (String.length (format_06x color) = 6%nat /\ all_hex (format_06x color) = true)
  <-> packed_rgb color.
Proof.
  split.
  - intros [Hlen Hhex]. unfold packed_rgb.
    destruct (Z.ltb_spec color 0) as [Hneg|Hpos].
    + unfold format_06x in Hhex.
      destruct (Z.ltb_spec color 0) as [_|]; [|lia]. discriminate Hhex.
    + split; [exact Hpos|].
      destruct (Z.ltb_spec color 16777216) as [|Hbig]; [assumption|].
      unfold format_06x in Hlen.
      destruct (Z.ltb_spec color 0) as [|_]; [lia|]. cbv zeta in Hlen.
      rewrite length_append, length_zeros in Hlen.
      pose proof (hex_long color 6 Hbig). lia.
  - intros Hpacked. rewrite (format_06x_packed _ Hpacked). split.
    + apply hex_pad_length.
    + apply hex_pad_all_hex.
Qed.

Lemma image_outcome_bytes (page_num i : Z) (img : Fitz.image)
    (info : image_info) :
  image_outcome page_num i img = Ok info ->
  exists pix bytes,
    Fitz.img_pixmap img = Ok pix /\
    encoded_bytes pix = Ok bytes /\
    ii_format info =
      (if Fitz.pix_n pix - Fitz.pix_alpha pix <? 4 then "png" else "jpeg") /\
    ii_data info = b64encode bytes /\
    ii_width info = Fitz.pix_width pix /\
    ii_height info = Fitz.pix_height pix.
Proof.
  unfold image_outcome, encoded_bytes.
  destruct (Fitz.img_pixmap img) as [pix|]; [|discriminate].
  destruct (Fitz.pix_n pix - Fitz.pix_alpha pix <? 4) eqn:Hchannels;
    cbn [fst snd].
  - destruct (Fitz.pix_png pix) as [bytes|] eqn:Hbytes; [|discriminate].
    destruct (Fitz.img_rects img); [|discriminate].
    intros H. apply Ok_inj in H as <-. exists pix, bytes.
    rewrite Hchannels. repeat split. exact Hbytes.
  - destruct (Fitz.pix_rgb_jpeg pix) as [bytes|] eqn:Hbytes; [|discriminate].
    destruct (Fitz.img_rects img); [|discriminate].
    intros H. apply Ok_inj in H as <-. exists pix, bytes.
    rewrite Hchannels. repeat split. exact Hbytes.
Qed.

(** X17.  An image that [_extract_images] keeps carries what the library
    gave for its entry of [page.get_images()]: the width and height of the
    picture, the format ["png"] when the picture has fewer than four colour
    channels and ["jpeg"] otherwise, and as payload the base64 text of the
    PNG bytes, or of the JPEG bytes of the RGB conversion, which decodes back
    to those bytes.  [_generate_image_html] puts format and payload into the
    data URI of the [img] element. *)
Theorem kept_image_carries_the_bytes_of_its_entry (self : PDFToHTMLConverter)
    (page : Fitz.page) (page_num : Z) (w w' : world)
    (images : list image_info) (info : image_info) :
  _extract_images self page page_num w = (Ok images, w') ->
  In info images ->
  exists image_list img pix bytes,
    Fitz.get_images page = Ok image_list /\
    nth_error image_list (Z.to_nat (ii_index info)) = Some img /\
    Fitz.img_pixmap img = Ok pix /\
    encoded_bytes pix = Ok bytes /\
    ii_format info =
      (if Fitz.pix_n pix - Fitz.pix_alpha pix <? 4 then "png" else "jpeg") /\
    (all_bytes bytes -> b64decode (ii_data info) = Some bytes) /\
    ii_width info = Fitz.pix_width pix /\
    ii_height info = Fitz.pix_height pix /\
    occurs
      ("<img src="
         ++ q ("data:image/" ++ ii_format info ++ ";base64," ++ b64encode bytes))
      (_generate_image_html self info).
Proof.
  rewrite extract_images_eq.
  destruct (Fitz.get_images page) as [image_list|e]; [|discriminate].
  intros H Hin. apply pair_Ok_inj in H as [<- _].
  destruct (kept_images_In _ _ _ _ Hin) as (k & img & Hk & Hi & Hout).
  destruct (image_outcome_bytes _ _ _ _ Hout)
    as (pix & bytes & Hpix & Hbytes & Hfmt & Hdata & Hwidth & Hheight).
  exists image_list, img, pix, bytes.
  split; [reflexivity|].
  split; [rewrite Hi, Z.add_0_l, Nat2Z.id; exact Hk|].
  split; [exact Hpix|]. split; [exact Hbytes|]. split; [exact Hfmt|].
  split; [intros Hall; rewrite Hdata; now apply b64decode_encode|].
  split; [exact Hwidth|]. split; [exact Hheight|].
  unfold _generate_image_html. cbv zeta. rewrite Hdata.
  exists ("<div class=" ++ q "image-container" ++ ">" ++ nl ++ "                ").
  eexists. rewrite !append_assoc. cbn [append]. reflexivity.
Qed.

Lemma kept_image_carries_the_bytes_witness :
  exists image_list img pix bytes,
    Fitz.get_images Sample.page = Ok image_list /\
    nth_error image_list
      (Z.to_nat (ii_index (mk_image_info 1 0 "png" "TWFu" 2 1 []))) = Some img /\
    Fitz.img_pixmap img = Ok pix /\
    encoded_bytes pix = Ok bytes /\
    ii_format (mk_image_info 1 0 "png" "TWFu" 2 1 []) =
      (if Fitz.pix_n pix - Fitz.pix_alpha pix <? 4 then "png" else "jpeg") /\
    (all_bytes bytes ->
     b64decode (ii_data (mk_image_info 1 0 "png" "TWFu" 2 1 [])) = Some bytes) /\
    ii_width (mk_image_info 1 0 "png" "TWFu" 2 1 []) = Fitz.pix_width pix /\
    ii_height (mk_image_info 1 0 "png" "TWFu" 2 1 []) = Fitz.pix_height pix /\
    occurs
      ("<img src="
         ++ q ("data:image/" ++ ii_format (mk_image_info 1 0 "png" "TWFu" 2 1 [])
                 ++ ";base64," ++ b64encode bytes))
      (_generate_image_html Sample.converter
         (mk_image_info 1 0 "png" "TWFu" 2 1 [])).
Proof.
  exact (kept_image_carries_the_bytes_of_its_entry Sample.converter Sample.page
           0 Sample.world _ [mk_image_info 1 0 "png" "TWFu" 2 1 []]
           (mk_image_info 1 0 "png" "TWFu" 2 1 [])
           (surjective_pairing _) (or_introl eq_refl)).
Defined.

(* ================================================================== *)
(** * Counting the elements of the document of fritz_test2.py *)
(* ================================================================== *)

Section CountingMore.

Variable pat : string.

Lemma counts_eq (k k' : nat) (s : string) :
  counts pat k s -> k = k' -> counts pat k' s.
Proof. now intros H <-. Qed.

(** The occurrences in a concatenation of parts are those of the parts. *)
Lemma counts_concat_map_sum {A : Type} (g : A -> nat) (f : A -> string)
    (l : list A) :
  counts pat 0 "" ->
  (forall x, In x l -> counts pat (g x) (f x)) ->
  counts pat (list_sum (map g l)) (concat_map f l).
Proof.
  intros Hnil. induction l as [|x l IH]; intros H; [exact Hnil|].
  rewrite concat_map_cons. cbn [map list_sum].
  apply counts_append; [apply H; now left|].
  apply IH. intros y Hy. apply H. now right.
Qed.

Lemma counts_join_sum {A : Type} (g : A -> nat) (f : A -> string)
    (l : list A) :
  counts pat 0 "" -> counts pat 0 nl ->
  (forall x, In x l -> counts pat (g x) (f x)) ->
  counts pat (list_sum (map g l)) (join nl (map f l)).
Proof.
  intros Hnil Hnl H. destruct l as [|x l]; [exact Hnil|].
  cbn [map]. rewrite join_cons, concat_map_map. cbn [list_sum].
  apply counts_append; [apply H; now left|].
  apply counts_concat_map_sum; [exact Hnil|].
  intros y Hy. apply (counts_append pat 0 (g y)); [exact Hnl|].
  apply H. now right.
Qed.

End CountingMore.

Lemma closed_for_counts_eq (a : ascii) (p s : string) (k : nat) :
  closed_for (String a p) s = true -> count_str (String a p) s = k ->
  counts (String a p) k s.
Proof. intros Hclosed <-. now apply closed_for_counts. Qed.

(** Counts the occurrences in a concatenation part by part: a constant part
    by evaluation, a part that [tac] shows to hold no [<] as none. *)
Ltac count_parts_with tac :=
  repeat first
    [ lazymatch goal with
      | |- counts _ _ (String.append _ _) => eapply counts_append
      end
    | eapply closed_for_counts_eq; [vm_compute; reflexivity | vm_compute; reflexivity]
    | apply counts_lt_free; tac ].

Section ElementCounts.

Variable rt : runtime.
Variable self : PDFToHTMLConverter.

(** [str(x)] of a float holds no [<]. *)
Hypothesis float_str_lt_free : forall f, lt_free (float_str rt f) = true.

Ltac count_parts :=
  count_parts_with
    ltac:(first [ apply lt_free_escape | apply lt_free_str_of_Z
                | apply lt_free_b64encode | apply lt_free_format_06x
                | apply float_str_lt_free
                | apply num_str_lt_free; apply float_str_lt_free
                | assumption ]).

Lemma span_attributes_lt_free (font_info : font_info) :
  lt_free (class_attr (span_classes font_info)
             ++ style_attr (span_styles rt font_info)) = true.
Proof.
  rewrite lt_free_append. apply andb_true_iff. split.
  - unfold span_classes. destruct (fi_bold font_info), (fi_italic font_info);
      reflexivity.
  - unfold span_styles.
    destruct (num_ne (fi_size font_info) 12 12%float),
             (negb (fi_color font_info =? 0));
      cbn [list_append app style_attr truthy_list join String.concat];
      unfold q; rewrite ?lt_free_append, ?lt_free_format_06x,
        ?(num_str_lt_free rt float_str_lt_free); reflexivity.
Qed.

Lemma span_html_elements (span : span_data) :
  counts span_tag 1 (span_html rt span) /\ counts img_tag 0 (span_html rt span).
Proof.
  unfold span_html.
  rewrite (regroup (class_attr _) (style_attr _)).
  pose proof (span_attributes_lt_free (sd_font_info span)) as Hattr.
  set (attributes := class_attr _ ++ style_attr _) in *.
  split; (eapply counts_eq; [count_parts | reflexivity]).
Qed.

Lemma line_shape_elements (line : line_data) :
  counts span_tag (length (ld_spans line)) (line_shape rt line) /\
  counts img_tag 0 (line_shape rt line).
Proof.
  unfold line_shape. destruct (ld_spans line) as [|s spans] eqn:Hs.
  - split; apply counts_lt_free; reflexivity.
  - rewrite <- Hs. split.
    + apply (counts_append span_tag 0); [count_parts|].
      eapply counts_eq.
      * apply (counts_concat_map span_tag 1); [count_parts|].
        intros span _. apply (proj1 (span_html_elements span)).
      * apply Nat.mul_1_l.
    + apply (counts_append img_tag 0 0); [count_parts|].
      apply (counts_concat_map img_tag 0); [count_parts|].
      intros span _. apply (proj2 (span_html_elements span)).
Qed.

Lemma text_block_elements (block : block_data) :
  counts span_tag (spans_of_block block) (_generate_text_block_html rt self block) /\
  counts img_tag 0 (_generate_text_block_html rt self block).
Proof.
  rewrite generate_text_block_html_shape. unfold text_block_shape, q. split.
  - eapply counts_eq.
    + count_parts.
      apply (counts_concat_map_sum span_tag
               (fun line => length (ld_spans line))); [count_parts|].
      intros line _. apply (proj1 (line_shape_elements line)).
    + unfold spans_of_block. cbn [Nat.add Nat.mul]. lia.
  - eapply counts_eq.
    + count_parts.
      apply (counts_concat_map img_tag 0); [count_parts|].
      intros line _. apply (proj2 (line_shape_elements line)).
    + cbn [Nat.add Nat.mul]. lia.
Qed.

Lemma image_html_elements (image : image_info) :
  image_lt_free image = true ->
  counts span_tag 0 (_generate_image_html self image) /\
  counts img_tag 1 (_generate_image_html self image).
Proof.
  intros H. apply andb_true_iff in H as [Hf Hd].
  unfold _generate_image_html, q. cbv zeta.
  split; (eapply counts_eq; [count_parts | reflexivity]).
Qed.

Lemma page_shape_elements (page_data : page_content) :
  page_images_lt_free page_data = true ->
  counts span_tag (spans_of_page page_data) (page_shape rt self page_data) /\
  counts img_tag (length (pc_images page_data)) (page_shape rt self page_data).
Proof.
  intros Himages. unfold page_images_lt_free in Himages.
  rewrite forallb_forall in Himages.
  unfold page_shape, q. split.
  - eapply counts_eq.
    + count_parts.
      * apply (counts_concat_map_sum span_tag spans_of_block); [count_parts|].
        intros block _. eapply counts_eq.
        -- count_parts. apply (proj1 (text_block_elements block)).
        -- reflexivity.
      * apply (counts_concat_map span_tag 0); [count_parts|].
        intros image Hin. eapply counts_eq.
        -- count_parts.
           apply (proj1 (image_html_elements image (Himages image Hin))).
        -- reflexivity.
    + unfold spans_of_page. cbn [Nat.add Nat.mul]. lia.
  - eapply counts_eq.
    + count_parts.
      * apply (counts_concat_map img_tag 0); [count_parts|].
        intros block _. eapply counts_eq.
        -- count_parts. apply (proj2 (text_block_elements block)).
        -- reflexivity.
      * apply (counts_concat_map img_tag 1); [count_parts|].
        intros image Hin. eapply counts_eq.
        -- count_parts.
           apply (proj2 (image_html_elements image (Himages image Hin))).
        -- reflexivity.
    + cbn [Nat.add Nat.mul]. lia.
Qed.

Lemma fritz_test2_shape_elements (pdf_path : string) (pages : list page_content) :
  forallb page_images_lt_free pages = true ->
  count_str span_tag (fritz_test2_shape rt self pdf_path pages)
    = spans_of_pages pages /\
  count_str img_tag (fritz_test2_shape rt self pdf_path pages)
    = images_of_pages pages.
Proof.
  intros H. rewrite forallb_forall in H.
  enough (Hc : counts span_tag (spans_of_pages pages)
                 (fritz_test2_shape rt self pdf_path pages) /\
               counts img_tag (images_of_pages pages)
                 (fritz_test2_shape rt self pdf_path pages))
    by (split; [exact (proj2 (proj1 Hc)) | exact (proj2 (proj2 Hc))]).
  unfold fritz_test2_shape, fritz_test2_head, _generate_css, q.
  rewrite !append_assoc. split.
  - eapply counts_eq.
    + count_parts.
      apply (counts_join_sum span_tag spans_of_page); [count_parts|count_parts|].
      intros page_data Hin.
      apply (proj1 (page_shape_elements page_data (H page_data Hin))).
    + unfold spans_of_pages. cbn [Nat.add Nat.mul]. lia.
  - eapply counts_eq.
    + count_parts.
      apply (counts_join_sum img_tag (fun page_data => length (pc_images page_data)));
        [count_parts|count_parts|].
      intros page_data Hin.
      apply (proj2 (page_shape_elements page_data (H page_data Hin))).
    + unfold images_of_pages. cbn [Nat.add Nat.mul]. lia.
Qed.

End ElementCounts.

Section ConvertedDocument.

Variable rt : runtime.
Variable lib : libraries.
Variable self : PDFToHTMLConverter.

(** When the conversion returns, the output file holds the document laid
    out from the content that [_extract_content_from_pdf] returns. *)
Lemma fritz_test2_success_content (pdf_path : string)
    (output_path : option string) (w w' : world) (out : string) :
  PDFToHTMLConverter_convert_pdf_to_html rt lib self pdf_path output_path w
    = (Ok out, w') ->
  exists bytes doc content,
    files (fs w) pdf_path = Some bytes /\
    fitz_load lib bytes = Ok doc /\
    fst (_extract_content_from_pdf self doc w) = Ok content /\
    length (c_pages content) = length (Fitz.load_page doc) /\
    forallb page_images_lt_free (c_pages content) = true /\
    files (fs w') out
      = Some (fritz_test2_shape rt self pdf_path (c_pages content)).
Proof.
  intros H.
  destruct (fritz_test2_success _ _ _ _ _ _ _ _ H)
    as (_ & bytes & html & ws & Hbytes & Hdoc & Hout).
  unfold fritz_test2_document in Hdoc.
  destruct (fitz_load lib bytes) as [doc|e] eqn:Hload; [|discriminate].
  destruct (pages_outcome (logger self) (enumerate 0 (Fitz.load_page doc)))
    as [[pages|e] warnings] eqn:Hpages; [|discriminate].
  apply pair_Ok_inj in Hdoc as [<- _].
  exists bytes, doc, (mk_content pages [] [] (Fitz.metadata doc)).
  rewrite extract_content_eq, Hpages. cbn [fst c_pages].
  destruct (pages_outcome_numbered _ _ _ _ _ Hpages) as [_ Hlen].
  repeat split; try assumption.
  - now apply pages_outcome_lt_free with (1 := Hpages).
  - now rewrite Hout, generate_complete_html_shape.
Qed.

End ConvertedDocument.

(* ================================================================== *)
(** * What the document of fritz_test2.py holds *)
(* ================================================================== *)

(** The printed form of a float, in the sample runtime, holds no [<]. *)
Lemma sample_float_str_lt_free (f : float) :
  lt_free (float_str Sample.rt f) = true.
Proof. cbn. destruct (PrimFloat.eqb f 10.5%float); reflexivity. Qed.

(** X18.  When [PDFToHTMLConverter.convert_pdf_to_html] returns, the file it
    has written holds exactly one page container opening
    [<div class="pdf-page"] for each page of the document, whatever text
    the pages hold, as long as the printed form of a float holds no [<]. *)
Theorem fritz_test2_writes_one_container_per_page (rt : runtime)
    (lib : libraries) (self : PDFToHTMLConverter) (pdf_path : string)
    (output_path : option string) (w w' : world) (out : string) :
  (forall f, lt_free (float_str rt f) = true) ->
  PDFToHTMLConverter_convert_pdf_to_html rt lib self pdf_path output_path w
    = (Ok out, w') ->
  exists bytes doc html,
    files (fs w) pdf_path = Some bytes /\
    fitz_load lib bytes = Ok doc /\
    files (fs w') out = Some html /\
    count_str pdf_page_tag html = length (Fitz.load_page doc).
Proof.
  intros Hfloat H.
  destruct (fritz_test2_success _ _ _ _ _ _ _ _ H)
    as (_ & bytes & html & ws & Hbytes & Hdoc & Hout).
  assert (Hload : exists doc, fitz_load lib bytes = Ok doc).
  { unfold fritz_test2_document in Hdoc.
    destruct (fitz_load lib bytes) as [doc|]; [now exists doc | discriminate]. }
  destruct Hload as [doc Hload]. exists bytes, doc, html.
  repeat split; try assumption.
  exact (fritz_test2_page_container_count rt lib self pdf_path bytes html ws doc
           Hfloat Hdoc Hload).
Qed.

Lemma fritz_test2_writes_one_container_per_page_witness :
  exists bytes doc html,
    files (fs Sample.world) "a.pdf" = Some bytes /\
    fitz_load Sample.lib bytes = Ok doc /\
    files (fs (snd (PDFToHTMLConverter_convert_pdf_to_html Sample.rt Sample.lib
                      Sample.converter "a.pdf" None Sample.world))) "a.html"
      = Some html /\
    count_str pdf_page_tag html = length (Fitz.load_page doc).
Proof.
  exact (fritz_test2_writes_one_container_per_page Sample.rt Sample.lib
           Sample.converter "a.pdf" None Sample.world _ "a.html"
           sample_float_str_lt_free (surjective_pairing _)).
Defined.

(** X19.  When [PDFToHTMLConverter.convert_pdf_to_html] returns, the file it
    has written holds exactly one [<img] for each image that
    [_extract_content_from_pdf] has kept and exactly one [<span] for each
    span of the text blocks it has extracted: no text, font name or image
    payload adds or hides an element, as long as the printed form of a float
    holds no [<]. *)
Theorem fritz_test2_writes_one_element_per_image_and_span (rt : runtime)
    (lib : libraries) (self : PDFToHTMLConverter) (pdf_path : string)
    (output_path : option string) (w w' : world) (out : string) :
  (forall f, lt_free (float_str rt f) = true) ->
  PDFToHTMLConverter_convert_pdf_to_html rt lib self pdf_path output_path w
    = (Ok out, w') ->
  exists bytes doc content html,
    files (fs w) pdf_path = Some bytes /\
    fitz_load lib bytes = Ok doc /\
    fst (_extract_content_from_pdf self doc w) = Ok content /\
    files (fs w') out = Some html /\
    count_str img_tag html = images_of_pages (c_pages content) /\
    count_str span_tag html = spans_of_pages (c_pages content).
Proof.
  intros Hfloat H.
  destruct (fritz_test2_success_content rt lib self _ _ _ _ _ H)
    as (bytes & doc & content & Hbytes & Hload & Hcontent & _ & Himages & Hout).
  exists bytes, doc, content. eexists.
  split; [exact Hbytes|]. split; [exact Hload|]. split; [exact Hcontent|].
  split; [exact Hout|].
  destruct (fritz_test2_shape_elements rt self Hfloat pdf_path
              (c_pages content) Himages) as [Hspan Himg].
  split; assumption.
Qed.

Lemma fritz_test2_writes_one_element_witness :
  exists bytes doc content html,
    files (fs Sample.world) "a.pdf" = Some bytes /\
    fitz_load Sample.lib bytes = Ok doc /\
    fst (_extract_content_from_pdf Sample.converter doc Sample.world)
      = Ok content /\
    files (fs (snd (PDFToHTMLConverter_convert_pdf_to_html Sample.rt Sample.lib
                      Sample.converter "a.pdf" None Sample.world))) "a.html"
      = Some html /\
    count_str img_tag html = images_of_pages (c_pages content) /\
    count_str span_tag html = spans_of_pages (c_pages content).
Proof.
  exact (fritz_test2_writes_one_element_per_image_and_span Sample.rt Sample.lib
           Sample.converter "a.pdf" None Sample.world _ "a.html"
           sample_float_str_lt_free (surjective_pairing _)).
Defined.

(** X20.  When [PDFToHTMLConverter.convert_pdf_to_html] returns, the text of
    every span that the library hands over for a page of the document
    occurs in the file written, escaped by [html.escape]. *)
Theorem fritz_test2_writes_every_span_text_escaped (rt : runtime)
    (lib : libraries) (self : PDFToHTMLConverter) (pdf_path : string)
    (output_path : option string) (w w' : world) (out : string) :
  PDFToHTMLConverter_convert_pdf_to_html rt lib self pdf_path output_path w
    = (Ok out, w') ->
  exists bytes doc html,
    files (fs w) pdf_path = Some bytes /\
    fitz_load lib bytes = Ok doc /\
    files (fs w') out = Some html /\
    forall page blocks block lines line span,
      In (Ok page) (Fitz.load_page doc) ->
      Fitz.get_text_dict page = Ok blocks ->
      In block blocks -> Fitz.block_lines block = Some lines ->
      In line lines -> In span (Fitz.line_spans line) ->
      occurs (escape (get (Fitz.span_text span) "")) html.
Proof.
  intros H.
  destruct (fritz_test2_success _ _ _ _ _ _ _ _ H)
    as (_ & bytes & html & ws & Hbytes & Hdoc & Hout).
  assert (Hload : exists doc, fitz_load lib bytes = Ok doc).
  { unfold fritz_test2_document in Hdoc.
    destruct (fitz_load lib bytes) as [doc|]; [now exists doc | discriminate]. }
  destruct Hload as [doc Hload]. exists bytes, doc, html.
  repeat split; try assumption.
  intros page blocks block lines line span.
  now apply (fritz_test2_text_is_escaped rt lib self pdf_path bytes html ws doc).
Qed.

Lemma fritz_test2_writes_every_span_text_escaped_witness :
  exists bytes doc html,
    files (fs Sample.world) "a.pdf" = Some bytes /\
    fitz_load Sample.lib bytes = Ok doc /\
    files (fs (snd (PDFToHTMLConverter_convert_pdf_to_html Sample.rt Sample.lib
                      Sample.converter "a.pdf" None Sample.world))) "a.html"
      = Some html /\
    forall page blocks block lines line span,
      In (Ok page) (Fitz.load_page doc) ->
      Fitz.get_text_dict page = Ok blocks ->
      In block blocks -> Fitz.block_lines block = Some lines ->
      In line lines -> In span (Fitz.line_spans line) ->
      occurs (escape (get (Fitz.span_text span) "")) html.
Proof.
  exact (fritz_test2_writes_every_span_text_escaped Sample.rt Sample.lib
           Sample.converter "a.pdf" None Sample.world _ "a.html"
           (surjective_pairing _)).
Defined.



(* ================================================================== *)
(** * pdf2htmlEX.py and the scripts as programs *)
(* ================================================================== *)

(** X22.  [pdf2htmlEX.convert_pdf_to_html] raises nothing but [ValueError]
    with the message ["Conversion failed: "] followed by [str(e)]; what it
    returns is the HTML text that [pdf.to_html()] gave, not a path; with an
    output path the file there then holds that text; and without one
    ([None] or the empty string) the script itself changes nothing: the
    world is the one the two library calls left, also when they fail. *)
Theorem pdf2htmlEX_returns_the_html_or_ValueError (rt : runtime)
    (PDF : string -> M Pypdf2htmlEX.pdf) (pdf_path : string)
    (output_path : option string) (w : world) :
  let run := pdf2htmlEX.convert_pdf_to_html rt PDF pdf_path output_path w in
  let library := (pdf <- PDF pdf_path ;; Pypdf2htmlEX.to_html pdf) w in
  (forall e, fst run = Raise e ->
     exists cause,
       e = mk_exn "ValueError" ("Conversion failed: " ++ exn_msg cause)) /\
  (forall html, fst run = Ok html ->
     fst library = Ok html /\
     match pdf2htmlEX.truthy_path output_path with
     | Some path => files (fs (snd run)) path = Some html
     | None => True
     end) /\
  (pdf2htmlEX.truthy_path output_path = None -> snd run = snd library) /\
  log (snd run) = log (snd library) /\
  stdout (snd run) = stdout (snd library) /\
  stderr (snd run) = stderr (snd library).
Proof.
  cbv zeta. unfold pdf2htmlEX.convert_pdf_to_html, try_except, bind, raise, ret.
  destruct (PDF pdf_path w) as [[pdf|e] w1]; cbn [fst snd].
  2:{ split; [intros e' H; injection H as <-; now exists e|].
      split; [discriminate|]. repeat split. }
  destruct (Pypdf2htmlEX.to_html pdf w1) as [[html|e] w2]; cbn [fst snd].
  2:{ split; [intros e' H; injection H as <-; now exists e|].
      split; [discriminate|]. repeat split. }
  destruct (pdf2htmlEX.truthy_path output_path) as [path|]; cbn [fst snd].
  2:{ split; [discriminate|].
      split; [intros html' H; injection H as <-; now split|]. repeat split. }
  rewrite write_file_eq.
  destruct (write_outcome_keeps rt path html w2) as (Hlog & Hout & Herr & _).
  destruct (write_outcome rt w2 path html) as [[e|] w3] eqn:Hwrite;
    cbn [fst snd] in *.
  - split; [intros e' H; injection H as <-; now exists e|].
    split; [discriminate|]. split; [discriminate|]. repeat split; assumption.
  - apply write_outcome_done in Hwrite. subst w3.
    split; [discriminate|].
    split; [|split; [discriminate | repeat split; assumption]].
    intros html' H. injection H as <-. split; [reflexivity|].
    cbn [with_file fs]. apply files_write_fs_same.
Qed.

Section Programs.

Variable rt : runtime.
Variable lib : libraries.


End Programs.


(** X24.  Run as a program, [pdfplumber_test.py] converts ["pdf/a.pdf"] into
    the folder ["output"] and always ends normally, also when the conversion
    failed: it then prints the error of the conversion and the line
    ["Conversion failed."], and otherwise ["HTML file created at: "] with
    the path.  Nothing goes to the error stream or the log, and the files
    are as the conversion left them. *)
Theorem pdfplumber_test_program_always_ends_normally (rt : runtime)
    (lib : libraries) (w : world) :
  let conversion :=
    pdfplumber_test.convert_pdf_to_html rt lib "pdf/a.pdf" "output" w in
  let run := Main.pdfplumber_test_main rt lib w in
  fst run = Ok tt /\
  fs (snd run) = fs (snd conversion) /\
  log (snd run) = log w /\
  stderr (snd run) = stderr w /\
  exists verdict,
    stdout (snd run) = list_append (stdout (snd conversion)) verdict /\
    match fst conversion with
    | Ok (Some out) =>
        stdout (snd conversion) = stdout w /\
        verdict = (if truthy_str out then "HTML file created at: " ++ out
                   else "Conversion failed.")
    | _ =>
        verdict = "Conversion failed." /\
        exists e,
          stdout (snd conversion) =
            list_append (stdout w) ("Error converting PDF: " ++ exn_msg e)
    end.
Proof.
  cbv zeta. unfold Main.pdfplumber_test_main, bind.
  rewrite pdfplumber_convert_eq. cbv zeta.
  assert (Hprint : forall (result : option string) (w1 : world),
            let run :=
              match Main.truthy_result result with
              | Some result => print ("HTML file created at: " ++ result)
              | None => print "Conversion failed."
              end w1 in
            fst run = Ok tt /\ fs (snd run) = fs w1 /\ log (snd run) = log w1 /\
            stderr (snd run) = stderr w1 /\
            stdout (snd run) =
              list_append (stdout w1)
                match Main.truthy_result result with
                | Some result => "HTML file created at: " ++ result
                | None => "Conversion failed."
                end).
  { intros result w1. cbv zeta.
    destruct (Main.truthy_result result); repeat split. }
  destruct (makedirs_error rt (fs w) "output") as [e|].
  { cbn [fst snd]. repeat split. eexists. split; [reflexivity|].
    split; [reflexivity|]. now exists e. }
  destruct (files (fs w) "pdf/a.pdf") as [bytes|].
  2:{ cbn [fst snd]. repeat split. eexists. split; [reflexivity|].
      split; [reflexivity|]. eexists. reflexivity. }
  destruct (pdfplumber_document lib bytes) as [html|e].
  2:{ cbn [fst snd]. repeat split. eexists. split; [reflexivity|].
      split; [reflexivity|]. now exists e. }
  destruct (write_outcome_keeps rt (output_path_in rt "pdf/a.pdf" "output") html
              (after_makedirs w "output")) as (Hlog & Hout & Herr & _).
  destruct (write_outcome rt _ _ html) as [[e|] w2]; cbn [fst snd] in *.
  - repeat split; try assumption. eexists. split; [reflexivity|].
    split; [reflexivity|]. exists e. cbn [add_stdout stdout]. now rewrite Hout.
  - destruct (Hprint (Some (output_path_in rt "pdf/a.pdf" "output")) w2)
      as (H1 & H2 & H3 & H4 & H5).
    cbn [Main.truthy_result] in *.
    split; [exact H1|]. split; [exact H2|].
    split; [now rewrite H3|]. split; [now rewrite H4|].
    eexists. split; [exact H5|]. split; [exact Hout|].
    destruct (truthy_str _); reflexivity.
Qed.
